(** * Booking saga: ledger, reservation pool and booking orchestrator

    A shallow embedding of the three Go services of the booking saga: the
    ledger (account/app/main.go) and, from orders/app/main.go, which holds
    several services one after the other, the book service and the events
    service; with the properties of the saga that hold, or fail, on that
    code.

    Every service is a Go [package main]; the embedding gives each its own
    module ([Account], [Events], [Book]) and keeps the Go names inside.
    SQL tables are lists of rows, a prepared statement is a function on the
    table, an HTTP handler is a function from the request and the table to
    the response status, the callbacks sent and the new table. *)

From Stdlib Require Import ZArith List String Ascii Bool Lia.
From Stdlib Require Import Decimal DecimalString DecimalFacts DecimalPos DecimalZ.
Import ListNotations.

Local Open Scope string_scope.
Local Open Scope Z_scope.

(** * The parts of the Go runtime and standard library the services use *)

Module Go.

(** ** [int]: 64 bits, two's complement *)

Definition minInt : Z := - 2 ^ 63.
Definition maxInt : Z := 2 ^ 63 - 1.

Definition is_int (z : Z) : bool := (minInt <=? z) && (z <=? maxInt).

Definition wrap (z : Z) : Z := (z - minInt) mod 2 ^ 64 + minInt.

(** Unary minus on [int]. *)
Definition neg (z : Z) : Z := wrap (- z).

(** ** [error] *)

Inductive error : Type :=
| errorsNew (msg : string)     (* errors.New(msg) *)
| ErrNoRows                    (* sql.ErrNoRows *)
| ErrDriver                    (* the storage refused or lost the statement *)
| ErrScan                      (* Row.Scan: the column does not fit its destination *)
| ErrTransport.                (* http.Client.Do could not reach the peer *)

(** ** strings *)

(** The double quote, and a way to write Go string literals that contain it:
    [q] turns every apostrophe of its argument into a double quote. *)
Definition dquote : ascii := ascii_of_nat 34.

Fixpoint q (s : string) : string :=
  match s with
  | EmptyString => EmptyString
  | String c s' => String (if Ascii.eqb c "'" then dquote else c) (q s')
  end.

Definition is_digit (c : ascii) : bool :=
  let n := nat_of_ascii c in (48 <=? n)%nat && (n <=? 57)%nat.

Definition is_space (c : ascii) : bool :=
  let n := nat_of_ascii c in
  (n =? 32)%nat || (n =? 9)%nat || (n =? 10)%nat || (n =? 13)%nat.

(** ASCII lower case, for the case-insensitive match of JSON keys. *)
Definition lower (c : ascii) : ascii :=
  let n := nat_of_ascii c in
  if (65 <=? n)%nat && (n <=? 90)%nat then ascii_of_nat (n + 32) else c.

Fixpoint equalFold (a b : string) : bool :=
  match a, b with
  | EmptyString, EmptyString => true
  | String x a', String y b' => Ascii.eqb (lower x) (lower y) && equalFold a' b'
  | _, _ => false
  end.

Fixpoint all_digits (s : string) : bool :=
  match s with
  | EmptyString => true
  | String c s' => is_digit c && all_digits s'
  end.

(** ** strconv *)

(** [strconv.Itoa]: decimal, a minus sign for negatives, no leading zero. *)
Definition Itoa (z : Z) : string := NilZero.string_of_int (Z.to_int z).

Definition digits_value (ds : string) : option Z :=
  match ds with
  | EmptyString => None
  | _ => if all_digits ds
         then option_map Z.of_uint (NilEmpty.uint_of_string ds)
         else None
  end.

Definition in_range (z : option Z) : option Z :=
  match z with
  | Some v => if is_int v then Some v else None
  | None => None
  end.

(** [strconv.Atoi]: an optional sign, then one or more decimal digits; the
    value has to fit an [int]. *)
Definition Atoi (s : string) : option Z :=
  match s with
  | String "-" ds => in_range (option_map Z.opp (digits_value ds))
  | String "+" ds => in_range (digits_value ds)
  | _ => in_range (digits_value s)
  end.

(** ** fmt *)

Fixpoint extraArgs (args : list Z) : string :=
  match args with
  | [] => ""
  | [a] => "int=" ++ Itoa a
  | a :: rest => "int=" ++ Itoa a ++ ", " ++ extraArgs rest
  end.

(** [fmt.Sprintf] for formats whose only verb is [%d] and whose operands are
    [int]s.  Operands are taken in order, one per verb.  A verb with no
    operand left prints [%!d(MISSING)]; operands left after the last verb are
    appended as [%!(EXTRA int=v, ...)]. *)
Fixpoint Sprintf (format : string) (args : list Z) : string :=
  match format with
  | EmptyString =>
      match args with
      | [] => ""
      | _ => "%!(EXTRA " ++ extraArgs args ++ ")"
      end
  | String "%" (String "d" rest) =>
      match args with
      | a :: args' => Itoa a ++ Sprintf rest args'
      | [] => "%!d(MISSING)" ++ Sprintf rest []
      end
  | String c rest => String c (Sprintf rest args)
  end.

(** ** encoding/json

    [json.NewDecoder(r.Body).Decode(&v)] for the request models of the
    services: structs whose fields are [int]s and [bool]s.  The decoder reads
    ONE value from the stream and leaves what follows it unread, so bytes
    after the closing brace are not an error.  The fragment modelled is a flat
    object whose values are integer literals, [true], [false], [null] or
    strings without escapes; any other text is reported as a decoding error
    ([None]).  For the [int] and [bool] fields of these models that is what
    the decoder answers for a fraction, an exponent or a nested value; under
    a key that no field reads the decoder of Go skips such a value, and it
    decodes the escapes of a string: a body of that kind is outside the
    fragment.  The properties below that are about a decoded body take the
    result of the decoder as a hypothesis. *)

Inductive jvalue : Type :=
| jnumber (lit : string)
| jbool (b : bool)
| jnull
| jstring (s : string).

Fixpoint skip_ws (s : string) : string :=
  match s with
  | String c s' => if is_space c then skip_ws s' else s
  | EmptyString => s
  end.

Fixpoint span_digits (s : string) : string * string :=
  match s with
  | String c s' =>
      if is_digit c
      then let (d, r) := span_digits s' in (String c d, r)
      else (EmptyString, s)
  | EmptyString => (EmptyString, EmptyString)
  end.

Fixpoint strip_prefix (p s : string) : option string :=
  match p, s with
  | EmptyString, _ => Some s
  | String a p', String b s' => if Ascii.eqb a b then strip_prefix p' s' else None
  | _, _ => None
  end.

(** The text of a string after its opening quote, up to the closing one. *)
Fixpoint scan_string (s : string) : option (string * string) :=
  match s with
  | EmptyString => None
  | String c s' =>
      if Ascii.eqb c dquote then Some (EmptyString, s')
      else if Ascii.eqb c "\" then None
      else if (nat_of_ascii c <? 32)%nat then None
      else match scan_string s' with
           | Some (t, r) => Some (String c t, r)
           | None => None
           end
  end.

Definition starts_fraction (s : string) : bool :=
  match s with
  | String c _ => Ascii.eqb c "." || Ascii.eqb c "e" || Ascii.eqb c "E"
  | EmptyString => false
  end.

(** An integer literal: an optional minus, digits, no leading zero. *)
Definition scan_number (s : string) : option (string * string) :=
  let (sign, s1) := match s with
                    | String "-" s' => ("-", s')
                    | _ => ("", s)
                    end in
  let (ds, rest) := span_digits s1 in
  match ds with
  | EmptyString => None
  | String "0" (String _ _) => None
  | _ => if starts_fraction rest then None else Some (sign ++ ds, rest)
  end.

Definition scan_value (s : string) : option (jvalue * string) :=
  match s with
  | EmptyString => None
  | String c s' =>
      if Ascii.eqb c dquote then
        match scan_string s' with
        | Some (t, r) => Some (jstring t, r)
        | None => None
        end
      else match strip_prefix "true" s with
      | Some r => Some (jbool true, r)
      | None =>
      match strip_prefix "false" s with
      | Some r => Some (jbool false, r)
      | None =>
      match strip_prefix "null" s with
      | Some r => Some (jnull, r)
      | None =>
      match scan_number s with
      | Some (lit, r) => Some (jnumber lit, r)
      | None => None
      end end end end
  end.

(** The members of an object, from just after a brace or a comma. *)
Fixpoint members (fuel : nat) (s : string) (acc : list (string * jvalue))
  : option (list (string * jvalue)) :=
  match fuel with
  | O => None
  | S fuel' =>
      match skip_ws s with
      | String c s1 =>
          if Ascii.eqb c dquote then
            match scan_string s1 with
            | Some (k, s2) =>
                match skip_ws s2 with
                | String ":" s3 =>
                    match scan_value (skip_ws s3) with
                    | Some (v, s4) =>
                        match skip_ws s4 with
                        | String "," s5 => members fuel' s5 (acc ++ [(k, v)])%list
                        | String "}" _ => Some (acc ++ [(k, v)])%list
                        | _ => None
                        end
                    | None => None
                    end
                | _ => None
                end
            | None => None
            end
          else None
      | EmptyString => None
      end
  end.

(** The first JSON value of the stream, as the members a struct is filled
    from: an object gives its members, [null] leaves the struct as it is. *)
Definition parseObject (s : string) : option (list (string * jvalue)) :=
  match skip_ws s with
  | String "{" s1 =>
      match skip_ws s1 with
      | String "}" _ => Some []
      | _ => members (String.length s) s1 []
      end
  | String "n" _ =>
      match strip_prefix "null" (skip_ws s) with
      | Some _ => Some []
      | None => None
      end
  | _ => None
  end.

(** An [int] field tagged [name]: every member whose key matches the tag
    (exactly or up to case) assigns it, in the order of the text; [null]
    assigns nothing; a value of another type, or out of range, is an error. *)
Fixpoint intField (name : string) (ms : list (string * jvalue)) (cur : Z)
  : option Z :=
  match ms with
  | [] => Some cur
  | (k, v) :: ms' =>
      if equalFold k name then
        match v with
        | jnull => intField name ms' cur
        | jnumber lit =>
            match Atoi lit with
            | Some z => intField name ms' z
            | None => None
            end
        | _ => None
        end
      else intField name ms' cur
  end.

Fixpoint boolField (name : string) (ms : list (string * jvalue)) (cur : bool)
  : option bool :=
  match ms with
  | [] => Some cur
  | (k, v) :: ms' =>
      if equalFold k name then
        match v with
        | jnull => boolField name ms' cur
        | jbool b => boolField name ms' b
        | _ => None
        end
      else boolField name ms' cur
  end.

Fixpoint stringField (name : string) (ms : list (string * jvalue)) (cur : string)
  : option string :=
  match ms with
  | [] => Some cur
  | (k, v) :: ms' =>
      if equalFold k name then
        match v with
        | jnull => stringField name ms' cur
        | jstring t => stringField name ms' t
        | _ => None
        end
      else stringField name ms' cur
  end.

(** [json.Marshal] of a struct of [int] and [bool] fields, given as the
    tagged fields in declaration order. *)
Definition marshalValue (v : Z + bool) : string :=
  match v with
  | inl z => Itoa z
  | inr true => "true"
  | inr false => "false"
  end.

Fixpoint marshalFields (fs : list (string * (Z + bool))) : string :=
  match fs with
  | [] => ""
  | [(k, v)] => String dquote k ++ String dquote ":" ++ marshalValue v
  | (k, v) :: fs' =>
      String dquote k ++ String dquote ":" ++ marshalValue v ++ "," ++ marshalFields fs'
  end.

Definition Marshal (fs : list (string * (Z + bool))) : string :=
  "{" ++ marshalFields fs ++ "}".

(** ** net/http *)

Definition StatusOK : Z := 200.
Definition StatusMovedPermanently : Z := 301.
Definition StatusBadRequest : Z := 400.
Definition StatusUnauthorized : Z := 401.
Definition StatusMethodNotAllowed : Z := 405.
Definition StatusNotFound : Z := 404.
Definition StatusInternalServerError : Z := 500.

Definition MethodPost : string := "POST".
Definition MethodPut : string := "PUT".
Definition MethodGet : string := "GET".

Record Request : Type := mkRequest {
  Method : string;
  URL : string;
  Header : list (string * string);
  Body : string
}.

(** The bytes of a header name: the token characters of HTTP. *)
Definition validHeaderFieldByte (c : ascii) : bool :=
  let n := N_of_ascii c in
  ((65 <=? n) && (n <=? 90) || (97 <=? n) && (n <=? 122) ||
   (48 <=? n) && (n <=? 57) ||
   existsb (N.eqb n) [33; 35; 36; 37; 38; 39; 42; 43; 45; 46; 94; 95; 96; 124; 126])%N.

Fixpoint validHeaderField (s : string) : bool :=
  match s with
  | EmptyString => true
  | String c s' => validHeaderFieldByte c && validHeaderField s'
  end.

(** The first letter and every letter after a hyphen in upper case, the
    other letters in lower case.  A hyphen is a hyphen before and after. *)
Definition canonicalByte (upper : bool) (c : ascii) : ascii :=
  let n := N_of_ascii c in
  if (upper && (97 <=? n) && (n <=? 122))%N then ascii_of_N (n - 32)
  else if (negb upper && (65 <=? n) && (n <=? 90))%N then ascii_of_N (n + 32)
  else c.

Fixpoint canonical (upper : bool) (s : string) : string :=
  match s with
  | EmptyString => EmptyString
  | String c s' =>
      String (canonicalByte upper c) (canonical (Ascii.eqb c "-") s')
  end.

(** [textproto.CanonicalMIMEHeaderKey]: a name that is no token is left as
    it is. *)
Definition CanonicalMIMEHeaderKey (s : string) : string :=
  if validHeaderField s then canonical true s else s.

(** The header of a request holds the names as they were sent.  The server
    files them under their canonical form when it reads the request, and
    [Header.Set] and [Header.Get] take the canonical form of the name they
    are given: so every lookup is by canonical name.  [NewRequest] is
    [http.NewRequest]; [HeaderHas r k] is the map index [headers[k]], which
    takes [k] as it is written. *)
Definition NewRequest (method url body : string) : Request :=
  mkRequest method url [] body.

Definition HeaderSet (r : Request) (k v : string) : Request :=
  mkRequest (Method r) (URL r)
    ((CanonicalMIMEHeaderKey k, v)
       :: filter (fun kv => negb (String.eqb (CanonicalMIMEHeaderKey (fst kv))
                                             (CanonicalMIMEHeaderKey k)))
                 (Header r))
    (Body r).

Definition HeaderGet (r : Request) (k : string) : string :=
  match find (fun kv => String.eqb (CanonicalMIMEHeaderKey (fst kv))
                                   (CanonicalMIMEHeaderKey k))
             (Header r) with
  | Some kv => snd kv
  | None => ""
  end.

Definition HeaderHas (r : Request) (k : string) : bool :=
  existsb (fun kv => String.eqb (CanonicalMIMEHeaderKey (fst kv)) k) (Header r).

(** What [http.Client.Do] gives back: an error, or a response of which the
    services read the status code only. *)
Inductive RoundTrip : Type :=
| doError
| doResponse (StatusCode : Z).

(** [http.ResponseWriter]: the status code written so far.  Only the first
    [WriteHeader] counts; a handler that returns without one answers 200. *)
Definition ResponseWriter : Type := option Z.

Definition WriteHeader (w : ResponseWriter) (code : Z) : ResponseWriter :=
  match w with
  | Some _ => w
  | None => Some code
  end.

Definition statusCode (w : ResponseWriter) : Z :=
  match w with
  | Some c => c
  | None => StatusOK
  end.

(** The path of an absolute [http://host/path?query] URL, as [URL.Path]
    holds it: from the first slash after the host up to the query or the
    fragment.  It is what the router of the service behind [host] matches its
    routes against. *)
Fixpoint from_slash (s : string) : string :=
  match s with
  | EmptyString => "/"
  | String c s' => if Ascii.eqb c "/" then s else from_slash s'
  end.

Fixpoint upto_query (s : string) : string :=
  match s with
  | EmptyString => EmptyString
  | String c s' =>
      if Ascii.eqb c "?" || Ascii.eqb c "#" then EmptyString
      else String c (upto_query s')
  end.

Definition urlPath (url : string) : string :=
  match strip_prefix "http://" url with
  | Some rest => from_slash (upto_query rest)
  | None => upto_query url
  end.

(** The elements of a path: the texts between its slashes. *)
Fixpoint elements (s : string) : list string :=
  match s with
  | EmptyString => [EmptyString]
  | String c s' =>
      if Ascii.eqb c "/" then EmptyString :: elements s'
      else match elements s' with
           | e :: es => String c e :: es
           | [] => [String c EmptyString]
           end
  end.

Fixpoint joinPath (es : list string) : string :=
  match es with
  | [] => EmptyString
  | e :: es' => "/" ++ e ++ joinPath es'
  end.

(** [path.Clean] of a rooted path: empty elements and [.] are dropped, and
    [..] drops the element before it, or itself at the root.  [kept] is the
    stack of the elements kept so far, last first. *)
Definition cleanStep (kept : list string) (e : string) : list string :=
  if String.eqb e "" || String.eqb e "." then kept
  else if String.eqb e ".." then List.tl kept
  else e :: kept.

Definition Clean (p : string) : string :=
  match List.rev (fold_left cleanStep (elements p) []) with
  | [] => "/"
  | es => joinPath es
  end.

Fixpoint ends_in_slash (s : string) : bool :=
  match s with
  | EmptyString => false
  | String c EmptyString => Ascii.eqb c "/"
  | String _ s' => ends_in_slash s'
  end.

(** [cleanPath] of gorilla/mux: the clean form of the path, with the slash
    the path ends in put back.  The router answers a request whose path is
    not in this form with a redirect to it, before it looks for a route. *)
Definition cleanPath (p : string) : string :=
  match p with
  | EmptyString => "/"
  | String c _ =>
      let p := if Ascii.eqb c "/" then p else "/" ++ p in
      let np := Clean p in
      if ends_in_slash p && negb (String.eqb np "/") then np ++ "/" else np
  end.

Definition unclean (p : string) : bool := negb (String.eqb (cleanPath p) p).

(** ** database/sql

    The storage as one request finds it: for each prepared statement of the
    service, named as the variable that holds it, whether its execution
    reaches the database ([true]) or comes back with an error of the driver.
    [storageUp] is the database that answers every statement. *)
Definition storage : Type := string -> bool.

Definition storageUp : storage := fun _ => true.

(** ** Vocabulary of the facts on printing and reading numbers *)

(** A decimal numeral that starts with a digit other than 0. *)
Definition headed (u : uint) : Prop :=
  match u with
  | Nil | D0 _ => False
  | _ => True
  end.

(** What may follow an integer literal: nothing, or a character that is no
    digit and starts no fraction or exponent. *)
Definition ends_number (rest : string) : bool :=
  match rest with
  | EmptyString => true
  | String c _ => negb (is_digit c) && negb (starts_fraction rest)
  end.

End Go.

(** * The ledger: account/app/main.go *)

Module Account.
Import Go.

(** ** Models *)

Record deltaModel : Type := mkDelta {
  Delta : Z
}.

Record withdrawalRequestModel : Type := mkWithdrawalRequest {
  wr_BookID : Z;
  WithDrawSum : Z
}.

Record withDrawalResponseModel : Type := mkWithDrawalResponse {
  wc_BookID : Z;
  wc_UserID : Z;
  wc_Price : Z;
  wc_Status : bool
}.

Definition decodeDelta (body : string) : option deltaModel :=
  match parseObject body with
  | Some ms => option_map mkDelta (intField "delta" ms 0)
  | None => None
  end.

Definition decodeWithdrawalRequest (body : string)
  : option withdrawalRequestModel :=
  match parseObject body with
  | Some ms =>
      match intField "book_id" ms 0, intField "withdrawal_sum" ms 0 with
      | Some b, Some s => Some (mkWithdrawalRequest b s)
      | _, _ => None
      end
  | None => None
  end.

Definition marshalWithDrawalResponse (r : withDrawalResponseModel) : string :=
  Marshal [("book_id", inl (wc_BookID r)); ("user_id", inl (wc_UserID r));
           ("price", inl (wc_Price r)); ("status", inr (wc_Status r))].

(** ** Table [account]

    A row is a ledger entry: [status] 0 is Pending, 1 is Committed. *)

Record entry : Type := mkEntry {
  user_id : Z;
  request_id : string;
  delta : Z;
  status : Z
}.

Definition table : Type := list entry.

Definition ordersCallbackEndpoint : string :=
  "http://book.saga.svc.cluster.local:9000/book/callback/account".

Definition has_key (uid : Z) (rid : string) (e : entry) : bool :=
  (user_id e =? uid) && String.eqb (request_id e) rid.

Definition pending (uid : Z) (rid : string) (e : entry) : bool :=
  has_key uid rid e && (status e =? 0).

Definition committed (uid : Z) (rid : string) (e : entry) : bool :=
  has_key uid rid e && (status e =? 1).

(** [SELECT COALESCE(SUM(delta),0) FROM account WHERE user_id=$1 AND status=1] *)
Definition getBalanceTpl (t : table) (uid : Z) : Z :=
  fold_right Z.add 0
    (map delta (filter (fun e => (user_id e =? uid) && (status e =? 1)) t)).

(** [UPDATE account SET delta=$3, status=1
     WHERE user_id=$1 AND request_id=$2 AND status=0]:
    the new table and the number of rows affected. *)
Definition updateBalanceTpl (t : table) (uid : Z) (rid : string) (d : Z)
  : table * Z :=
  (map (fun e => if pending uid rid e then mkEntry uid rid d 1 else e) t,
   Z.of_nat (List.length (filter (pending uid rid) t))).

Section Ledger.

(** The declaration of table [account] is missing from the sources.
    [unique_request] is whether it declares (user_id, request_id) unique, as
    the data model of the specification has it: the insert of a second row
    with the same pair is then refused by the storage. *)
Variable unique_request : bool.

(** [INSERT INTO account (user_id, request_id, delta, status)
     VALUES ($1, $2, 0, 0)]: the new table, or the violation. *)
Definition prepareOperationTpl (t : table) (uid : Z) (rid : string)
  : option table :=
  if unique_request && existsb (has_key uid rid) t
  then None
  else Some (t ++ [mkEntry uid rid 0 0])%list.

(** ** Storage functions *)

(** The sum is scanned into an [int]: a sum that does not fit one is an
    error of [Scan], which leaves [balance] at 0. *)
Definition getbalance (io : storage) (t : table) (id : Z) : Z * option error :=
  if io "getbalanceStmt" then
    if is_int (getBalanceTpl t id) then (getBalanceTpl t id, None)
    else (0, Some ErrScan)
  else (0, Some ErrDriver).

Definition updatebalance (io : storage) (t : table)
                         (uid : Z) (rid : string) (d : Z)
  : table * option error :=
  if io "updateBalanceStmt" then
    let (t', n) := updateBalanceTpl t uid rid d in
    if n =? 0 then (t, Some (errorsNew "balance did not change"))
    else (t', None)
  else (t, Some ErrDriver).

(** ** Handlers *)

Record outcome : Type := mkOutcome {
  code : Z;                      (* status of the HTTP response *)
  sent : list Request;           (* requests the handler made, in order *)
  db : table
}.

Definition sendCallback (r : withDrawalResponseModel) : Request :=
  HeaderSet
    (NewRequest "POST" ordersCallbackEndpoint (marshalWithDrawalResponse r))
    "X-User-Id" (Itoa (wc_UserID r)).

Definition get (io : storage) (r : Request) (t : table) : outcome * string :=
  match Atoi (HeaderGet r "X-User-Id") with
  | None => (mkOutcome StatusInternalServerError [] t, "")
  | Some id =>
      match getbalance io t id with
      | (_, Some _) => (mkOutcome StatusInternalServerError [] t, "")
      | (b, None) =>
          (mkOutcome StatusOK [] t, Sprintf (q "{'balance':%d}") [b])
      end
  end.

(** The user id goes to the statement as the text of the header; the
    storage reads it as an integer, or refuses the statement. *)
Definition newReq (io : storage) (r : Request) (t : table) : outcome :=
  let uid := HeaderGet r "X-User-Id" in
  let rid := HeaderGet r "X-Request-Id" in
  match (if io "prepareOperationStmt" then Atoi uid else None) with
  | None => mkOutcome StatusInternalServerError [] t
  | Some u =>
      match prepareOperationTpl t u rid with
      | None => mkOutcome StatusInternalServerError [] t
      | Some t' => mkOutcome StatusOK [] t'
      end
  end.

Definition deposit (io : storage) (r : Request) (t : table) : outcome :=
  let rid := HeaderGet r "X-Request-Id" in
  if String.eqb rid "" then mkOutcome StatusBadRequest [] t
  else
    match Atoi (HeaderGet r "X-User-Id") with
    | None => mkOutcome StatusInternalServerError [] t
    | Some uid =>
        match decodeDelta (Body r) with
        | None => mkOutcome StatusBadRequest [] t
        | Some d =>
            match updatebalance io t uid rid (Delta d) with
            | (t', Some _) => mkOutcome StatusInternalServerError [] t'
            | (t', None) => mkOutcome StatusOK [] t'
            end
        end
    end.

Definition withdrawal (io : storage) (r : Request) (t : table) : outcome :=
  let rid := HeaderGet r "X-Request-Id" in
  match Atoi (HeaderGet r "X-User-Id") with
  | None => mkOutcome StatusInternalServerError [] t
  | Some uid =>
      match decodeWithdrawalRequest (Body r) with
      | None => mkOutcome StatusBadRequest [] t
      | Some wr =>
          let (b, err) := getbalance io t uid in
          let w : ResponseWriter :=
            match err with
            | Some _ => WriteHeader None StatusInternalServerError
            | None => None
            end in
          let wc := mkWithDrawalResponse (wr_BookID wr) uid (WithDrawSum wr) false in
          if WithDrawSum wr >? b then
            mkOutcome (statusCode (WriteHeader w StatusInternalServerError))
                      [sendCallback wc] t
          else
            match updatebalance io t uid rid (neg (WithDrawSum wr)) with
            | (t', Some _) =>
                mkOutcome (statusCode (WriteHeader w StatusInternalServerError))
                          [sendCallback wc] t'
            | (t', None) =>
                mkOutcome (statusCode (WriteHeader w StatusOK))
                          [sendCallback
                             (mkWithDrawalResponse (wr_BookID wr) uid
                                                   (WithDrawSum wr) true)] t'
            end
      end
  end.

Definition isAuthenticatedMiddleware (h : Request -> table -> outcome)
  (r : Request) (t : table) : outcome :=
  if HeaderHas r "X-User-Id" then h r t
  else mkOutcome StatusUnauthorized [] t.

(** The routes of [main]: a path that is not in clean form is redirected, a
    path that is registered under another method answers 405, an unknown
    path 404. *)
Definition ServeHTTP (io : storage) (r : Request) (t : table) : outcome :=
  let path := urlPath (URL r) in
  if unclean path then mkOutcome StatusMovedPermanently [] t
  else if String.eqb path "/account/genreq" then
    if String.eqb (Method r) "GET"
    then isAuthenticatedMiddleware (newReq io) r t
    else mkOutcome StatusMethodNotAllowed [] t
  else if String.eqb path "/account/get" then
    isAuthenticatedMiddleware (fun r t => fst (get io r t)) r t
  else if String.eqb path "/account/deposit" then
    if String.eqb (Method r) "POST"
    then isAuthenticatedMiddleware (deposit io) r t
    else mkOutcome StatusMethodNotAllowed [] t
  else if String.eqb path "/account/withdrawal" then
    if String.eqb (Method r) "POST"
    then isAuthenticatedMiddleware (withdrawal io) r t
    else mkOutcome StatusMethodNotAllowed [] t
  else mkOutcome StatusNotFound [] t.

End Ledger.

(** ** Vocabulary of the ledger properties *)

(** The entries of one (user, token) pair. *)
Definition entries_for (uid : Z) (rid : string) (t : table) : table :=
  filter (has_key uid rid) t.

(** A request of user [uid] that carries token [rid]. *)
Definition tokenRequest (method url : string) (uid : Z) (rid body : string)
  : Request :=
  HeaderSet (HeaderSet (NewRequest method url body) "X-Request-Id" rid)
            "X-User-Id" (Itoa uid).

(** "The second reserveToken with the same token is accepted as a no-op":
    it answers 200 and exactly one Pending entry with delta 0 exists for the
    pair afterwards. *)
Definition is_nil (e : option error) : bool :=
  match e with
  | None => true
  | Some _ => false
  end.

Definition second_reserve_accepted (unique_request : bool)
                                   (r : Request) (uid : Z) (t : table) : Prop :=
  let o1 := newReq unique_request storageUp r t in
  let o2 := newReq unique_request storageUp r (db o1) in
  code o2 = StatusOK /\
  entries_for uid (HeaderGet r "X-Request-Id") (db o2)
  = [mkEntry uid (HeaderGet r "X-Request-Id") 0 0].

(** A ledger with 50 committed for user 1 and token [r2] reserved, a
    withdrawal of 70 for booking 3, and a storage that fails the read of the
    balance. *)
Definition richLedger : table :=
  [mkEntry 1 "r1" 50 1; mkEntry 1 "r2" 0 0].

Definition withdraw70 (rid : string) : Request :=
  tokenRequest "POST" "http://arch.homework/account/withdrawal" 1 rid
               (q "{'book_id':3,'withdrawal_sum':70}").

Definition balanceStmtDown : storage :=
  fun stmt => negb (String.eqb stmt "getbalanceStmt").

(** The ledger serving requests one after the other: the statuses it
    answers and the table it is left with. *)
Fixpoint serveAll (unique_request : bool) (rs : list Request) (t : table)
  : list Z * table :=
  match rs with
  | [] => ([], t)
  | r :: rs' =>
      let o := ServeHTTP unique_request storageUp r t in
      let (codes, t') := serveAll unique_request rs' (db o) in
      (code o :: codes, t')
  end.

(** The acceptance run of the README, for user 1: a deposit by PUT with no
    token, the reservation of a token, a deposit of 50 with it, the same
    deposit again, and a deposit with a token that was not reserved. *)
Definition acceptanceRun : list Request :=
  [tokenRequest "PUT" "http://arch.homework/account/deposit" 1 ""
                (q "{'delta':100}");
   tokenRequest "GET" "http://arch.homework/account/genreq" 1
                "e13a61186ebc8d9ee8f92422883fc22d" "";
   tokenRequest "POST" "http://arch.homework/account/deposit" 1
                "e13a61186ebc8d9ee8f92422883fc22d" (q "{'delta':50}");
   tokenRequest "POST" "http://arch.homework/account/deposit" 1
                "e13a61186ebc8d9ee8f92422883fc22d" (q "{'delta':50}");
   tokenRequest "POST" "http://arch.homework/account/deposit" 1
                "000000" (q "{'delta':50}")].

(** The first request of the acceptance run of the README. *)
Definition genreq1 : Request :=
  tokenRequest "GET" "http://arch.homework/account/genreq" 1 "r1" "".

(** The key of an entry. *)
Definition key (e : entry) : Z * string := (user_id e, request_id e).

(** The ledger after the acceptance run, and a deposit of user 1 with a
    token that is not reserved. *)
Definition afterAcceptance : table :=
  [mkEntry 1 "e13a61186ebc8d9ee8f92422883fc22d" 50 1].

Definition depositUnreserved : Request :=
  tokenRequest "POST" "http://arch.homework/account/deposit" 1 "000000"
               (q "{'delta':50}").

(** A ledger whose committed deltas of user 1 add up to more than an [int]
    holds, with token [r2] reserved. *)
Definition overflowing : table :=
  [mkEntry 1 "r0" maxInt 1; mkEntry 1 "r1" 1 1; mkEntry 1 "r2" 0 0].

(** A withdrawal of a negative amount, for booking 3, with token [r2]. *)
Definition withdrawMinus30 : Request :=
  tokenRequest "POST" "http://arch.homework/account/withdrawal" 1 "r2"
               (q "{'book_id':3,'withdrawal_sum':-30}").

End Account.

(** * The reservation pool: the events service *)

Module Events.
Import Go.

(** ** Models *)

Record eventModel : Type := mkEvent {
  ID : Z;
  Name : string;
  Price : Z;
  TotalSlots : Z
}.

Record occupyRequestModel : Type := mkOccupyRequest {
  BookID : Z;
  EventID : Z
}.

Record occupiedResponseModel : Type := mkOccupiedResponse {
  ro_BookID : Z;
  ro_UserID : Z;
  ro_Price : Z;
  ro_Status : bool
}.

Definition decodeEvent (body : string) : option eventModel :=
  match parseObject body with
  | Some ms =>
      match intField "id" ms 0, stringField "event_name" ms "",
            intField "price" ms 0, intField "total_slots" ms 0 with
      | Some i, Some n, Some p, Some t => Some (mkEvent i n p t)
      | _, _, _, _ => None
      end
  | None => None
  end.

Definition decodeOccupyRequest (body : string) : option occupyRequestModel :=
  match parseObject body with
  | Some ms =>
      match intField "book_id" ms 0, intField "event_id" ms 0 with
      | Some b, Some e => Some (mkOccupyRequest b e)
      | _, _ => None
      end
  | None => None
  end.

Definition marshalOccupiedResponse (r : occupiedResponseModel) : string :=
  Marshal [("book_id", inl (ro_BookID r)); ("user_id", inl (ro_UserID r));
           ("price", inl (ro_Price r)); ("status", inr (ro_Status r))].

(** ** Tables [events] and [slots]

    A row of [slots] is an occupancy record: booking [book_id] holds one unit
    of the capacity of event [event_id]. *)

Record slot : Type := mkSlot {
  event_id : Z;
  book_id : Z
}.

(** Modelled from the spec: the declaration of table [events] is missing
    from the sources.  The insert names no id and an event is looked up by
    its id, so the id of a new row is assigned by the storage: it is taken
    from a sequence kept with the tables. *)
Record database : Type := mkDatabase {
  events : list eventModel;
  slots : list slot;
  events_id_seq : Z
}.

Definition bookCallbackEndpoint : string :=
  "http://book.saga.svc.cluster.local:9000/book/callback/events".

(** [INSERT INTO events (event_name, price, total_slots) VALUES ($1, $2, $3)] *)
Definition createEventTpl (d : database) (name : string) (price total : Z)
  : database :=
  mkDatabase (events d ++ [mkEvent (events_id_seq d) name price total])%list
             (slots d) (events_id_seq d + 1).

(** [DELETE FROM slots WHERE book_id = $1] *)
Definition cancelSlotTpl (d : database) (bid : Z) : database :=
  mkDatabase (events d)
             (filter (fun s => negb (book_id s =? bid)) (slots d))
             (events_id_seq d).

(** [SELECT COUNT(1) FROM slots WHERE event_id=$1] *)
Definition occupiedSlotsTpl (d : database) (eid : Z) : Z :=
  Z.of_nat (List.length (filter (fun s => event_id s =? eid) (slots d))).

(** [SELECT id, event_name, price, total_slots FROM events WHERE id=$1],
    read by [QueryRow]: the first row, if any. *)
Definition getEventTpl (d : database) (id : Z) : option eventModel :=
  find (fun e => ID e =? id) (events d).

Section Pool.

(** The declaration of table [slots] is missing from the sources.
    [unique_slot] is whether it declares (event_id, book_id) unique, as the
    data model of the specification has it: the insert of a second record of
    the same pair is then refused by the storage. *)
Variable unique_slot : bool.

Definition same_slot (a b : slot) : bool :=
  (event_id a =? event_id b) && (book_id a =? book_id b).

(** [INSERT INTO slots (event_id, book_id) VALUES ($1, $2)] *)
Definition occupySlotTpl (d : database) (eid bid : Z) : option database :=
  if unique_slot && existsb (same_slot (mkSlot eid bid)) (slots d)
  then None
  else Some (mkDatabase (events d) (slots d ++ [mkSlot eid bid])%list
                        (events_id_seq d)).

(** ** Storage functions *)

Definition createEvent (io : storage) (d : database)
                       (name : string) (price totalSlots : Z)
  : database * option error :=
  if io "createEventStmt" then (createEventTpl d name price totalSlots, None)
  else (d, Some ErrDriver).

Definition getEvent (io : storage) (d : database) (id : Z)
  : option eventModel * option error :=
  if io "getEventStmt" then
    match getEventTpl d id with
    | Some e => (Some e, None)
    | None => (None, Some ErrNoRows)
    end
  else (None, Some ErrDriver).

Definition getTotalSlots (io : storage) (d : database) (id : Z) : Z :=
  match getEvent io d id with
  | (Some e, None) => TotalSlots e
  | _ => 0
  end.

Definition getOccupiedSlots (io : storage) (d : database) (id : Z) : Z :=
  if io "occupiedSlotsStmt" then occupiedSlotsTpl d id else 0.

Definition occupySlot (io : storage) (d : database) (eid oid : Z)
  : database * option error :=
  if io "occupySlotStmt" then
    match occupySlotTpl d eid oid with
    | Some d' => (d', None)
    | None => (d, Some ErrDriver)
    end
  else (d, Some ErrDriver).

(** ** Handlers *)

Record outcome : Type := mkOutcome {
  code : Z;
  sent : list Request;
  db : database
}.

Definition getUserID (r : Request) : option Z := Atoi (HeaderGet r "X-User-Id").

Definition sendCallback (r : occupiedResponseModel) : Request :=
  HeaderSet
    (NewRequest "POST" bookCallbackEndpoint (marshalOccupiedResponse r))
    "X-User-Id" (Itoa (ro_UserID r)).

Definition create (io : storage) (r : Request) (d : database) : outcome :=
  match decodeEvent (Body r) with
  | None => mkOutcome StatusInternalServerError [] d
  | Some e =>
      match createEvent io d (Name e) (Price e) (TotalSlots e) with
      | (d', Some _) => mkOutcome StatusInternalServerError [] d'
      | (d', None) => mkOutcome StatusOK [] d'
      end
  end.

Definition occupy (io : storage) (r : Request) (d : database) : outcome :=
  match getUserID r with
  | None => mkOutcome StatusUnauthorized [] d
  | Some uid =>
      match decodeOccupyRequest (Body r) with
      | None => mkOutcome StatusBadRequest [] d
      | Some o =>
          let ro := mkOccupiedResponse (BookID o) uid 0 false in
          match getEvent io d (EventID o) with
          | (Some e, None) =>
              let ro := mkOccupiedResponse (BookID o) uid (Price e) false in
              let total := getTotalSlots io d (EventID o) in
              let occupied := getOccupiedSlots io d (EventID o) in
              if total >? occupied then
                match occupySlot io d (EventID o) (BookID o) with
                | (d', Some _) =>
                    mkOutcome StatusInternalServerError [sendCallback ro] d'
                | (d', None) =>
                    mkOutcome StatusOK
                      [sendCallback
                         (mkOccupiedResponse (BookID o) uid (Price e) true)] d'
                end
              else mkOutcome StatusOK [sendCallback ro] d
          | _ => mkOutcome StatusInternalServerError [sendCallback ro] d
          end
      end
  end.

(** [occupy] in two steps.  Its statements are executed one by one, outside
    any transaction, and the server runs the handlers of different requests
    at the same time: the table [occupy] inserts into need not be the table it
    has counted.  [occupyReads] is the handler up to the comparison of the
    capacity with the count: either the answer is settled, or the INSERT is
    next; [occupyWrites] is the rest, on the table as it is by then. *)
Inductive plan : Type :=
| answer (code : Z) (callbacks : list Request)
| insert (o : occupyRequestModel) (uid : Z) (price : Z).

Definition occupyReads (io : storage) (r : Request) (d : database) : plan :=
  match getUserID r with
  | None => answer StatusUnauthorized []
  | Some uid =>
      match decodeOccupyRequest (Body r) with
      | None => answer StatusBadRequest []
      | Some o =>
          let ro := mkOccupiedResponse (BookID o) uid 0 false in
          match getEvent io d (EventID o) with
          | (Some e, None) =>
              let ro := mkOccupiedResponse (BookID o) uid (Price e) false in
              let total := getTotalSlots io d (EventID o) in
              let occupied := getOccupiedSlots io d (EventID o) in
              if total >? occupied then insert o uid (Price e)
              else answer StatusOK [sendCallback ro]
          | _ => answer StatusInternalServerError [sendCallback ro]
          end
      end
  end.

Definition occupyWrites (io : storage) (p : plan) (d : database) : outcome :=
  match p with
  | answer c callbacks => mkOutcome c callbacks d
  | insert o uid price =>
      match occupySlot io d (EventID o) (BookID o) with
      | (d', Some _) =>
          mkOutcome StatusInternalServerError
            [sendCallback (mkOccupiedResponse (BookID o) uid price false)] d'
      | (d', None) =>
          mkOutcome StatusOK
            [sendCallback (mkOccupiedResponse (BookID o) uid price true)] d'
      end
  end.

Definition cancelSlot (io : storage) (r : Request) (d : database) : outcome :=
  match decodeOccupyRequest (Body r) with
  | None => mkOutcome StatusBadRequest [] d
  | Some o =>
      if io "cancelSlotStmt"
      then mkOutcome StatusOK [] (cancelSlotTpl d (BookID o))
      else mkOutcome StatusInternalServerError [] d
  end.

(** [get] reads the catalogue and writes nothing; of its answer only the
    status is kept: 400 for an id that is no number or no event. *)
Definition get (io : storage) (id_ : option string) (d : database) : outcome :=
  match id_ with
  | Some txt =>
      match Atoi txt with
      | None => mkOutcome StatusBadRequest [] d
      | Some id =>
          match getEvent io d id with
          | (Some _, None) => mkOutcome StatusOK [] d
          | _ => mkOutcome StatusBadRequest [] d
          end
      end
  | None => mkOutcome StatusOK [] d
  end.

Definition isAuthenticatedMiddleware (h : Request -> database -> outcome)
  (r : Request) (d : database) : outcome :=
  if HeaderHas r "X-User-Id" then h r d
  else mkOutcome StatusUnauthorized [] d.

Definition has_slash (s : string) : bool :=
  match index 0 "/" s with
  | Some _ => true
  | None => false
  end.

(** The routes of [main]. *)
Definition ServeHTTP (io : storage) (r : Request) (d : database) : outcome :=
  let path := urlPath (URL r) in
  let byMethod (m : string) (h : Request -> database -> outcome) :=
    if String.eqb (Method r) m
    then isAuthenticatedMiddleware h r d
    else mkOutcome StatusMethodNotAllowed [] d in
  if unclean path then mkOutcome StatusMovedPermanently [] d
  else if String.eqb path "/events/create" then byMethod "POST" (create io)
  else if String.eqb path "/events/get" then
    byMethod "GET" (fun _ => get io None)
  else if String.eqb path "/events/occupy" then byMethod "POST" (occupy io)
  else if String.eqb path "/events/cancel" then byMethod "POST" (cancelSlot io)
  else
    match strip_prefix "/events/get/" path with
    | Some id_ =>
        if String.eqb id_ "" || has_slash id_
        then mkOutcome StatusNotFound [] d
        else byMethod "GET" (fun _ => get io (Some id_))
    | None => mkOutcome StatusNotFound [] d
    end.

End Pool.

(** ** Vocabulary of the pool properties *)


(** What the storage keeps of the catalogue: ids are unique and below the
    sequence, and every occupancy record is of an event of the catalogue. *)
Definition consistent (d : database) : Prop :=
  NoDup (map ID (events d)) /\
  (forall e, In e (events d) -> ID e < events_id_seq d) /\
  (forall s, In s (slots d) -> exists e, In e (events d) /\ ID e = event_id s).


(** The pool serving requests one after the other. *)
Definition serveAll (unique_slot : bool) (rs : list (storage * Request))
                    (d : database) : database :=
  fold_left (fun d ir => db (ServeHTTP unique_slot (fst ir) (snd ir) d)) rs d.

Definition emptyDatabase : database := mkDatabase [] [] 1.



Definition poolRequest (path body : string) (uid : Z) : Request :=
  HeaderSet
    (NewRequest "POST" ("http://events.saga.svc.cluster.local:9000" ++ path) body)
    "X-User-Id" (Itoa uid).





(** Booking 1 holds a slot of events 10 and 11, booking 2 one of event 11;
    a cancel request for booking 1 that names an event that does not exist. *)
Definition twoEvents : database :=
  mkDatabase [mkEvent 10 "gig" 20 2; mkEvent 11 "play" 5 2]
             [mkSlot 10 1; mkSlot 11 2; mkSlot 11 1] 12.

Definition cancelOther : Request :=
  poolRequest "/events/cancel" (q "{'book_id':1,'event_id':999}") 7.

End Events.

(** * The booking orchestrator: the book service *)

Module Book.
Import Go.

(** ** Models *)

Record bookModel : Type := mkBook {
  ID : Z;
  UserID : Z;
  EventID : Z;
  Price : Z;
  Status : Z
}.

Record callbackOccupyModel : Type := mkCallbackOccupy {
  co_BookID : Z;
  co_UserID : Z;
  co_Price : Z;
  co_Status : bool
}.

Record callbackPaymentModel : Type := mkCallbackPayment {
  cp_BookID : Z;
  cp_Status : bool
}.

Definition decodeBook (body : string) : option bookModel :=
  match parseObject body with
  | Some ms =>
      match intField "id" ms 0, intField "user_id" ms 0,
            intField "event_id" ms 0, intField "price" ms 0,
            intField "status" ms 0 with
      | Some i, Some u, Some e, Some p, Some st => Some (mkBook i u e p st)
      | _, _, _, _, _ => None
      end
  | None => None
  end.

Definition decodeCallbackOccupy (body : string) : option callbackOccupyModel :=
  match parseObject body with
  | Some ms =>
      match intField "book_id" ms 0, intField "user_id" ms 0,
            intField "price" ms 0, boolField "status" ms false with
      | Some b, Some u, Some p, Some st => Some (mkCallbackOccupy b u p st)
      | _, _, _, _ => None
      end
  | None => None
  end.

Definition decodeCallbackPayment (body : string) : option callbackPaymentModel :=
  match parseObject body with
  | Some ms =>
      match intField "book_id" ms 0, boolField "status" ms false with
      | Some b, Some st => Some (mkCallbackPayment b st)
      | _, _ => None
      end
  | None => None
  end.

(** ** Statuses: the [iota] block *)

Definition statusCreated : Z := 0.
Definition statusNeedToOccupy : Z := 1.
Definition statusOccupied : Z := 2.
Definition statusNeedToPay : Z := 3.
Definition StatusPaid : Z := 4.
Definition StatusNeetToNotify : Z := 5.
Definition statusCompleted : Z := 6.
Definition statusCancelled : Z := -1.

(** ** Endpoints and templates *)

Definition occupySlotEndpoint : string :=
  "http://events.saga.svc.cluster.local:9000/events/occupy".
Definition cancelSlotEndpoint : string :=
  "http://events.saga.svc.cluster.local:9000/events/cancel".
Definition paymentSlotEndpoint : string :=
  "http://account.saga.svc.cluster.local:9000/account/withdrawal".
Definition occupySlotTpl : string :=
  Eval cbv in q "{'book_id':%d,'event_id':%d}".
Definition payTpl : string :=
  Eval cbv in q "{'book_id':%d,'withdrawal_sum':%d}".

(** ** Table [book] *)

(** Modelled from the spec: the declaration of table [book] is missing from
    the sources.  The booking id is assigned on creation: the [id] that
    [createBookTpl] returns is taken from a sequence kept with the table. *)
Record database : Type := mkDatabase {
  books : list bookModel;
  book_id_seq : Z
}.

Definition setStatus (b : bookModel) (st : Z) : bookModel :=
  mkBook (ID b) (UserID b) (EventID b) (Price b) st.

Definition setPrice (b : bookModel) (p : Z) : bookModel :=
  mkBook (ID b) (UserID b) (EventID b) p (Status b).

(** [INSERT INTO book (user_id, event_id, price, status)
     VALUES ($1, $2, 0,0) returning id] *)
Definition createBookTpl (d : database) (uid eid : Z) : database * Z :=
  (mkDatabase (books d ++ [mkBook (book_id_seq d) uid eid 0 0])%list
              (book_id_seq d + 1),
   book_id_seq d).

(** [UPDATE book SET status=$2 WHERE id=$1] *)
Definition updateStatusTpl (d : database) (id st : Z) : database :=
  mkDatabase (map (fun b => if ID b =? id then setStatus b st else b) (books d))
             (book_id_seq d).

(** [UPDATE book SET price=$2 WHERE id=$1] *)
Definition setPriceTpl (d : database) (id p : Z) : database :=
  mkDatabase (map (fun b => if ID b =? id then setPrice b p else b) (books d))
             (book_id_seq d).

(** [SELECT id, user_id, event_id, price, status FROM book WHERE id=$1] *)
Definition getBookTpl (d : database) (id : Z) : option bookModel :=
  find (fun b => ID b =? id) (books d).

(** ** Requests to the peers

    What [occupySlot], [payForBook] and [cancelSlot] hand to
    [http.Client.Do]: [http.NewRequest] with the body printed from the
    template, then the user header. *)

Definition occupySlotRequest (bid eid uid : Z) : Request :=
  HeaderSet
    (NewRequest MethodPost occupySlotEndpoint (Sprintf occupySlotTpl [bid; eid]))
    "X-User-Id" (Itoa uid).

Definition payRequest (b : bookModel) : Request :=
  HeaderSet
    (NewRequest MethodPut paymentSlotEndpoint
                (Sprintf payTpl [ID b; UserID b; Price b]))
    "X-User-Id" (Itoa (UserID b)).

Definition cancelSlotRequest (b : bookModel) : Request :=
  HeaderSet
    (NewRequest MethodPost occupySlotEndpoint
                (Sprintf occupySlotTpl [ID b; EventID b]))
    "X-User-Id" (Itoa (UserID b)).

(** The orchestrator's side of one request: its table and the requests it
    has made to its peers so far, oldest first. *)
Record world : Type := mkWorld {
  db : database;
  sent : list Request
}.

Section Orchestrator.

(** The network as the request being served finds it: what
    [http.Client.Do] answers to each request the orchestrator makes. *)
Variable Do : Request -> RoundTrip.

Variable io : storage.

(** ** Storage functions *)

Definition exec (stmt : string) (f : database -> database) (w : world)
  : world * option error :=
  if io stmt then (mkWorld (f (db w)) (sent w), None)
  else (w, Some ErrDriver).

Definition book (userID : Z) (b : bookModel) (w : world)
  : world * (Z * option error) :=
  if io "createBookStmt" then
    let (d', id) := createBookTpl (db w) userID (EventID b) in
    (mkWorld d' (sent w), (id, None))
  else (w, (0, Some ErrDriver)).

Definition getBook (bid : Z) (w : world) : bookModel + error :=
  if io "getBookStmt" then
    match getBookTpl (db w) bid with
    | Some b => inl b
    | None => inr ErrNoRows
    end
  else inr ErrDriver.

Definition cancelBook (bid : Z) (w : world) : world * option error :=
  exec "updateStatusStmt" (fun d => updateStatusTpl d bid statusCancelled) w.

Definition modifyBookStatus (bid st : Z) (w : world) : world * option error :=
  exec "updateStatusStmt" (fun d => updateStatusTpl d bid st) w.

Definition setBookPrice (bid price : Z) (w : world) : world * option error :=
  exec "setPriceStmt" (fun d => setPriceTpl d bid price) w.

(** ** Calls to the peers *)

(** [c.Do(req)] and the check of the status code that follows it.  The
    call itself writes nothing.  The table after it is the table of this
    request alone: what the handlers of other requests write while the peer
    is answering (a callback the peer sends before it answers is served by
    such a handler) is not part of it. *)
Definition roundTrip (req : Request) (failure : string) (w : world)
  : world * option error :=
  let w' := mkWorld (db w) (sent w ++ [req])%list in
  match Do req with
  | doError => (w', Some ErrTransport)
  | doResponse c =>
      if c =? StatusOK then (w', None) else (w', Some (errorsNew failure))
  end.

Definition occupySlot (bid eid uid : Z) (w : world) : world * option error :=
  roundTrip (occupySlotRequest bid eid uid) "failed to occupy slot" w.

Definition payForBook (b : bookModel) (w : world) : world * option error :=
  roundTrip (payRequest b) "failed to pay for book" w.

Definition cancelSlot (b : bookModel) (w : world) : world * option error :=
  roundTrip (cancelSlotRequest b) "failed to cancel slot" w.

(** ** The step function

    [actionBookStatus] calls itself after it has written the next status;
    [fuel] bounds the depth of these calls, and [None] is the call that has
    not returned within it. *)
Fixpoint actionBookStatus (fuel : nat) (bid : Z) (w : world)
  : option (world * option error) :=
  match fuel with
  | O => None
  | S fuel' =>
      match getBook bid w with
      | inr e => Some (w, Some e)
      | inl b =>
          let again (w1 : world) :=
            match actionBookStatus fuel' bid w1 with
            | None => None
            | Some (w2, Some _) => Some (cancelBook (ID b) w2)
            | Some (w2, None) => Some (w2, None)
            end in
          if Status b =? statusCreated then
            again (fst (modifyBookStatus bid statusNeedToOccupy w))
          else if Status b =? statusCancelled then Some (w, None)
          else if Status b =? statusNeedToOccupy then
            match occupySlot (ID b) (EventID b) (UserID b) w with
            | (w1, Some _) => Some (cancelBook (ID b) w1)
            | (w1, None) => Some (w1, None)
            end
          else if Status b =? statusOccupied then
            again (fst (modifyBookStatus bid statusNeedToPay w))
          else if Status b =? statusNeedToPay then
            match payForBook b w with
            | (w1, Some _) =>
                let (w2, _) := cancelBook (ID b) w1 in
                Some (cancelSlot b w2)
            | (w1, None) => Some (w1, None)
            end
          else if Status b =? StatusPaid then Some (w, None)
          else Some (w, None)
      end
  end.

(** ** Handlers *)

Record outcome : Type := mkOutcome {
  code : Z;
  after : world
}.

Definition create (fuel : nat) (r : Request) (w : world) : option outcome :=
  match Atoi (HeaderGet r "X-User-Id") with
  | None => Some (mkOutcome StatusInternalServerError w)
  | Some userID =>
      match decodeBook (Body r) with
      | None => Some (mkOutcome StatusInternalServerError w)
      | Some b =>
          match book userID b w with
          | (w1, (_, Some _)) => Some (mkOutcome StatusInternalServerError w1)
          | (w1, (id, None)) =>
              match actionBookStatus fuel id w1 with
              | Some (w2, _) => Some (mkOutcome StatusOK w2)
              | None => None
              end
          end
      end
  end.

Definition callbackEvents (fuel : nat) (r : Request) (w : world)
  : option outcome :=
  match decodeCallbackOccupy (Body r) with
  | None => Some (mkOutcome StatusInternalServerError w)
  | Some c =>
      if co_Status c then
        let (w1, _) := modifyBookStatus (co_BookID c) statusOccupied w in
        let w3 :=
          match setBookPrice (co_BookID c) (co_Price c) w1 with
          | (w2, Some _) => fst (modifyBookStatus (co_BookID c) statusCancelled w2)
          | (w2, None) => w2
          end in
        match actionBookStatus fuel (co_BookID c) w3 with
        | Some (w4, _) => Some (mkOutcome StatusOK w4)
        | None => None
        end
      else
        let (w1, _) := cancelBook (co_BookID c) w in
        Some (mkOutcome StatusOK w1)
  end.

Definition callbackPayment (fuel : nat) (r : Request) (w : world)
  : option outcome :=
  match decodeCallbackPayment (Body r) with
  | None => Some (mkOutcome StatusInternalServerError w)
  | Some c =>
      if cp_Status c then
        let (w1, _) := modifyBookStatus (cp_BookID c) StatusPaid w in
        match actionBookStatus fuel (cp_BookID c) w1 with
        | Some (w2, _) => Some (mkOutcome StatusOK w2)
        | None => None
        end
      else
        let (w1, _) := cancelBook (cp_BookID c) w in
        Some (mkOutcome StatusOK w1)
  end.

(** [get] lists the table and writes nothing; of its answer only the status
    is kept. *)
Definition get (r : Request) (w : world) : option outcome :=
  if io "getBooksStmt" then Some (mkOutcome StatusOK w)
  else Some (mkOutcome StatusInternalServerError w).

Definition isAuthenticatedMiddleware (h : Request -> world -> option outcome)
  (r : Request) (w : world) : option outcome :=
  if HeaderHas r "X-User-Id" then h r w
  else Some (mkOutcome StatusUnauthorized w).

(** The routes of [main]. *)
Definition ServeHTTP (fuel : nat) (r : Request) (w : world) : option outcome :=
  let path := urlPath (URL r) in
  let byMethod (m : string) (h : Request -> world -> option outcome) :=
    if String.eqb (Method r) m
    then isAuthenticatedMiddleware h r w
    else Some (mkOutcome StatusMethodNotAllowed w) in
  if unclean path then Some (mkOutcome StatusMovedPermanently w)
  else if String.eqb path "/book/get" then byMethod "GET" get
  else if String.eqb path "/book/create" then byMethod "POST" (create fuel)
  else if String.eqb path "/book/callback/events" then
    byMethod "POST" (callbackEvents fuel)
  else if String.eqb path "/book/callback/account" then
    byMethod "POST" (callbackPayment fuel)
  else Some (mkOutcome StatusNotFound w).

End Orchestrator.

(** ** Vocabulary of the orchestrator properties *)

(** Whether a round trip came back as a success for the caller. *)
Definition succeeded (rt : RoundTrip) : bool :=
  match rt with
  | doResponse c => c =? StatusOK
  | doError => false
  end.


(** The statuses one invocation of the step function writes. *)
Definition transition (old new : Z) : Prop :=
  (old = statusCreated /\ (new = statusNeedToOccupy \/ new = statusCancelled)) \/
  (old = statusNeedToOccupy /\ new = statusCancelled) \/
  (old = statusOccupied /\ (new = statusNeedToPay \/ new = statusCancelled)) \/
  (old = statusNeedToPay /\ new = statusCancelled).



(** What one invocation of the step function on booking [bid] leaves of the
    table: the table as it was, or the table with one status written. *)
Definition written (w w' : world) (bid : Z) : Prop :=
  db w' = db w \/
  exists b st,
    getBookTpl (db w) bid = Some b /\ transition (Status b) st /\
    db w' = updateStatusTpl (db w) bid st.




Definition statusOf (w : world) (bid : Z) : option Z :=
  option_map Status (getBookTpl (db w) bid).


(** What the storage keeps of the bookings: ids are unique and below the
    sequence. *)
Definition consistent (d : database) : Prop :=
  NoDup (map ID (books d)) /\
  forall b, In b (books d) -> ID b < book_id_seq d.

(** The endpoints the orchestrator has a request for. *)
Definition peerEndpoint (url : string) : Prop :=
  url = occupySlotEndpoint \/ url = paymentSlotEndpoint.

(** What no statement of the orchestrator writes in a row: the id, the user
    and the event of the booking. *)
Definition subject (b : bookModel) : Z * Z * Z := (ID b, UserID b, EventID b).

(** The table [d'] holds the rows of [d], up to status and price. *)
Definition same_rows (d d' : database) : Prop :=
  map subject (books d') = map subject (books d) /\
  book_id_seq d' = book_id_seq d.

(** The table [d] with the row [b] behind the rows it has. *)
Definition with_row (d : database) (b : bookModel) : database :=
  mkDatabase (books d ++ [b])%list (book_id_seq d + 1).

(** A request to a peer: to one of the two endpoints the orchestrator has a
    request for, with the user header. *)
Definition toPeer (q : Request) : Prop :=
  peerEndpoint (URL q) /\ URL q <> cancelSlotEndpoint /\
  HeaderHas q "X-User-Id" = true.

(** The requests the orchestrator may make while it serves one request. *)
Definition requests (new : list Request) : Prop :=
  new = [] \/
  (exists bid eid uid, new = [occupySlotRequest bid eid uid]) \/
  (exists b, new = [payRequest b]) \/
  (exists b, new = [payRequest b; cancelSlotRequest b]).

(** A request to create a booking. *)
Definition bookRequest (uid : Z) (body : string) : Request :=
  HeaderSet
    (NewRequest "POST" "http://arch.homework/book/create" body)
    "X-User-Id" (Itoa uid).

(** A storage that reads the bookings and refuses the status updates, and
    booking 1 just created. *)
Definition statusStmtDown : storage :=
  fun stmt => negb (String.eqb stmt "updateStatusStmt").

Definition justCreated : world :=
  mkWorld (mkDatabase [mkBook 1 7 10 0 statusCreated] 2) [].

(** Booking 1 of user 7 for event 10, price 20, about to be paid. *)
Definition awaitingPayment : world :=
  mkWorld (mkDatabase [mkBook 1 7 10 20 statusNeedToPay] 2) [].

(** A callback as the peers send it. *)
Definition paymentCallback (bid uid price : Z) (ok : bool) : Request :=
  Account.sendCallback (Account.mkWithDrawalResponse bid uid price ok).

Definition eventsCallback (bid uid price : Z) (ok : bool) : Request :=
  Events.sendCallback (Events.mkOccupiedResponse bid uid price ok).

End Book.

(** * The services together *)

Module Saga.
Import Go.

Fixpoint upto_slash (s : string) : string :=
  match s with
  | EmptyString => EmptyString
  | String c s' => if Ascii.eqb c "/" then EmptyString else String c (upto_slash s')
  end.

(** The host of an absolute URL. *)
Definition urlHost (url : string) : string :=
  match strip_prefix "http://" url with
  | Some rest => upto_slash rest
  | None => EmptyString
  end.

(** The names the services have in the cluster, as the endpoints of their
    callers spell them. *)
Definition eventsHost : string := "events.saga.svc.cluster.local:9000".
Definition accountHost : string := "account.saga.svc.cluster.local:9000".
Definition bookHost : string := "book.saga.svc.cluster.local:9000".

(** The pool when a request of the orchestrator is sent: a request to the
    pool's host is served by the pool, any other does not reach it. *)
Definition toPool (unique_slot : bool) (io : storage) (d : Events.database)
                  (r : Request) : Events.database :=
  if String.eqb (urlHost (URL r)) eventsHost
  then Events.db (Events.ServeHTTP unique_slot io r d)
  else d.

(** The answers of the two peers, each in the state given, to a request of
    the orchestrator. *)
Definition peers (unique_request unique_slot : bool)
                 (ledger : Account.table) (pool : Events.database)
  : Request -> RoundTrip :=
  fun r =>
    if String.eqb (urlHost (URL r)) accountHost then
      doResponse (Account.code (Account.ServeHTTP unique_request storageUp r ledger))
    else if String.eqb (urlHost (URL r)) eventsHost then
      doResponse (Events.code (Events.ServeHTTP unique_slot storageUp r pool))
    else doError.

(** Booking 1 of user 7 holds a slot of event 10, whose price is 20, and is
    about to be paid. *)
Definition heldBooking : Book.bookModel :=
  Book.mkBook 1 7 10 20 Book.statusNeedToPay.

Definition heldWorld : Book.world := Book.awaitingPayment.

Definition heldPool : Events.database :=
  Events.mkDatabase [Events.mkEvent 10 "gig" 20 2] [Events.mkSlot 10 1] 11.

Definition cancelledWorld : Book.world :=
  Book.mkWorld (Book.mkDatabase [Book.mkBook 1 7 10 20 Book.statusCancelled] 2) [].

(** A deposit that carries no user header. *)
Definition anonymous : Request :=
  NewRequest "POST" "http://arch.homework/account/deposit" (q "{'delta':50}").

End Saga.

(** * Tactics *)

(** The cases of a route: the method matches or not, the user header is
    there or not. *)
Ltac route :=
  repeat match goal with
  | |- context [if String.eqb (Go.Method ?r) ?m then _ else _] =>
      destruct (String.eqb (Go.Method r) m)
  | |- context [if Go.HeaderHas ?r ?k then _ else _] =>
      destruct (Go.HeaderHas r k)
  end; cbv beta.

(** The keys of a decoded object, compared with the tag of a field. *)
Ltac fold_keys :=
  repeat match goal with
  | |- context [Go.equalFold ?a ?b] =>
      let v := eval vm_compute in (Go.equalFold a b) in
      change (Go.equalFold a b) with v
  end.

(** * Facts on tables *)

Module ListFacts.



End ListFacts.

(** * Facts on the Go library *)

Module GoFacts.
Import Go.

(** ** Decimal digits of a positive number *)

Lemma to_uint_headed p : headed (Pos.to_uint p).
Proof.
  pose proof (DecimalPos.Unsigned.to_of (Pos.to_uint p)) as H.
  rewrite DecimalPos.Unsigned.of_to in H. simpl in H.
  pose proof (DecimalPos.Unsigned.to_uint_nonzero p) as Hz.
  destruct (Pos.to_uint p) as [|u| | | | | | | | |] eqn:E; simpl; auto.
  unfold unorm in H. simpl in H.
  destruct (nzhead u) eqn:N; try discriminate H.
  - injection H as ->. apply Hz. reflexivity.
  - apply (nzhead_nonzero _ _ N).
Qed.

Lemma digits_all u : all_digits (NilEmpty.string_of_uint u) = true.
Proof. induction u; simpl; auto. Qed.

Lemma span_digits_of u rest :
  ends_number rest = true ->
  span_digits (NilEmpty.string_of_uint u ++ rest)
  = (NilEmpty.string_of_uint u, rest).
Proof.
  intros Hr. induction u; simpl; try (rewrite IHu; reflexivity).
  destruct rest as [|c rest]; [reflexivity|].
  simpl in Hr. apply andb_true_iff in Hr. destruct Hr as [Hd _].
  apply negb_true_iff in Hd. simpl. rewrite Hd. reflexivity.
Qed.

Lemma ends_number_fraction rest :
  ends_number rest = true -> starts_fraction rest = false.
Proof.
  destruct rest as [|c rest]; [reflexivity|]. simpl.
  intros H. apply andb_true_iff in H. destruct H as [_ H].
  apply negb_true_iff in H. exact H.
Qed.

Lemma digits_value_of u :
  u <> Nil -> digits_value (NilEmpty.string_of_uint u) = Some (Z.of_uint u).
Proof.
  intros Hn. unfold digits_value.
  rewrite digits_all, NilEmpty.usu. destruct u; try reflexivity. congruence.
Qed.

Lemma of_uint_to_uint p : Z.of_uint (Pos.to_uint p) = Z.pos p.
Proof. exact (DecimalZ.of_to (Z.pos p)). Qed.

Lemma headed_nonnil u : headed u -> u <> Nil.
Proof. destruct u; simpl; auto; discriminate. Qed.

Lemma Itoa_pos p : Itoa (Z.pos p) = NilEmpty.string_of_uint (Pos.to_uint p).
Proof.
  unfold Itoa. simpl. pose proof (to_uint_headed p) as H.
  destruct (Pos.to_uint p); simpl in *; auto. contradiction.
Qed.

Lemma Itoa_neg p :
  Itoa (Z.neg p) = String "-" (NilEmpty.string_of_uint (Pos.to_uint p)).
Proof.
  unfold Itoa. simpl. pose proof (to_uint_headed p) as H.
  destruct (Pos.to_uint p); simpl in *; auto. contradiction.
Qed.

Lemma Atoi_unsigned c s :
  is_digit c = true ->
  Atoi (String c s) = in_range (digits_value (String c s)).
Proof.
  destruct c as [[] [] [] [] [] [] [] []]; intros H;
    try discriminate H; reflexivity.
Qed.

Lemma digit_head u :
  headed u ->
  exists c s, NilEmpty.string_of_uint u = String c s /\ is_digit c = true.
Proof.
  destruct u; simpl; intros H; try contradiction; eauto.
Qed.

(** [strconv.Atoi] reads back what [strconv.Itoa] prints. *)
Lemma Atoi_Itoa z : is_int z = true -> Atoi (Itoa z) = Some z.
Proof.
  intros Hz. destruct z as [|p|p].
  - reflexivity.
  - rewrite Itoa_pos. pose proof (to_uint_headed p) as H.
    pose proof (digits_value_of (Pos.to_uint p) (headed_nonnil _ H)) as V.
    rewrite of_uint_to_uint in V.
    destruct (digit_head _ H) as (c & s & E & Hc). rewrite E in *.
    rewrite (Atoi_unsigned c s Hc), V. simpl. rewrite Hz. reflexivity.
  - rewrite Itoa_neg. pose proof (to_uint_headed p) as H.
    pose proof (digits_value_of (Pos.to_uint p) (headed_nonnil _ H)) as V.
    rewrite of_uint_to_uint in V.
    unfold Atoi. rewrite V. simpl. rewrite Hz. reflexivity.
Qed.

Lemma scan_number_digits u rest :
  ends_number rest = true -> u = D0 Nil \/ headed u ->
  scan_number (NilEmpty.string_of_uint u ++ rest)
  = Some (NilEmpty.string_of_uint u, rest).
Proof.
  intros Hr Hu. pose proof (ends_number_fraction rest Hr) as Hf.
  destruct Hu as [->|Hu].
  - pose proof (span_digits_of Nil rest Hr) as S0. simpl in S0.
    unfold scan_number. simpl. rewrite S0, Hf. reflexivity.
  - destruct u as [|u|u|u|u|u|u|u|u|u|u]; simpl in Hu; try contradiction;
      unfold scan_number; simpl; rewrite (span_digits_of u rest Hr), Hf;
      reflexivity.
Qed.

Lemma scan_number_negative u rest :
  ends_number rest = true -> headed u ->
  scan_number (String "-" (NilEmpty.string_of_uint u) ++ rest)
  = Some (String "-" (NilEmpty.string_of_uint u), rest).
Proof.
  intros Hr Hu. pose proof (ends_number_fraction rest Hr) as Hf.
  unfold scan_number. simpl. rewrite (span_digits_of u rest Hr).
  destruct u as [|u|u|u|u|u|u|u|u|u|u]; simpl in Hu; try contradiction;
    simpl; rewrite Hf; reflexivity.
Qed.

Lemma scan_value_number s :
  match s with
  | EmptyString => False
  | String c _ => is_digit c = true \/ c = "-"%char
  end ->
  scan_value s = match scan_number s with
                 | Some (lit, r) => Some (jnumber lit, r)
                 | None => None
                 end.
Proof.
  destruct s as [|c s]; [contradiction|].
  destruct c as [[] [] [] [] [] [] [] []]; intros [H|H];
    try discriminate H; reflexivity.
Qed.

(** A number printed by [Itoa] and followed by something that ends it is
    read by the decoder as that literal. *)
Lemma scan_value_Itoa z rest :
  ends_number rest = true ->
  scan_value (Itoa z ++ rest) = Some (jnumber (Itoa z), rest).
Proof.
  intros Hr. destruct z as [|p|p].
  - change (Itoa 0) with (NilEmpty.string_of_uint (D0 Nil)).
    rewrite scan_value_number; [|simpl; auto].
    rewrite scan_number_digits; auto.
  - rewrite Itoa_pos. pose proof (to_uint_headed p) as H.
    rewrite scan_value_number.
    + rewrite scan_number_digits; auto.
    + destruct (digit_head _ H) as (c & s & -> & Hc). simpl. auto.
  - rewrite Itoa_neg. pose proof (to_uint_headed p) as H.
    rewrite scan_value_number; [|simpl; auto].
    rewrite scan_number_negative; auto.
Qed.

Lemma skip_ws_Itoa z rest : skip_ws (Itoa z ++ rest) = Itoa z ++ rest.
Proof.
  destruct z as [|p|p].
  - reflexivity.
  - rewrite Itoa_pos. pose proof (to_uint_headed p) as H.
    destruct (Pos.to_uint p); simpl in H; try contradiction; reflexivity.
  - rewrite Itoa_neg. reflexivity.
Qed.


Lemma skip_ws_nonspace c s : is_space c = false -> skip_ws (String c s) = String c s.
Proof. intros H. simpl. rewrite H. reflexivity. Qed.

(** One member of an object whose value was printed by [Itoa]. *)
Lemma members_number fuel s acc s1 k z rest :
  skip_ws s = String dquote s1 ->
  scan_string s1 = Some (k, String ":" (Itoa z ++ rest)) ->
  ends_number rest = true ->
  members (S fuel) s acc
  = match skip_ws rest with
    | String "," s5 => members fuel s5 (acc ++ [(k, jnumber (Itoa z))])%list
    | String "}" _ => Some (acc ++ [(k, jnumber (Itoa z))])%list
    | _ => None
    end.
Proof.
  intros Hs Hk Hr. cbn [members]. rewrite Hs.
  change (Ascii.eqb dquote dquote) with true. cbv iota.
  rewrite Hk. rewrite (skip_ws_nonspace ":"%char) by reflexivity.
  rewrite skip_ws_Itoa, scan_value_Itoa by exact Hr.
  destruct (skip_ws rest) as [|c r]; [reflexivity|].
  destruct c as [[] [] [] [] [] [] [] []]; reflexivity.
Qed.

(** The body of a payment request, read as the ledger reads it. *)
Lemma parse_pay_body a b c :
  parseObject (Sprintf Book.payTpl [a; b; c])
  = Some [("book_id", jnumber (Itoa a)); ("withdrawal_sum", jnumber (Itoa b))].
Proof.
  unfold parseObject, Book.payTpl.
  cbn [Sprintf].
  rewrite skip_ws_nonspace by reflexivity. cbv iota.
  rewrite skip_ws_nonspace by reflexivity. cbv iota.
  cbn [String.length].
  erewrite members_number; [| reflexivity | reflexivity | reflexivity].
  rewrite skip_ws_nonspace by reflexivity. cbv iota.
  erewrite members_number; [| reflexivity | reflexivity | reflexivity].
  reflexivity.
Qed.

(** The body of an occupy request, read as the pool reads it. *)
Lemma parse_occupy_body a b :
  parseObject (Sprintf Book.occupySlotTpl [a; b])
  = Some [("book_id", jnumber (Itoa a)); ("event_id", jnumber (Itoa b))].
Proof.
  unfold parseObject, Book.occupySlotTpl.
  cbn [Sprintf].
  rewrite skip_ws_nonspace by reflexivity. cbv iota.
  rewrite skip_ws_nonspace by reflexivity. cbv iota.
  cbn [String.length].
  erewrite members_number; [| reflexivity | reflexivity | reflexivity].
  rewrite skip_ws_nonspace by reflexivity. cbv iota.
  erewrite members_number; [| reflexivity | reflexivity | reflexivity].
  reflexivity.
Qed.

(** The payment template has two verbs: a third operand is printed after
    the object, where the decoder of the ledger does not read. *)
Example Sprintf_extra_operand :
  Sprintf Book.payTpl [1; 7; 20]
  = q "{'book_id':1,'withdrawal_sum':7}%!(EXTRA int=20)".
Proof. reflexivity. Qed.

Example parseObject_stops_at_brace :
  parseObject (q "{'book_id':1,'withdrawal_sum':7}%!(EXTRA int=20)")
  = Some [("book_id", jnumber "1"); ("withdrawal_sum", jnumber "7")].
Proof. reflexivity. Qed.

Example parseObject_refuses_fraction :
  parseObject (q "{'delta':1.5}") = None.
Proof. reflexivity. Qed.

End GoFacts.

(** * Properties of the ledger *)

Module AccountProofs.
Import Go Account.
Local Open Scope list_scope.

Lemma pending_has_key u rid e : pending u rid e = true -> has_key u rid e = true.
Proof. unfold pending. intros H. apply andb_true_iff in H. tauto. Qed.

Lemma has_key_spec u rid e :
  has_key u rid e = true <-> user_id e = u /\ request_id e = rid.
Proof.
  unfold has_key. rewrite andb_true_iff, Z.eqb_eq, String.eqb_eq. tauto.
Qed.

Lemma has_key_refl u rid d st : has_key u rid (mkEntry u rid d st) = true.
Proof. apply has_key_spec. simpl. auto. Qed.

Lemma pending_committed_row u rid d : pending u rid (mkEntry u rid d 1) = false.
Proof. unfold pending. simpl. apply andb_false_r. Qed.

(** After the conditional update no Pending entry is left for the pair. *)
Lemma no_pending_after_update t u rid d :
  filter (pending u rid) (fst (updateBalanceTpl t u rid d)) = [].
Proof.
  simpl. induction t as [|e t IH]; simpl; [reflexivity|].
  destruct (pending u rid e) eqn:E.
  - rewrite pending_committed_row. exact IH.
  - rewrite E. exact IH.
Qed.

Lemma update_without_pending t u rid d :
  filter (pending u rid) t = [] -> fst (updateBalanceTpl t u rid d) = t.
Proof.
  simpl. induction t as [|e t IH]; simpl; [reflexivity|].
  destruct (pending u rid e) eqn:E; [discriminate|].
  intros H. f_equal. auto.
Qed.

Lemma updatebalance_no_pending io t u rid d :
  filter (pending u rid) t = [] ->
  exists e, updatebalance io t u rid d = (t, Some e).
Proof.
  intros H. unfold updatebalance, updateBalanceTpl. rewrite H. simpl.
  destruct (io "updateBalanceStmt"); eauto.
Qed.

Lemma updatebalance_pending t u rid d :
  filter (pending u rid) t <> [] ->
  updatebalance storageUp t u rid d = (fst (updateBalanceTpl t u rid d), None).
Proof.
  intros H. unfold updatebalance, updateBalanceTpl. simpl.
  destruct (filter (pending u rid) t); [congruence|]. reflexivity.
Qed.

(** A replayed commit finds no Pending entry: it changes nothing and reports
    that the balance did not change. *)
Lemma replay_is_noop t u rid d d' :
  let r1 := updatebalance storageUp t u rid d in
  updatebalance storageUp (fst r1) u rid d'
  = (fst r1, Some (errorsNew "balance did not change")).
Proof.
  intros r1.
  assert (H : filter (pending u rid) (fst r1) = []).
  { subst r1. unfold updatebalance. simpl.
    destruct (Z.of_nat (List.length (filter (pending u rid) t)) =? 0) eqn:E.
    - simpl. apply Z.eqb_eq in E.
      destruct (filter (pending u rid) t); [reflexivity|simpl in E; lia].
    - apply (no_pending_after_update t u rid d). }
  unfold updatebalance at 1. unfold updateBalanceTpl. rewrite H. reflexivity.
Qed.

(** The balance grows by the delta once for every Pending entry committed. *)
Lemma balance_after_update t u rid d :
  getBalanceTpl (fst (updateBalanceTpl t u rid d)) u
  = getBalanceTpl t u + d * Z.of_nat (List.length (filter (pending u rid) t)).
Proof.
  unfold getBalanceTpl. simpl.
  induction t as [|e t IH]; simpl; [lia|].
  destruct (pending u rid e) eqn:E.
  - simpl. rewrite Z.eqb_refl. simpl.
    unfold pending, has_key in E.
    apply andb_true_iff in E. destruct E as [E1 E2].
    apply andb_true_iff in E1. destruct E1 as [E1 _].
    rewrite E1. apply Z.eqb_eq in E2. rewrite E2. simpl.
    rewrite IH. lia.
  - destruct ((user_id e =? u) && (status e =? 1)); simpl; rewrite IH; lia.
Qed.

Lemma entries_after_update t u rid d :
  entries_for u rid (fst (updateBalanceTpl t u rid d))
  = map (fun e => if status e =? 0 then mkEntry u rid d 1 else e)
        (entries_for u rid t).
Proof.
  unfold entries_for. simpl.
  induction t as [|e t IH]; simpl; [reflexivity|].
  assert (P : pending u rid e = has_key u rid e && (status e =? 0))
    by reflexivity.
  rewrite P.
  destruct (has_key u rid e) eqn:K; destruct (status e =? 0) eqn:S; simpl;
    rewrite ?has_key_refl, ?K; simpl; rewrite ?S;
    first [exact IH | f_equal; exact IH].
Qed.

Lemma pending_filter_entries u rid t :
  filter (pending u rid) t = filter (fun e => status e =? 0) (entries_for u rid t).
Proof.
  unfold entries_for. induction t as [|e t IH]; simpl; [reflexivity|].
  assert (P : pending u rid e = has_key u rid e && (status e =? 0))
    by reflexivity.
  rewrite P.
  destruct (has_key u rid e); destruct (status e =? 0) eqn:S; simpl;
    rewrite ?S, ?IH; reflexivity.
Qed.

(** C3: for a token that has been reserved (its one entry is Pending),
    applying twice with that token commits once: the first call succeeds,
    the second finds no Pending entry, changes nothing and reports that the
    balance did not change; exactly one entry is left for the pair, Committed
    with the delta, and the balance has grown by the delta once. *)
Theorem apply_twice_commits_once :
  forall (t : table) (u : Z) (rid : string) (d : Z) (e0 : entry),
    entries_for u rid t = [e0] -> status e0 = 0 ->
    let r1 := updatebalance storageUp t u rid d in
    let r2 := updatebalance storageUp (fst r1) u rid d in
    snd r1 = None /\
    entries_for u rid (fst r2) = [mkEntry u rid d 1] /\
    filter (pending u rid) (fst r1) = [] /\
    fst r2 = fst r1 /\
    snd r2 = Some (errorsNew "balance did not change") /\
    getBalanceTpl (fst r2) u = getBalanceTpl t u + d.
Proof.
  intros t u rid d e0 He Hs r1 r2.
  assert (Hp : filter (pending u rid) t = [e0]).
  { rewrite pending_filter_entries, He. simpl. rewrite Hs. reflexivity. }
  assert (H1 : r1 = (fst (updateBalanceTpl t u rid d), None)).
  { subst r1. apply updatebalance_pending. rewrite Hp. discriminate. }
  assert (H2 : r2 = (fst r1, Some (errorsNew "balance did not change"))).
  { subst r2. apply replay_is_noop. }
  rewrite H2, H1. cbn [fst snd].
  repeat split.
  - rewrite (entries_after_update t u rid d), He. simpl. rewrite Hs. reflexivity.
  - apply (no_pending_after_update t u rid d).
  - rewrite (balance_after_update t u rid d), Hp. simpl. lia.
Qed.

Lemma apply_twice_commits_once_witness :
  entries_for 1 "r1" [mkEntry 1 "r1" 0 0] = [mkEntry 1 "r1" 0 0] /\
  entries_for 1 "r1"
    (fst (updatebalance storageUp
            (fst (updatebalance storageUp [mkEntry 1 "r1" 0 0] 1 "r1" 50))
            1 "r1" 50))
  = [mkEntry 1 "r1" 50 1].
Proof.
  split; [reflexivity|].
  exact (proj1 (proj2
    (apply_twice_commits_once [mkEntry 1 "r1" 0 0] 1 "r1" 50
       (mkEntry 1 "r1" 0 0) eq_refl eq_refl))).
Defined.



(** C7: when the balance is read (the statement is executed and the sum of
    the committed deltas is an [int]), a withdrawal of more than the balance
    answers 500, sends the failure callback and leaves the table, hence the
    balance, as it was; a withdrawal of at most the balance goes on to the
    conditional commit of the negated amount, whose result decides the
    status, the callback and the table. *)
Theorem withdrawal_checks_balance :
  forall (io : storage) (r : Request) (t : table)
         (u : Z) (wr : withdrawalRequestModel),
    io "getbalanceStmt" = true ->
    is_int (getBalanceTpl t u) = true ->
    Atoi (HeaderGet r "X-User-Id") = Some u ->
    decodeWithdrawalRequest (Body r) = Some wr ->
    let o := withdrawal io r t in
    let failure := mkWithDrawalResponse (wr_BookID wr) u (WithDrawSum wr) false in
    (WithDrawSum wr > getBalanceTpl t u ->
       db o = t /\
       code o = StatusInternalServerError /\
       sent o = [sendCallback failure] /\
       getBalanceTpl (db o) u = getBalanceTpl t u) /\
    (WithDrawSum wr <= getBalanceTpl t u ->
       let c := updatebalance io t u (HeaderGet r "X-Request-Id")
                              (neg (WithDrawSum wr)) in
       db o = fst c /\
       code o = (if is_nil (snd c) then StatusOK else StatusInternalServerError) /\
       sent o = [sendCallback
                   (mkWithDrawalResponse (wr_BookID wr) u (WithDrawSum wr)
                                         (is_nil (snd c)))]).
Proof.
  intros io r t u wr Hq Hi Hu Hb o failure.
  subst o. unfold withdrawal. rewrite Hu, Hb.
  unfold getbalance. rewrite Hq, Hi.
  split.
  - intros Hgt.
    assert (G : (WithDrawSum wr >? getBalanceTpl t u) = true)
      by (apply Z.gtb_lt; lia).
    rewrite G. simpl. auto.
  - intros Hle.
    assert (G : (WithDrawSum wr >? getBalanceTpl t u) = false).
    { destruct (WithDrawSum wr >? getBalanceTpl t u) eqn:E; [|reflexivity].
      apply Z.gtb_lt in E. lia. }
    rewrite G. cbv zeta.
    destruct (updatebalance io t u (HeaderGet r "X-Request-Id")
                            (neg (WithDrawSum wr))) as [t' [e|]];
      simpl; auto.
Qed.

Lemma withdrawal_checks_balance_witness :
  getBalanceTpl richLedger 1 = 50 /\
  db (withdrawal storageUp (withdraw70 "r2") richLedger) = richLedger /\
  code (withdrawal storageUp (withdraw70 "r2") richLedger)
  = StatusInternalServerError.
Proof.
  split; [reflexivity|].
  pose proof (proj1 (withdrawal_checks_balance storageUp (withdraw70 "r2")
                       richLedger 1 (mkWithdrawalRequest 3 70)
                       eq_refl eq_refl eq_refl eq_refl) eq_refl) as H.
  split; [exact (proj1 H)|exact (proj1 (proj2 H))].
Defined.

(** C10: when the read of the balance fails, [getbalance] gives 0 with the
    error and the handler goes on: it answers 500, and a strictly positive
    amount is reported by the failure callback with no entry modified; an
    amount that is not positive goes on to the conditional commit. *)
Theorem withdrawal_survives_balance_error :
  forall (io : storage) (r : Request) (t : table)
         (u : Z) (wr : withdrawalRequestModel),
    io "getbalanceStmt" = false ->
    Atoi (HeaderGet r "X-User-Id") = Some u ->
    decodeWithdrawalRequest (Body r) = Some wr ->
    let o := withdrawal io r t in
    let failure := mkWithDrawalResponse (wr_BookID wr) u (WithDrawSum wr) false in
    getbalance io t u = (0, Some ErrDriver) /\
    code o = StatusInternalServerError /\
    (0 < WithDrawSum wr -> db o = t /\ sent o = [sendCallback failure]) /\
    (WithDrawSum wr <= 0 ->
       let c := updatebalance io t u (HeaderGet r "X-Request-Id")
                              (neg (WithDrawSum wr)) in
       db o = fst c /\
       sent o = [sendCallback
                   (mkWithDrawalResponse (wr_BookID wr) u (WithDrawSum wr)
                                         (is_nil (snd c)))]).
Proof.
  intros io r t u wr Hq Hu Hb o failure.
  subst o. unfold withdrawal. rewrite Hu, Hb.
  unfold getbalance. rewrite Hq.
  split; [reflexivity|].
  destruct (WithDrawSum wr >? 0) eqn:G.
  - apply Z.gtb_lt in G. simpl. repeat split; auto; lia.
  - assert (WithDrawSum wr <= 0).
    { destruct (Z.gtb_spec (WithDrawSum wr) 0); [discriminate|lia]. }
    destruct (updatebalance io t u (HeaderGet r "X-Request-Id")
                            (neg (WithDrawSum wr))) as [t' [e|]];
      simpl; repeat split; auto; lia.
Qed.

Lemma withdrawal_survives_balance_error_witness :
  getbalance balanceStmtDown richLedger 1 = (0, Some ErrDriver) /\
  db (withdrawal balanceStmtDown (withdraw70 "r2") richLedger) = richLedger /\
  sent (withdrawal balanceStmtDown (withdraw70 "r2") richLedger)
  = [sendCallback (mkWithDrawalResponse 3 1 70 false)].
Proof.
  pose proof (withdrawal_survives_balance_error balanceStmtDown
                (withdraw70 "r2") richLedger 1 (mkWithdrawalRequest 3 70)
                eq_refl eq_refl eq_refl) as H.
  split; [exact (proj1 H)|].
  exact (proj1 (proj2 (proj2 H)) eq_refl).
Defined.

(** The acceptance run of the README ends with a balance of 50. *)
Example acceptance_run :
  let (codes, t) := serveAll true acceptanceRun [] in
  codes = [405; 200; 200; 500; 500] /\
  t = [mkEntry 1 "e13a61186ebc8d9ee8f92422883fc22d" 50 1] /\
  getBalanceTpl t 1 = 50.
Proof. vm_compute. repeat split. Qed.

Lemma existsb_entries u rid t :
  existsb (has_key u rid) t = negb (match entries_for u rid t with [] => true | _ => false end).
Proof.
  unfold entries_for. induction t as [|e t IH]; simpl; [reflexivity|].
  destruct (has_key u rid e); simpl; auto.
Qed.

Lemma entries_for_app u rid (a b : table) :
  entries_for u rid (a ++ b)%list
  = (entries_for u rid a ++ entries_for u rid b)%list.
Proof. apply filter_app. Qed.

Lemma newReq_fresh uniq r t u :
  Atoi (HeaderGet r "X-User-Id") = Some u ->
  entries_for u (HeaderGet r "X-Request-Id") t = [] ->
  newReq uniq storageUp r t
  = mkOutcome StatusOK [] (t ++ [mkEntry u (HeaderGet r "X-Request-Id") 0 0]).
Proof.
  intros Hu Hf. unfold newReq, prepareOperationTpl. simpl. rewrite Hu.
  rewrite existsb_entries, Hf. simpl. rewrite andb_false_r. reflexivity.
Qed.

Lemma newReq_taken r t u :
  Atoi (HeaderGet r "X-User-Id") = Some u ->
  entries_for u (HeaderGet r "X-Request-Id") t <> [] ->
  newReq true storageUp r t = mkOutcome StatusInternalServerError [] t.
Proof.
  intros Hu Hf. unfold newReq, prepareOperationTpl. simpl. rewrite Hu.
  rewrite existsb_entries.
  destruct (entries_for u (HeaderGet r "X-Request-Id") t); [congruence|].
  reflexivity.
Qed.

(** C8, as amended: with (user id, token) a unique key of the table, the
    first reserveToken of a fresh token answers 200 and the second one is
    refused: it answers 500 and leaves the table as the first call left it,
    with exactly one Pending entry of delta 0 for the pair. *)
Theorem second_reserve_is_refused :
  forall (r : Request) (t : table) (u : Z),
    Atoi (HeaderGet r "X-User-Id") = Some u ->
    entries_for u (HeaderGet r "X-Request-Id") t = [] ->
    let o1 := newReq true storageUp r t in
    let o2 := newReq true storageUp r (db o1) in
    code o1 = StatusOK /\
    code o2 = StatusInternalServerError /\
    db o2 = db o1 /\
    entries_for u (HeaderGet r "X-Request-Id") (db o2)
    = [mkEntry u (HeaderGet r "X-Request-Id") 0 0].
Proof.
  intros r t u Hu Hf o1 o2.
  assert (H1 : o1 = mkOutcome StatusOK []
                      (t ++ [mkEntry u (HeaderGet r "X-Request-Id") 0 0]))
    by (apply newReq_fresh; assumption).
  assert (He : entries_for u (HeaderGet r "X-Request-Id") (db o1)
               = [mkEntry u (HeaderGet r "X-Request-Id") 0 0]).
  { rewrite H1. simpl. rewrite entries_for_app, Hf. simpl.
    unfold entries_for. simpl. rewrite has_key_refl. reflexivity. }
  assert (H2 : o2 = mkOutcome StatusInternalServerError [] (db o1)).
  { subst o2. apply (newReq_taken r (db o1) u Hu). rewrite He. discriminate. }
  rewrite H2. simpl. rewrite H1 in *. simpl in *. auto.
Qed.


Lemma second_reserve_is_refused_witness :
  entries_for 1 "r1" [] = [] /\
  code (newReq true storageUp genreq1 (db (newReq true storageUp genreq1 [])))
  = StatusInternalServerError.
Proof.
  split; [reflexivity|].
  exact (proj1 (proj2
    (second_reserve_is_refused genreq1 [] 1 eq_refl eq_refl))).
Defined.

(** C8 as stated fails on the first request of the acceptance run, sent
    twice to the empty ledger, whatever the table declares: with the unique
    key the second call answers 500, without it two Pending entries exist. *)
Lemma second_reserve_not_accepted :
  ~ second_reserve_accepted true genreq1 1 [] /\
  ~ second_reserve_accepted false genreq1 1 [].
Proof.
  split; intros [Hc He].
  - vm_compute in Hc. discriminate Hc.
  - vm_compute in He. discriminate He.
Qed.

End AccountProofs.

(** * Properties of the reservation pool *)

Module EventsProofs.
Import Go Events.
Local Open Scope list_scope.




Lemma getEventTpl_In d id e :
  getEventTpl d id = Some e -> In e (events d) /\ ID e = id.
Proof.
  unfold getEventTpl. intros H. apply find_some in H. destruct H as [H1 H2].
  apply Z.eqb_eq in H2. auto.
Qed.

(** What [occupy] does to the tables: nothing, or one record more for an
    event that is below its capacity. *)
Lemma occupy_cases uniq io r d :
  db (occupy uniq io r d) = d \/
  exists o e,
    decodeOccupyRequest (Body r) = Some o /\
    getEventTpl d (EventID o) = Some e /\
    (io "occupiedSlotsStmt" = true ->
     occupiedSlotsTpl d (EventID o) < TotalSlots e) /\
    db (occupy uniq io r d)
    = mkDatabase (events d) (slots d ++ [mkSlot (EventID o) (BookID o)])
                 (events_id_seq d).
Proof.
  unfold occupy.
  destruct (getUserID r) as [uid|]; [|left; reflexivity].
  destruct (decodeOccupyRequest (Body r)) as [o|]; [|left; reflexivity].
  unfold getTotalSlots, getOccupiedSlots, getEvent, occupySlot, occupySlotTpl.
  destruct (io "getEventStmt"); [|left; reflexivity].
  destruct (getEventTpl d (EventID o)) as [e|] eqn:Ge; [|left; reflexivity].
  destruct (TotalSlots e >? (if io "occupiedSlotsStmt"
                             then occupiedSlotsTpl d (EventID o) else 0)) eqn:G;
    [|left; reflexivity].
  destruct (io "occupySlotStmt"); [|left; reflexivity].
  destruct (uniq && existsb (same_slot (mkSlot (EventID o) (BookID o))) (slots d));
    [left; reflexivity|].
  right. exists o, e. repeat split; auto.
  intros Hc. rewrite Hc in G. apply Z.gtb_lt in G. exact G.
Qed.

Lemma occupy_keeps_slots uniq io r d s :
  In s (slots d) -> In s (slots (db (occupy uniq io r d))).
Proof.
  intros Hin.
  destruct (occupy_cases uniq io r d) as [->|(o & e & _ & _ & _ & ->)]; auto.
  simpl. apply in_or_app. auto.
Qed.





Lemma get_keeps io id_ d : db (get io id_ d) = d.
Proof.
  unfold get. destruct id_ as [txt|]; [|reflexivity].
  destruct (Atoi txt); [|reflexivity].
  destruct (getEvent io d z) as [[e|] [err|]]; reflexivity.
Qed.



(** What [occupy] answers for an event it finds, by the count of occupied
    slots. *)
Lemma occupy_guard (uniq : bool) (io : storage) (r : Request) (d : database)
      (u : Z) (o : occupyRequestModel) (e : eventModel) :
  io "getEventStmt" = true -> io "occupiedSlotsStmt" = true ->
  getUserID r = Some u ->
  decodeOccupyRequest (Body r) = Some o ->
  getEventTpl d (EventID o) = Some e ->
  let out := occupy uniq io r d in
  let ins := occupySlot uniq io d (EventID o) (BookID o) in
  let answer st :=
    [sendCallback (mkOccupiedResponse (BookID o) u (Price e) st)] in
  (occupiedSlotsTpl d (EventID o) < TotalSlots e ->
     (snd ins = None ->
        db out = mkDatabase (events d)
                   (slots d ++ [mkSlot (EventID o) (BookID o)])
                   (events_id_seq d) /\
        code out = StatusOK /\ sent out = answer true) /\
     (snd ins <> None ->
        db out = d /\
        code out = StatusInternalServerError /\ sent out = answer false)) /\
  (TotalSlots e <= occupiedSlotsTpl d (EventID o) ->
     db out = d /\ code out = StatusOK /\ sent out = answer false).
Proof.
  intros Hg Hq Hu Hb He out ins answer.
  subst out ins answer. unfold occupy. rewrite Hu, Hb.
  unfold getTotalSlots, getOccupiedSlots, getEvent. rewrite Hg, Hq, He.
  split.
  - intros Hlt.
    assert (G : (TotalSlots e >? occupiedSlotsTpl d (EventID o)) = true)
      by (apply Z.gtb_lt; lia).
    rewrite G. unfold occupySlot, occupySlotTpl.
    destruct (io "occupySlotStmt");
      [destruct (uniq && existsb (same_slot (mkSlot (EventID o) (BookID o)))
                                 (slots d))|];
      simpl; split; intros H; try congruence; auto.
  - intros Hge.
    assert (G : (TotalSlots e >? occupiedSlotsTpl d (EventID o)) = false).
    { destruct (Z.gtb_spec (TotalSlots e) (occupiedSlotsTpl d (EventID o)));
        [lia|reflexivity]. }
    rewrite G. simpl. auto.
Qed.


Lemma consistent_empty : consistent emptyDatabase.
Proof.
  split; [constructor|]. split; intros ? [].
Qed.




(** The two steps of [occupy], one after the other on the same table, are
    [occupy]. *)
Lemma occupy_in_two_steps uniq io r d :
  occupyWrites uniq io (occupyReads io r d) d = occupy uniq io r d.
Proof.
  unfold occupyReads, occupy.
  destruct (getUserID r) as [uid|]; [|reflexivity].
  destruct (decodeOccupyRequest (Body r)) as [o|]; [|reflexivity].
  destruct (getEvent io d (EventID o)) as [[e|] [err|]]; try reflexivity.
  cbv zeta.
  destruct (getTotalSlots io d (EventID o) >? getOccupiedSlots io d (EventID o));
    reflexivity.
Qed.



(** C9: a cancel request that the storage executes answers 200 and removes
    exactly the occupancy records that carry its booking id, of whatever
    event; the event id of the payload plays no part (two requests with the
    same booking id do the same); when no record carries the booking id the
    tables are left as they were. *)
Theorem cancel_keyed_on_booking :
  forall (io : storage) (r : Request) (d : database) (o : occupyRequestModel),
    io "cancelSlotStmt" = true ->
    decodeOccupyRequest (Body r) = Some o ->
    let out := cancelSlot io r d in
    code out = StatusOK /\
    events (db out) = events d /\
    (forall s, In s (slots (db out)) <->
               In s (slots d) /\ book_id s <> BookID o) /\
    (forall r' o',
        decodeOccupyRequest (Body r') = Some o' -> BookID o' = BookID o ->
        cancelSlot io r' d = out) /\
    ((forall s, In s (slots d) -> book_id s <> BookID o) -> db out = d).
Proof.
  intros io r d o Hio Hb out. subst out. unfold cancelSlot.
  rewrite Hb, Hio. simpl.
  split; [reflexivity|]. split; [reflexivity|]. split; [|split].
  - intros s. rewrite filter_In, negb_true_iff, Z.eqb_neq. tauto.
  - intros r' o' Hb' Heq. rewrite Hb'. rewrite Heq. reflexivity.
  - intros Hnone. unfold cancelSlotTpl.
    assert (F : filter (fun s => negb (book_id s =? BookID o)) (slots d) = slots d).
    { induction (slots d) as [|s l IH]; simpl; [reflexivity|].
      assert (book_id s <> BookID o) by (apply Hnone; simpl; auto).
      destruct (Z.eqb_spec (book_id s) (BookID o)); [contradiction|].
      simpl. f_equal. apply IH. intros s' Hs'. apply Hnone. simpl. auto. }
    rewrite F. destruct d; reflexivity.
Qed.

Lemma cancel_keyed_on_booking_witness :
  decodeOccupyRequest (Body cancelOther) = Some (mkOccupyRequest 1 999) /\
  slots (db (cancelSlot storageUp cancelOther twoEvents)) = [mkSlot 11 2] /\
  code (cancelSlot storageUp cancelOther twoEvents) = StatusOK.
Proof.
  split; [reflexivity|]. split; [reflexivity|].
  exact (proj1
    (cancel_keyed_on_booking storageUp cancelOther twoEvents
       (mkOccupyRequest 1 999) eq_refl eq_refl)).
Defined.

End EventsProofs.

(** * Properties of the booking orchestrator *)

Module BookProofs.
Import Go Book.
Local Open Scope list_scope.

Lemma getBookTpl_In d bid b :
  getBookTpl d bid = Some b -> In b (books d) /\ ID b = bid.
Proof.
  unfold getBookTpl. intros H. apply find_some in H. destruct H as [H1 H2].
  apply Z.eqb_eq in H2. auto.
Qed.

Lemma updateStatusTpl_twice d bid a b :
  updateStatusTpl (updateStatusTpl d bid a) bid b = updateStatusTpl d bid b.
Proof.
  unfold updateStatusTpl. simpl. f_equal. rewrite map_map.
  apply map_ext. intros x. destruct (ID x =? bid) eqn:E; simpl; rewrite E; reflexivity.
Qed.

Lemma getBookTpl_update d bid st :
  getBookTpl (updateStatusTpl d bid st) bid
  = option_map (fun b => setStatus b st) (getBookTpl d bid).
Proof.
  unfold getBookTpl, updateStatusTpl. simpl.
  induction (books d) as [|x l IH]; simpl; [reflexivity|].
  destruct (ID x =? bid) eqn:E; simpl; rewrite E; [reflexivity|exact IH].
Qed.

Section Step.
Variable Do : Request -> RoundTrip.
Variable io : storage.

Lemma roundTrip_db req msg w : db (fst (roundTrip Do req msg w)) = db w.
Proof.
  unfold roundTrip. destruct (Do req) as [|c]; [reflexivity|].
  destruct (c =? StatusOK); reflexivity.
Qed.

Lemma exec_db stmt f w :
  db (fst (exec io stmt f w)) = if io stmt then f (db w) else db w.
Proof. unfold exec. destruct (io stmt); reflexivity. Qed.

Lemma cancelBook_db bid w :
  db (fst (cancelBook io bid w))
  = if io "updateStatusStmt" then updateStatusTpl (db w) bid statusCancelled
    else db w.
Proof. apply exec_db. Qed.

Lemma modifyBookStatus_db bid st w :
  db (fst (modifyBookStatus io bid st w))
  = if io "updateStatusStmt" then updateStatusTpl (db w) bid st else db w.
Proof. apply exec_db. Qed.

(** After the step function has written the next status and called itself:
    what the table holds when the inner call has returned and, if it failed,
    the booking has been cancelled. *)
Lemma again_written bid b w w2 next (cancel : bool) :
  getBookTpl (db w) bid = Some b ->
  transition (Status b) next ->
  transition (Status b) statusCancelled ->
  (forall st, transition next st -> st = statusCancelled) ->
  written (fst (modifyBookStatus io bid next w)) w2 bid ->
  written w (if cancel then fst (cancelBook io bid w2) else w2) bid.
Proof.
  intros G Tn Tc Only W.
  assert (Hc : db (if cancel then fst (cancelBook io bid w2) else w2)
               = if cancel && io "updateStatusStmt"
                 then updateStatusTpl (db w2) bid statusCancelled else db w2).
  { destruct cancel; simpl; [apply cancelBook_db|reflexivity]. }
  unfold written in *. rewrite Hc. clear Hc.
  rewrite modifyBookStatus_db in W.
  destruct (io "updateStatusStmt") eqn:U.
  - destruct W as [W|(b1 & st1 & G1 & T1 & W)].
    + rewrite W. destruct cancel; simpl.
      * right. exists b, statusCancelled. rewrite updateStatusTpl_twice. auto.
      * right. exists b, next. auto.
    + rewrite getBookTpl_update, G in G1. simpl in G1.
      injection G1 as <-. simpl in T1. apply Only in T1. subst st1.
      rewrite W. right. exists b, statusCancelled.
      destruct cancel; simpl; rewrite !updateStatusTpl_twice; auto.
  - rewrite andb_false_r. exact W.
Qed.

Lemma step_written :
  forall fuel bid w w' e,
    actionBookStatus Do io fuel bid w = Some (w', e) -> written w w' bid.
Proof.
  induction fuel as [|fuel IH]; simpl; intros bid w w' e H; [discriminate|].
  unfold getBook in H.
  destruct (io "getBookStmt");
    [|simpl in H; injection H as <- _; left; reflexivity].
  destruct (getBookTpl (db w) bid) as [b|] eqn:G;
    [|simpl in H; injection H as <- _; left; reflexivity].
  cbv beta iota zeta in H.
  destruct (getBookTpl_In _ _ _ G) as [_ Hid]. subst bid.
  destruct (Z.eqb_spec (Status b) statusCreated) as [S0|_].
  { destruct (actionBookStatus Do io fuel (ID b)
                (fst (modifyBookStatus io (ID b) statusNeedToOccupy w)))
      as [[w2 [e2|]]|] eqn:A; [| |discriminate].
    - apply IH in A. injection H as H.
      apply (again_written (ID b) b w w2 statusNeedToOccupy true) in A; auto.
      + simpl in A. rewrite H in A. exact A.
      + unfold transition. auto.
      + unfold transition. auto.
      + unfold transition, statusCreated, statusNeedToOccupy, statusOccupied,
          statusNeedToPay, statusCancelled. intros st. lia.
    - apply IH in A. injection H as <- _.
      apply (again_written (ID b) b w w2 statusNeedToOccupy false) in A; auto.
      + unfold transition. auto.
      + unfold transition. auto.
      + unfold transition, statusCreated, statusNeedToOccupy, statusOccupied,
          statusNeedToPay, statusCancelled. intros st. lia. }
  destruct (Z.eqb_spec (Status b) statusCancelled) as [Sc|_].
  { injection H as <- _. left. reflexivity. }
  destruct (Z.eqb_spec (Status b) statusNeedToOccupy) as [S1|_].
  { unfold occupySlot in H.
    match type of H with context [roundTrip Do ?rq ?m w] =>
      pose proof (roundTrip_db rq m w) as R;
      destruct (roundTrip Do rq m w) as [w1 [e1|]] end;
      simpl in R, H.
    - injection H as H.
      assert (E : w' = fst (cancelBook io (ID b) w1)) by (rewrite H; reflexivity).
      unfold written. rewrite E, cancelBook_db, R.
      destruct (io "updateStatusStmt"); [right|left; reflexivity].
      exists b, statusCancelled. unfold transition. auto 7.
    - left. injection H as <- _. exact R. }
  destruct (Z.eqb_spec (Status b) statusOccupied) as [S2|_].
  { destruct (actionBookStatus Do io fuel (ID b)
                (fst (modifyBookStatus io (ID b) statusNeedToPay w)))
      as [[w2 [e2|]]|] eqn:A; [| |discriminate].
    - apply IH in A. injection H as H.
      apply (again_written (ID b) b w w2 statusNeedToPay true) in A; auto.
      + simpl in A. rewrite H in A. exact A.
      + unfold transition. auto 7.
      + unfold transition. auto 7.
      + unfold transition, statusCreated, statusNeedToOccupy, statusOccupied,
          statusNeedToPay, statusCancelled. intros st. lia.
    - apply IH in A. injection H as <- _.
      apply (again_written (ID b) b w w2 statusNeedToPay false) in A; auto.
      + unfold transition. auto 7.
      + unfold transition. auto 7.
      + unfold transition, statusCreated, statusNeedToOccupy, statusOccupied,
          statusNeedToPay, statusCancelled. intros st. lia. }
  destruct (Z.eqb_spec (Status b) statusNeedToPay) as [S3|_].
  { unfold payForBook in H.
    match type of H with context [roundTrip Do ?rq ?m w] =>
      pose proof (roundTrip_db rq m w) as R;
      destruct (roundTrip Do rq m w) as [w1 [e1|]] end;
      simpl in R, H.
    - pose proof (cancelBook_db (ID b) w1) as C.
      destruct (cancelBook io (ID b) w1) as [w2 e2]. simpl in C.
      injection H as H. unfold cancelSlot in H.
      match type of H with context [roundTrip Do ?rq ?m w2] =>
        pose proof (roundTrip_db rq m w2) as R2;
        rewrite H in R2 end.
      simpl in R2. unfold written. rewrite R2, C, R.
      destruct (io "updateStatusStmt"); [right|left; reflexivity].
      exists b, statusCancelled. unfold transition. auto 7.
    - injection H as <- _. left. exact R. }
  destruct (Status b =? StatusPaid); injection H as <- _; left; reflexivity.
Qed.


(** A booking the step function has nothing to do for. *)
Lemma step_idle fuel bid w :
  (forall b, getBookTpl (db w) bid = Some b ->
             Status b = StatusPaid \/ Status b = statusCancelled) ->
  exists e, actionBookStatus Do io (S fuel) bid w = Some (w, e).
Proof.
  intros Hs. simpl. unfold getBook.
  destruct (io "getBookStmt"); [|eauto].
  destruct (getBookTpl (db w) bid) as [b|]; [|eauto].
  destruct (Hs b eq_refl) as [-> | ->]; simpl; eauto.
Qed.


End Step.












(** What the callbacks write, whatever the status was. *)
Lemma callbackPayment_success Do fuel r c w :
  decodeCallbackPayment (Body r) = Some c -> cp_Status c = true ->
  callbackPayment Do storageUp (S fuel) r w
  = Some (mkOutcome StatusOK
            (mkWorld (updateStatusTpl (db w) (cp_BookID c) StatusPaid) (sent w))).
Proof.
  intros Hd Hs. unfold callbackPayment. rewrite Hd, Hs.
  unfold modifyBookStatus, exec. simpl fst. cbv iota beta.
  change (storageUp "updateStatusStmt") with true. cbv iota.
  match goal with |- context [actionBookStatus _ _ _ _ ?w1] =>
    destruct (step_idle Do storageUp fuel (cp_BookID c) w1) as [e ->] end;
    [|reflexivity].
  intros b. simpl. rewrite getBookTpl_update.
  destruct (getBookTpl (db w) (cp_BookID c)); simpl; [|discriminate].
  intros [= <-]. left. reflexivity.
Qed.



Lemma callbackEvents_success Do fuel r c w :
  decodeCallbackOccupy (Body r) = Some c -> co_Status c = true ->
  callbackEvents Do storageUp fuel r w
  = match actionBookStatus Do storageUp fuel (co_BookID c)
            (mkWorld (setPriceTpl
                        (updateStatusTpl (db w) (co_BookID c) statusOccupied)
                        (co_BookID c) (co_Price c))
                     (sent w)) with
    | Some (w', _) => Some (mkOutcome StatusOK w')
    | None => None
    end.
Proof.
  intros Hd Hs. unfold callbackEvents. rewrite Hd, Hs. reflexivity.
Qed.



(** C5: a payment callback with success leaves the booking Paid: the step
    function has nothing to do for a Paid booking, so Completed is not
    written and no request (no notification) is made. *)
Theorem paid_booking_is_not_completed :
  forall (Do : Request -> RoundTrip) (fuel : nat) (r : Request)
         (c : callbackPaymentModel) (w : world) (b : bookModel),
    decodeCallbackPayment (Body r) = Some c ->
    cp_Status c = true ->
    getBookTpl (db w) (cp_BookID c) = Some b ->
    exists o,
      callbackPayment Do storageUp (S fuel) r w = Some o /\
      statusOf (after o) (cp_BookID c) = Some StatusPaid /\
      statusOf (after o) (cp_BookID c) <> Some statusCompleted /\
      sent (after o) = sent w.
Proof.
  intros Do fuel r c w b Hd Hs G.
  eexists. split; [apply callbackPayment_success; eauto|].
  unfold statusOf. simpl. rewrite getBookTpl_update, G. simpl.
  repeat split. discriminate.
Qed.

Lemma paid_booking_is_not_completed_witness :
  decodeCallbackPayment (Body (paymentCallback 1 7 20 true))
  = Some (mkCallbackPayment 1 true) /\
  exists o,
    callbackPayment (fun _ => doError) storageUp 1
                    (paymentCallback 1 7 20 true) awaitingPayment = Some o /\
    statusOf (after o) 1 = Some StatusPaid /\
    statusOf (after o) 1 <> Some statusCompleted /\
    sent (after o) = [].
Proof.
  split; [reflexivity|].
  exact (paid_booking_is_not_completed (fun _ => doError) 0
           (paymentCallback 1 7 20 true) (mkCallbackPayment 1 true)
           awaitingPayment (mkBook 1 7 10 20 statusNeedToPay)
           eq_refl eq_refl eq_refl).
Defined.




End BookProofs.

(** * Properties of the services together *)

Module SagaProofs.
Import Go Book Saga.
Local Open Scope list_scope.

Lemma payRequest_not_to_pool uniq pio pool b :
  toPool uniq pio pool (payRequest b) = pool.
Proof. reflexivity. Qed.

Lemma cancelSlotRequest_to_occupy uniq pio pool b :
  toPool uniq pio pool (cancelSlotRequest b)
  = Events.db (Events.occupy uniq pio (cancelSlotRequest b) pool).
Proof. reflexivity. Qed.

(** C1: when the payment of a booking that is about to be paid fails, the
    step function cancels the booking and then posts the booking to the
    occupy endpoint of the pool: the pool runs [occupy], which deletes
    nothing, so every occupancy record is still there. *)
Theorem compensation_occupies_instead_of_cancelling :
  forall (Do : Request -> RoundTrip) (io : storage) (fuel : nat)
         (w : world) (b : bookModel)
         (unique_slot : bool) (pio : storage) (pool : Events.database),
    getBook io (ID b) w = inl b ->
    Status b = statusNeedToPay ->
    succeeded (Do (payRequest b)) = false ->
    exists w' e,
      actionBookStatus Do io (S fuel) (ID b) w = Some (w', e) /\
      db w' = (if io "updateStatusStmt"
               then updateStatusTpl (db w) (ID b) statusCancelled
               else db w) /\
      sent w' = sent w ++ [payRequest b; cancelSlotRequest b] /\
      URL (cancelSlotRequest b) = occupySlotEndpoint /\
      toPool unique_slot pio pool (cancelSlotRequest b)
      = Events.db (Events.occupy unique_slot pio (cancelSlotRequest b) pool) /\
      forall s, In s (Events.slots pool) ->
        In s (Events.slots
                (fold_left (toPool unique_slot pio)
                           [payRequest b; cancelSlotRequest b] pool)).
Proof.
  intros Do io fuel w b uniq pio pool G S P.
  simpl actionBookStatus. rewrite G, S. simpl.
  unfold payForBook, roundTrip.
  assert (E : exists e1,
             match Do (payRequest b) with
             | doError => (mkWorld (db w) (sent w ++ [payRequest b]),
                           Some ErrTransport)
             | doResponse c =>
                 if c =? StatusOK
                 then (mkWorld (db w) (sent w ++ [payRequest b]), None)
                 else (mkWorld (db w) (sent w ++ [payRequest b]),
                       Some (errorsNew "failed to pay for book"))
             end = (mkWorld (db w) (sent w ++ [payRequest b]), Some e1)).
  { destruct (Do (payRequest b)) as [|c]; simpl in P; [eauto|].
    rewrite P. eauto. }
  destruct E as [e1 ->].
  unfold cancelBook, exec. simpl.
  destruct (io "updateStatusStmt"); unfold cancelSlot, roundTrip; simpl;
    (destruct (Do (cancelSlotRequest b)) as [|c];
     [|destruct (c =? StatusOK)]);
    do 2 eexists; (split; [reflexivity|]); simpl;
    (split; [reflexivity|]);
    (split; [rewrite <- app_assoc; reflexivity|]);
    (split; [reflexivity|]); (split; [reflexivity|]);
    intros s Hs; apply EventsProofs.occupy_keeps_slots; exact Hs.
Qed.

Lemma compensation_occupies_instead_of_cancelling_witness :
  succeeded (peers true false [] heldPool (payRequest heldBooking)) = false /\
  Events.occupiedSlotsTpl
    (fold_left (toPool false storageUp)
               [payRequest heldBooking; cancelSlotRequest heldBooking]
               heldPool) 10 = 2 /\
  exists w' e,
    actionBookStatus (peers true false [] heldPool) storageUp 1 1 heldWorld
    = Some (w', e) /\
    db w' = updateStatusTpl (db heldWorld) 1 statusCancelled /\
    In (Events.mkSlot 10 1)
       (Events.slots
          (fold_left (toPool false storageUp)
                     [payRequest heldBooking; cancelSlotRequest heldBooking]
                     heldPool)).
Proof.
  split; [reflexivity|]. split; [reflexivity|].
  destruct (compensation_occupies_instead_of_cancelling
              (peers true false [] heldPool) storageUp 0 heldWorld heldBooking
              false storageUp heldPool eq_refl eq_refl eq_refl)
    as (w' & e & H1 & H2 & _ & _ & _ & H6).
  exists w', e. split; [exact H1|]. split; [exact H2|].
  apply H6. simpl. auto.
Defined.

(** The ledger reads a payment request as a withdrawal of the second
    operand of the template. *)
Lemma decode_pay_body a b c :
  is_int a = true -> is_int b = true ->
  Account.decodeWithdrawalRequest (Sprintf payTpl [a; b; c])
  = Some (Account.mkWithdrawalRequest a b).
Proof.
  intros Ha Hb. unfold Account.decodeWithdrawalRequest.
  rewrite GoFacts.parse_pay_body.
  cbn [intField]. change (equalFold "book_id" "book_id") with true.
  change (equalFold "withdrawal_sum" "book_id") with false.
  change (equalFold "book_id" "withdrawal_sum") with false.
  change (equalFold "withdrawal_sum" "withdrawal_sum") with true.
  cbv iota. rewrite !GoFacts.Atoi_Itoa by assumption. reflexivity.
Qed.

Lemma decode_occupy_body a b :
  is_int a = true -> is_int b = true ->
  Events.decodeOccupyRequest (Sprintf occupySlotTpl [a; b])
  = Some (Events.mkOccupyRequest a b).
Proof.
  intros Ha Hb. unfold Events.decodeOccupyRequest.
  rewrite GoFacts.parse_occupy_body.
  cbn [intField]. change (equalFold "book_id" "book_id") with true.
  change (equalFold "event_id" "book_id") with false.
  change (equalFold "book_id" "event_id") with false.
  change (equalFold "event_id" "event_id") with true.
  cbv iota. rewrite !GoFacts.Atoi_Itoa by assumption. reflexivity.
Qed.

(** The pool reads the request of the compensation as an occupy request of
    the same booking: while the event has capacity left (and the table does
    not refuse the pair), the compensation takes one slot more. *)
Lemma compensation_takes_another_slot (b : bookModel) (pool : Events.database)
      (e : Events.eventModel) :
  is_int (ID b) = true -> is_int (EventID b) = true ->
  is_int (UserID b) = true ->
  Events.getEventTpl pool (EventID b) = Some e ->
  Events.occupiedSlotsTpl pool (EventID b) < Events.TotalSlots e ->
  Events.slots (toPool false storageUp pool (cancelSlotRequest b))
  = Events.slots pool ++ [Events.mkSlot (EventID b) (ID b)].
Proof.
  intros Hi He Hu Hg Hlt. rewrite cancelSlotRequest_to_occupy.
  assert (Hd : Events.decodeOccupyRequest (Body (cancelSlotRequest b))
               = Some (Events.mkOccupyRequest (ID b) (EventID b)))
    by (apply decode_occupy_body; assumption).
  assert (Hh : Events.getUserID (cancelSlotRequest b) = Some (UserID b))
    by (apply GoFacts.Atoi_Itoa; assumption).
  destruct (EventsProofs.occupy_guard false storageUp (cancelSlotRequest b)
              pool (UserID b) (Events.mkOccupyRequest (ID b) (EventID b)) e
              eq_refl eq_refl Hh Hd Hg) as [Hok _].
  destruct (Hok Hlt) as [Hins _].
  destruct (Hins eq_refl) as [-> _]. reflexivity.
Qed.

(** The route of the ledger for withdrawals takes POST only: the PUT of the
    payment step is answered 405 and the ledger is not touched. *)
Lemma ledger_refuses_payment uniq io b t :
  Account.ServeHTTP uniq io (payRequest b) t
  = Account.mkOutcome StatusMethodNotAllowed [] t.
Proof. reflexivity. Qed.

(** C4: the payment step sends one request, to the withdrawal endpoint of
    the ledger and in the name of the booking's user, whose amount, as the
    ledger decodes it, is the user id of the booking: the price is the third
    operand of a template with two verbs and is not part of the object. *)
Theorem payment_withdraws_the_user_id :
  forall (Do : Request -> RoundTrip) (b : bookModel) (w : world),
    is_int (ID b) = true -> is_int (UserID b) = true ->
    sent (fst (payForBook Do b w)) = sent w ++ [payRequest b] /\
    URL (payRequest b) = paymentSlotEndpoint /\
    Atoi (HeaderGet (payRequest b) "X-User-Id") = Some (UserID b) /\
    Account.decodeWithdrawalRequest (Body (payRequest b))
    = Some (Account.mkWithdrawalRequest (ID b) (UserID b)).
Proof.
  intros Do b w Hi Hu. split; [|split; [|split]].
  - unfold payForBook, roundTrip.
    destruct (Do (payRequest b)) as [|c]; [reflexivity|].
    destruct (c =? StatusOK); reflexivity.
  - reflexivity.
  - change (HeaderGet (payRequest b) "X-User-Id") with (Itoa (UserID b)).
    apply GoFacts.Atoi_Itoa. exact Hu.
  - apply decode_pay_body; assumption.
Qed.

Lemma payment_withdraws_the_user_id_witness :
  is_int 1 = true /\ is_int 7 = true /\
  Price heldBooking = 20 /\
  Account.decodeWithdrawalRequest (Body (payRequest heldBooking))
  = Some (Account.mkWithdrawalRequest 1 7).
Proof.
  split; [reflexivity|]. split; [reflexivity|]. split; [reflexivity|].
  exact (proj2 (proj2 (proj2
    (payment_withdraws_the_user_id (fun _ => doError) heldBooking heldWorld
       eq_refl eq_refl)))).
Defined.


End SagaProofs.

(** * Further facts on lists, strings and numbers *)

Module MoreFacts.
Import Go.
Local Open Scope list_scope.

Lemma find_snoc {A} (f : A -> bool) (l : list A) (x : A) :
  find f (l ++ [x])
  = match find f l with
    | Some y => Some y
    | None => if f x then Some x else None
    end.
Proof.
  induction l as [|a l IH]; simpl; [reflexivity|].
  destruct (f a); [reflexivity|exact IH].
Qed.

Lemma find_app_l {A} (f : A -> bool) (l rest : list A) (x : A) :
  find f l = Some x -> find f (l ++ rest) = Some x.
Proof.
  induction l as [|a l IH]; simpl; [discriminate|].
  destruct (f a); [auto|exact IH].
Qed.

Lemma filter_id {A} (f : A -> bool) (l : list A) :
  (forall x, In x l -> f x = true) -> filter f l = l.
Proof.
  induction l as [|a l IH]; simpl; intros H; [reflexivity|].
  rewrite (H a) by auto. rewrite IH by auto. reflexivity.
Qed.

Lemma map_unchanged {A} (f : A -> A) (p : A -> bool) (l : list A) :
  find p l = None -> map (fun x => if p x then f x else x) l = l.
Proof.
  induction l as [|a l IH]; simpl; [reflexivity|].
  destruct (p a); [discriminate|]. intros H. rewrite IH by exact H. reflexivity.
Qed.

Lemma NoDup_snoc {A} (l : list A) (x : A) :
  NoDup l -> ~ In x l -> NoDup (l ++ [x]).
Proof.
  induction l as [|a l IH]; simpl; intros N Hx.
  - constructor; [intros []|constructor].
  - inversion N as [|? ? Ha Hl]; subst. constructor.
    + rewrite in_app_iff. simpl. intros [H|[H|[]]]; [auto|].
      apply Hx. left. symmetry. exact H.
    + apply IH; [exact Hl|]. intros H. apply Hx. right. exact H.
Qed.

Lemma append_assoc (a b c : string) : ((a ++ b) ++ c = a ++ (b ++ c))%string.
Proof. induction a as [|x a IH]; simpl; [reflexivity|]. rewrite IH. reflexivity. Qed.

(** What [Atoi] and the decoder read is an [int]. *)
Lemma in_range_Some o z : in_range o = Some z -> is_int z = true.
Proof.
  destruct o as [v|]; simpl; [|discriminate].
  destruct (is_int v) eqn:E; [|discriminate]. intros [= <-]. exact E.
Qed.

Lemma Atoi_in_range s : exists o, Atoi s = in_range o.
Proof.
  destruct s as [|c s]; [eexists; reflexivity|].
  destruct c as [[] [] [] [] [] [] [] []]; eexists; reflexivity.
Qed.

Lemma Atoi_is_int s z : Atoi s = Some z -> is_int z = true.
Proof.
  destruct (Atoi_in_range s) as [o ->]. apply in_range_Some.
Qed.

Lemma intField_is_int name ms :
  forall cur z,
    is_int cur = true -> intField name ms cur = Some z -> is_int z = true.
Proof.
  induction ms as [|[k v] ms IH]; simpl; intros cur z Hc H.
  - injection H as <-. exact Hc.
  - destruct (equalFold k name); [|eauto].
    destruct v as [lit|b| |s]; try discriminate; [|eauto].
    destruct (Atoi lit) as [n|] eqn:A; [|discriminate].
    apply (IH n z); auto. eapply Atoi_is_int; eauto.
Qed.

End MoreFacts.

(** * Further properties of the ledger *)

Module LedgerMore.
Import Go Account.
Local Open Scope list_scope.

(** ** What a request can do to the table *)

Lemma updatebalance_shape io t u rid d :
  fst (updatebalance io t u rid d) = t \/
  fst (updatebalance io t u rid d) = fst (updateBalanceTpl t u rid d).
Proof.
  unfold updatebalance. destruct (io "updateBalanceStmt"); [|auto].
  unfold updateBalanceTpl.
  destruct (Z.of_nat (List.length (filter (pending u rid) t)) =? 0); auto.
Qed.

(** The table after a request: as it was, with one Pending entry of the
    user of the request appended, or with the Pending entries of one token
    of that user committed. *)
Lemma ServeHTTP_shapes uniq io r t :
  db (ServeHTTP uniq io r t) = t \/
  (exists u,
      Atoi (HeaderGet r "X-User-Id") = Some u /\
      (uniq = true -> existsb (has_key u (HeaderGet r "X-Request-Id")) t = false) /\
      db (ServeHTTP uniq io r t)
      = t ++ [mkEntry u (HeaderGet r "X-Request-Id") 0 0]) \/
  (exists u d,
      Atoi (HeaderGet r "X-User-Id") = Some u /\
      db (ServeHTTP uniq io r t)
      = fst (updateBalanceTpl t u (HeaderGet r "X-Request-Id") d)).
Proof.
  unfold ServeHTTP, isAuthenticatedMiddleware.
  destruct (unclean (urlPath (URL r))); [simpl; auto|].
  destruct (String.eqb (urlPath (URL r)) "/account/genreq").
  { route; simpl; auto. unfold newReq, prepareOperationTpl.
    destruct (io "prepareOperationStmt"); [|auto].
    destruct (Atoi (HeaderGet r "X-User-Id")) as [u|] eqn:A; [|auto].
    destruct (uniq && existsb (has_key u (HeaderGet r "X-Request-Id")) t) eqn:E;
      [auto|].
    right. left. exists u. repeat split; auto.
    intros ->. exact E. }
  destruct (String.eqb (urlPath (URL r)) "/account/get").
  { route; simpl; auto. unfold get.
    destruct (Atoi (HeaderGet r "X-User-Id")); [|auto].
    destruct (getbalance io t z) as [b [e|]]; auto. }
  destruct (String.eqb (urlPath (URL r)) "/account/deposit").
  { route; simpl; auto. unfold deposit.
    destruct (String.eqb (HeaderGet r "X-Request-Id") ""); [auto|].
    destruct (Atoi (HeaderGet r "X-User-Id")) as [u|] eqn:A; [|auto].
    destruct (decodeDelta (Body r)) as [d|]; [|auto].
    pose proof (updatebalance_shape io t u (HeaderGet r "X-Request-Id") (Delta d)) as S.
    destruct (updatebalance io t u (HeaderGet r "X-Request-Id") (Delta d))
      as [t' [e|]]; simpl in *; destruct S as [->| ->]; eauto 10. }
  destruct (String.eqb (urlPath (URL r)) "/account/withdrawal"); [|auto].
  route; simpl; auto. unfold withdrawal.
  destruct (Atoi (HeaderGet r "X-User-Id")) as [u|] eqn:A; [|auto].
  destruct (decodeWithdrawalRequest (Body r)) as [wr|]; [|auto].
  destruct (getbalance io t u) as [b err].
  destruct (WithDrawSum wr >? b); [auto|].
  pose proof (updatebalance_shape io t u (HeaderGet r "X-Request-Id")
                (neg (WithDrawSum wr))) as S.
  destruct (updatebalance io t u (HeaderGet r "X-Request-Id")
              (neg (WithDrawSum wr))) as [t' [e|]];
    simpl in *; destruct S as [->| ->]; eauto 10.
Qed.

Lemma balance_app t1 t2 u :
  getBalanceTpl (t1 ++ t2) u = getBalanceTpl t1 u + getBalanceTpl t2 u.
Proof.
  unfold getBalanceTpl. rewrite filter_app, map_app.
  induction (map delta (filter (fun e => (user_id e =? u) && (status e =? 1)) t1));
    simpl; lia.
Qed.

Lemma balance_other_user t u rid d u' :
  u' <> u ->
  getBalanceTpl (fst (updateBalanceTpl t u rid d)) u' = getBalanceTpl t u'.
Proof.
  intros Hne. unfold getBalanceTpl. simpl.
  induction t as [|e t IH]; simpl; [reflexivity|].
  destruct (pending u rid e) eqn:P.
  - simpl. destruct (Z.eqb_spec u u') as [E|_]; [congruence|]. simpl.
    apply AccountProofs.pending_has_key, AccountProofs.has_key_spec in P.
    destruct P as [P _].
    destruct (Z.eqb_spec (user_id e) u') as [E|_]; [congruence|]. simpl.
    exact IH.
  - destruct ((user_id e =? u') && (status e =? 1)); simpl; rewrite IH;
      reflexivity.
Qed.

(** X1: reserving a token changes no balance, whoever asks for it. *)
Theorem reserve_changes_no_balance :
  forall (uniq : bool) (io io' : storage) (r r' : Request) (t : table) (u : Z),
    getBalanceTpl (db (newReq uniq io r t)) u = getBalanceTpl t u /\
    snd (get io' r' (db (newReq uniq io r t))) = snd (get io' r' t) /\
    code (fst (get io' r' (db (newReq uniq io r t)))) = code (fst (get io' r' t)).
Proof.
  intros uniq io io' r r' t u.
  assert (B : forall v, getBalanceTpl (db (newReq uniq io r t)) v
                        = getBalanceTpl t v).
  { intros v. unfold newReq, prepareOperationTpl.
    destruct (io "prepareOperationStmt"); [|reflexivity].
    destruct (Atoi (HeaderGet r "X-User-Id")) as [w|]; [|reflexivity].
    destruct (uniq && existsb (has_key w (HeaderGet r "X-Request-Id")) t);
      [reflexivity|].
    simpl. rewrite balance_app. unfold getBalanceTpl at 2. simpl.
    rewrite andb_false_r. simpl. lia. }
  split; [apply B|].
  unfold get. destruct (Atoi (HeaderGet r' "X-User-Id")) as [id|];
    [|split; reflexivity].
  unfold getbalance. destruct (io' "getbalanceStmt"); [|split; reflexivity].
  rewrite B. destruct (is_int (getBalanceTpl t id));
    cbn [fst snd code]; split; reflexivity.
Qed.

(** X2: a request of one user changes the balance of no other user. *)
Theorem balances_are_isolated :
  forall (uniq : bool) (io : storage) (r : Request) (t : table) (u' : Z),
    Atoi (HeaderGet r "X-User-Id") <> Some u' ->
    getBalanceTpl (db (ServeHTTP uniq io r t)) u' = getBalanceTpl t u'.
Proof.
  intros uniq io r t u' Hne.
  destruct (ServeHTTP_shapes uniq io r t)
    as [->|[(u & A & _ & ->)|(u & d & A & ->)]].
  - reflexivity.
  - rewrite balance_app. unfold getBalanceTpl at 2. simpl.
    rewrite andb_false_r. simpl. lia.
  - apply balance_other_user. congruence.
Qed.

Lemma balances_are_isolated_witness :
  Atoi (HeaderGet (withdraw70 "r2") "X-User-Id") <> Some 2 /\
  getBalanceTpl (db (ServeHTTP true storageUp (withdraw70 "r2") richLedger)) 2
  = getBalanceTpl richLedger 2.
Proof.
  assert (H : Atoi (HeaderGet (withdraw70 "r2") "X-User-Id") <> Some 2)
    by (vm_compute; discriminate).
  split; [exact H|].
  exact (balances_are_isolated true storageUp (withdraw70 "r2") richLedger 2 H).
Defined.

Lemma commit_keeps_committed t u rid d e :
  In e t -> status e = 1 -> In e (fst (updateBalanceTpl t u rid d)).
Proof.
  intros Hin Hs. simpl. apply in_map_iff. exists e. split; [|exact Hin].
  unfold pending. rewrite Hs. simpl. rewrite andb_false_r. reflexivity.
Qed.

Lemma commit_keeps_keys t u rid d :
  map key (fst (updateBalanceTpl t u rid d)) = map key t.
Proof.
  simpl. rewrite map_map. apply map_ext. intros e.
  destruct (pending u rid e) eqn:P; [|reflexivity].
  apply AccountProofs.pending_has_key, AccountProofs.has_key_spec in P.
  destruct P as [<- <-]. reflexivity.
Qed.

(** X3: no request removes an entry or changes a Committed one. *)
Theorem committed_entries_are_immutable :
  forall (uniq : bool) (io : storage) (r : Request) (t : table) (e : entry),
    In e t ->
    let t' := db (ServeHTTP uniq io r t) in
    (status e = 1 -> In e t') /\
    In (key e) (map key t') /\
    (List.length t <= List.length t')%nat.
Proof.
  intros uniq io r t e He t'. subst t'.
  destruct (ServeHTTP_shapes uniq io r t)
    as [->|[(u & A & _ & ->)|(u & d & A & ->)]].
  - repeat split; auto. apply in_map. exact He.
  - repeat split.
    + intros _. apply in_or_app. auto.
    + apply in_map. apply in_or_app. auto.
    + rewrite length_app. simpl. lia.
  - repeat split.
    + intros Hs. apply commit_keeps_committed; auto.
    + rewrite commit_keeps_keys. apply in_map. exact He.
    + simpl. rewrite length_map. lia.
Qed.

Lemma committed_entries_are_immutable_witness :
  In (mkEntry 1 "r1" 50 1) richLedger /\
  In (mkEntry 1 "r1" 50 1)
     (db (ServeHTTP true storageUp withdrawMinus30 richLedger)).
Proof.
  assert (H : In (mkEntry 1 "r1" 50 1) richLedger) by (simpl; auto).
  split; [exact H|].
  exact (proj1 (committed_entries_are_immutable true storageUp withdrawMinus30
                  richLedger (mkEntry 1 "r1" 50 1) H) eq_refl).
Defined.

(** X5: a deposit whose token has no Pending entry of the user changes
    nothing and does not answer 200. *)
Theorem deposit_needs_a_pending_token :
  forall (io : storage) (r : Request) (t : table),
    (forall u, Atoi (HeaderGet r "X-User-Id") = Some u ->
               filter (pending u (HeaderGet r "X-Request-Id")) t = []) ->
    db (deposit io r t) = t /\ code (deposit io r t) <> StatusOK.
Proof.
  intros io r t Hp. unfold deposit.
  destruct (String.eqb (HeaderGet r "X-Request-Id") "");
    [split; [reflexivity|discriminate]|].
  destruct (Atoi (HeaderGet r "X-User-Id")) as [u|];
    [|split; [reflexivity|discriminate]].
  destruct (decodeDelta (Body r)) as [d|];
    [|split; [reflexivity|discriminate]].
  destruct (AccountProofs.updatebalance_no_pending io t u
              (HeaderGet r "X-Request-Id") (Delta d) (Hp u eq_refl)) as [e ->].
  split; [reflexivity|discriminate].
Qed.

Lemma deposit_needs_a_pending_token_witness :
  filter (pending 1 "000000") afterAcceptance = [] /\
  db (deposit storageUp depositUnreserved afterAcceptance) = afterAcceptance.
Proof.
  split; [reflexivity|].
  refine (proj1 (deposit_needs_a_pending_token storageUp depositUnreserved
                   afterAcceptance _)).
  intros u H. vm_compute in H. injection H as <-. reflexivity.
Defined.


(** ** Withdrawals *)

(** The fields of a decoded withdrawal are [int]s. *)
Lemma decodeWithdrawalRequest_is_int body wr :
  decodeWithdrawalRequest body = Some wr ->
  is_int (wr_BookID wr) = true /\ is_int (WithDrawSum wr) = true.
Proof.
  unfold decodeWithdrawalRequest.
  destruct (parseObject body) as [ms|]; [|discriminate].
  destruct (intField "book_id" ms 0) as [b|] eqn:B; [|discriminate].
  destruct (intField "withdrawal_sum" ms 0) as [s|] eqn:S; [|discriminate].
  intros [= <-]. simpl.
  split; [apply (MoreFacts.intField_is_int _ _ 0 _ eq_refl B)
         |apply (MoreFacts.intField_is_int _ _ 0 _ eq_refl S)].
Qed.

(** Unary minus does not wrap, save for the least [int]. *)
Lemma neg_opp z : is_int z = true -> z <> minInt -> neg z = - z.
Proof.
  unfold is_int, neg, wrap, minInt, maxInt.
  change (2 ^ 63) with 9223372036854775808.
  change (2 ^ 64) with 18446744073709551616.
  intros H Hn. apply andb_true_iff in H. destruct H as [H1 H2].
  apply Z.leb_le in H1, H2.
  rewrite Z.mod_small; lia.
Qed.

(** X6: when the balance is read as an [int], a withdrawal within it, with
    a reserved token, answers 200 with the success callback and moves the
    balance by the amount as it is written: down for a positive amount, up
    for a negative one. *)
Theorem withdrawal_moves_the_balance :
  forall (r : Request) (t : table) (u : Z) (wr : withdrawalRequestModel)
         (e0 : entry),
    Atoi (HeaderGet r "X-User-Id") = Some u ->
    decodeWithdrawalRequest (Body r) = Some wr ->
    filter (pending u (HeaderGet r "X-Request-Id")) t = [e0] ->
    is_int (getBalanceTpl t u) = true ->
    WithDrawSum wr <> minInt ->
    WithDrawSum wr <= getBalanceTpl t u ->
    let o := withdrawal storageUp r t in
    code o = StatusOK /\
    sent o = [sendCallback
                (mkWithDrawalResponse (wr_BookID wr) u (WithDrawSum wr) true)] /\
    getBalanceTpl (db o) u = getBalanceTpl t u - WithDrawSum wr.
Proof.
  intros r t u wr e0 Hu Hb Hp Hs Hmin Hle o. subst o.
  destruct (decodeWithdrawalRequest_is_int _ _ Hb) as [_ Hi].
  unfold withdrawal. rewrite Hu, Hb. unfold getbalance.
  change (storageUp "getbalanceStmt") with true. cbv iota. rewrite Hs.
  assert (G : (WithDrawSum wr >? getBalanceTpl t u) = false).
  { destruct (Z.gtb_spec (WithDrawSum wr) (getBalanceTpl t u));
      [lia|reflexivity]. }
  rewrite G. rewrite AccountProofs.updatebalance_pending
    by (rewrite Hp; discriminate).
  cbv iota beta. simpl code. simpl sent. simpl db.
  repeat split.
  change (getBalanceTpl
            (fst (updateBalanceTpl t u (HeaderGet r "X-Request-Id")
                                   (neg (WithDrawSum wr)))) u
          = getBalanceTpl t u - WithDrawSum wr).
  rewrite (AccountProofs.balance_after_update t u), Hp, neg_opp by assumption.
  simpl. lia.
Qed.

Lemma withdrawal_moves_the_balance_witness :
  getBalanceTpl richLedger 1 = 50 /\
  getBalanceTpl (db (withdrawal storageUp withdrawMinus30 richLedger)) 1
  = 50 - (-30).
Proof.
  split; [reflexivity|].
  exact (proj2 (proj2
    (withdrawal_moves_the_balance withdrawMinus30 richLedger 1
       (mkWithdrawalRequest 3 (-30)) (mkEntry 1 "r2" 0 0)
       eq_refl eq_refl eq_refl eq_refl
       ltac:(discriminate) ltac:(vm_compute; discriminate)))).
Defined.

(** X23: a sum of committed deltas that does not fit an [int] is a failed
    read of the balance: [get] answers 500, and [withdrawal] goes on with a
    balance of 0: it answers 500 and, for a strictly positive amount, sends
    the failure callback and leaves the table as it was, however large the
    sum is. *)
Theorem unreadable_balance_counts_as_zero :
  forall (io : storage) (r : Request) (t : table) (u : Z)
         (wr : withdrawalRequestModel),
    is_int (getBalanceTpl t u) = false ->
    Atoi (HeaderGet r "X-User-Id") = Some u ->
    decodeWithdrawalRequest (Body r) = Some wr ->
    let o := withdrawal io r t in
    (exists e, getbalance io t u = (0, Some e)) /\
    code (fst (get io r t)) = StatusInternalServerError /\
    code o = StatusInternalServerError /\
    (0 < WithDrawSum wr ->
     db o = t /\
     sent o = [sendCallback
                 (mkWithDrawalResponse (wr_BookID wr) u (WithDrawSum wr) false)]).
Proof.
  intros io r t u wr Hs Hu Hb o. subst o.
  assert (G : exists e, getbalance io t u = (0, Some e)).
  { unfold getbalance. rewrite Hs. destruct (io "getbalanceStmt"); eauto. }
  split; [exact G|]. destruct G as [e G].
  unfold get, withdrawal. rewrite Hu, Hb, G. cbn [fst code].
  split; [reflexivity|].
  assert (P : 0 < WithDrawSum wr -> (WithDrawSum wr >? 0) = true).
  { intros H. apply Z.gtb_lt. lia. }
  destruct (WithDrawSum wr >? 0) eqn:E.
  - cbn [code db sent WriteHeader statusCode]. auto.
  - destruct (updatebalance io t u (HeaderGet r "X-Request-Id")
                            (neg (WithDrawSum wr))) as [t' [e'|]];
      cbn [code WriteHeader statusCode];
      (split; [reflexivity|]); intros H; apply P in H; discriminate H.
Qed.

Lemma unreadable_balance_counts_as_zero_witness :
  getBalanceTpl overflowing 1 = maxInt + 1 /\
  code (withdrawal storageUp (withdraw70 "r2") overflowing)
  = StatusInternalServerError /\
  db (withdrawal storageUp (withdraw70 "r2") overflowing) = overflowing.
Proof.
  split; [reflexivity|].
  destruct (unreadable_balance_counts_as_zero storageUp (withdraw70 "r2")
              overflowing 1 (mkWithdrawalRequest 3 70)
              eq_refl eq_refl eq_refl) as (_ & _ & H3 & H4).
  split; [exact H3|exact (proj1 (H4 eq_refl))].
Defined.

End LedgerMore.

(** * Further properties of the reservation pool *)

Module PoolMore.
Import Go Events.
Local Open Scope list_scope.

Lemma find_none_below d id :
  (forall e, In e (events d) -> ID e < events_id_seq d) ->
  events_id_seq d <= id -> getEventTpl d id = None.
Proof.
  intros H Hid. unfold getEventTpl.
  destruct (find _ _) as [e|] eqn:F; [|reflexivity].
  apply find_some in F. destruct F as [Hin He].
  apply Z.eqb_eq in He. specialize (H e Hin). lia.
Qed.

(** X7: a created event is in the catalogue under the next id of the
    sequence, with the name, the price and the capacity of the payload; the
    [id] of the payload is not used, and no other event and no occupancy
    record is touched. *)
Theorem created_event_is_listed :
  forall (io io' : storage) (r : Request) (d : database) (e : eventModel),
    io "createEventStmt" = true -> io' "getEventStmt" = true ->
    decodeEvent (Body r) = Some e ->
    consistent d ->
    let out := create io r d in
    let id := events_id_seq d in
    code out = StatusOK /\ sent out = [] /\
    getEvent io' (db out) id
    = (Some (mkEvent id (Name e) (Price e) (TotalSlots e)), None) /\
    (is_int id = true -> code (get io' (Some (Itoa id)) (db out)) = StatusOK) /\
    (forall id', id' <> id -> getEvent io' (db out) id' = getEvent io' d id') /\
    slots (db out) = slots d.
Proof.
  intros io io' r d e Hc Hg He (_ & Hlt & _) out id.
  assert (Hout : out = mkOutcome StatusOK []
                         (createEventTpl d (Name e) (Price e) (TotalSlots e))).
  { unfold out, create, createEvent. rewrite He, Hc. reflexivity. }
  assert (Hnew : getEvent io' (db out) id
                 = (Some (mkEvent id (Name e) (Price e) (TotalSlots e)), None)).
  { rewrite Hout. unfold getEvent, getEventTpl, createEventTpl.
    rewrite Hg. cbn [db events]. rewrite MoreFacts.find_snoc.
    fold (getEventTpl d id).
    rewrite (find_none_below d id Hlt) by (unfold id; lia).
    cbn [ID]. fold id. rewrite Z.eqb_refl. reflexivity. }
  split; [rewrite Hout; reflexivity|].
  split; [rewrite Hout; reflexivity|].
  split; [exact Hnew|].
  split.
  { intros Hi. unfold get. rewrite GoFacts.Atoi_Itoa by exact Hi.
    rewrite Hnew. reflexivity. }
  split.
  { intros id' Hne. rewrite Hout. unfold getEvent, getEventTpl, createEventTpl.
    rewrite Hg. cbn [db events]. rewrite MoreFacts.find_snoc.
    destruct (find _ (events d)); [reflexivity|].
    cbn [ID]. fold id.
    destruct (Z.eqb_spec id id') as [E|_]; [congruence|reflexivity]. }
  rewrite Hout. reflexivity.
Qed.

Lemma created_event_is_listed_witness :
  getEvent storageUp
    (db (create storageUp
           (poolRequest "/events/create"
              (q "{'id':40,'event_name':'gig','price':20,'total_slots':1}") 1)
           emptyDatabase)) 1
  = (Some (mkEvent 1 "gig" 20 1), None).
Proof.
  exact (proj1 (proj2 (proj2
    (created_event_is_listed storageUp storageUp
       (poolRequest "/events/create"
          (q "{'id':40,'event_name':'gig','price':20,'total_slots':1}") 1)
       emptyDatabase (mkEvent 40 "gig" 20 1)
       eq_refl eq_refl eq_refl EventsProofs.consistent_empty)))).
Defined.

(** X8: a request to occupy a slot of an event that cannot be read (it is not
    in the catalogue, or the storage fails) is answered 500; the orchestrator
    is called back with a failure that carries price 0, and nothing is
    recorded. *)
Theorem occupy_unknown_event_is_refused :
  forall (uniq : bool) (io : storage) (r : Request) (d : database)
         (u : Z) (o : occupyRequestModel),
    getUserID r = Some u ->
    decodeOccupyRequest (Body r) = Some o ->
    getEventTpl d (EventID o) = None \/ io "getEventStmt" = false ->
    let out := occupy uniq io r d in
    code out = StatusInternalServerError /\
    sent out = [sendCallback (mkOccupiedResponse (BookID o) u 0 false)] /\
    db out = d.
Proof.
  intros uniq io r d u o Hu Ho Hno out.
  unfold out, occupy. rewrite Hu, Ho. unfold getEvent.
  destruct (io "getEventStmt") eqn:G.
  - destruct Hno as [Hno|Hno]; [|discriminate Hno].
    rewrite Hno. repeat split.
  - repeat split.
Qed.

Lemma occupy_unknown_event_is_refused_witness :
  sent (occupy false storageUp
          (poolRequest "/events/occupy" (q "{'book_id':1,'event_id':5}") 7)
          emptyDatabase)
  = [sendCallback (mkOccupiedResponse 1 7 0 false)].
Proof.
  exact (proj1 (proj2
    (occupy_unknown_event_is_refused false storageUp
       (poolRequest "/events/occupy" (q "{'book_id':1,'event_id':5}") 7)
       emptyDatabase 7 (mkOccupyRequest 1 5)
       eq_refl eq_refl (or_introl eq_refl)))).
Defined.

(** X9: a cancel request for a booking gives back whatever an occupy request
    for that booking took: when the booking held nothing before, the tables
    after the two requests are as they were, whether the slot was granted or
    not. *)
Theorem cancel_releases_what_occupy_took :
  forall (uniq : bool) (io io' : storage) (r r' : Request) (d : database)
         (o o' : occupyRequestModel),
    io' "cancelSlotStmt" = true ->
    decodeOccupyRequest (Body r) = Some o ->
    decodeOccupyRequest (Body r') = Some o' ->
    BookID o' = BookID o ->
    (forall s, In s (slots d) -> book_id s <> BookID o) ->
    let held := db (occupy uniq io r d) in
    db (cancelSlot io' r' held) = d /\
    code (cancelSlot io' r' held) = StatusOK.
Proof.
  intros uniq io io' r r' d o o' Hc Ho Ho' Hb Hfree held.
  unfold cancelSlot. rewrite Ho', Hc. cbn [db code]. split; [|reflexivity].
  assert (Hd : cancelSlotTpl d (BookID o') = d).
  { unfold cancelSlotTpl. rewrite MoreFacts.filter_id; [destruct d; reflexivity|].
    intros s Hs. apply negb_true_iff, Z.eqb_neq. rewrite Hb. auto. }
  destruct (EventsProofs.occupy_cases uniq io r d) as [E|(o1 & e & Ho1 & _ & _ & E)];
    unfold held; rewrite E; [exact Hd|].
  rewrite Ho in Ho1. injection Ho1 as <-.
  unfold cancelSlotTpl. cbn [events slots events_id_seq book_id].
  rewrite filter_app. cbn [filter book_id].
  rewrite Hb, Z.eqb_refl. cbn [negb]. rewrite List.app_nil_r.
  rewrite MoreFacts.filter_id; [destruct d; reflexivity|].
  intros s Hs. apply negb_true_iff, Z.eqb_neq. auto.
Qed.

Lemma cancel_releases_what_occupy_took_witness :
  slots (db (occupy false storageUp
               (poolRequest "/events/occupy" (q "{'book_id':3,'event_id':10}") 7)
               twoEvents))
  = [mkSlot 10 1; mkSlot 11 2; mkSlot 11 1; mkSlot 10 3] /\
  db (cancelSlot storageUp
        (poolRequest "/events/cancel" (q "{'book_id':3,'event_id':10}") 7)
        (db (occupy false storageUp
               (poolRequest "/events/occupy" (q "{'book_id':3,'event_id':10}") 7)
               twoEvents)))
  = twoEvents.
Proof.
  split; [reflexivity|].
  refine (proj1
    (cancel_releases_what_occupy_took false storageUp storageUp
       (poolRequest "/events/occupy" (q "{'book_id':3,'event_id':10}") 7)
       (poolRequest "/events/cancel" (q "{'book_id':3,'event_id':10}") 7)
       twoEvents (mkOccupyRequest 3 10) (mkOccupyRequest 3 10)
       eq_refl eq_refl eq_refl eq_refl _)).
  intros s Hs. simpl in Hs.
  destruct Hs as [<-|[<-|[<-|[]]]]; simpl; lia.
Defined.

Lemma occupy_catalogue uniq io r d :
  events (db (occupy uniq io r d)) = events d.
Proof.
  destruct (EventsProofs.occupy_cases uniq io r d)
    as [->|(o & e & _ & _ & _ & ->)]; reflexivity.
Qed.

Lemma create_catalogue io r d :
  exists rest, events (db (create io r d)) = events d ++ rest.
Proof.
  unfold create. destruct (decodeEvent (Body r)) as [e|];
    [|exists []; rewrite List.app_nil_r; reflexivity].
  unfold createEvent. destruct (io "createEventStmt").
  - eexists. reflexivity.
  - exists []. rewrite List.app_nil_r. reflexivity.
Qed.

Lemma cancel_catalogue io r d :
  events (db (cancelSlot io r d)) = events d.
Proof.
  unfold cancelSlot.
  destruct (decodeOccupyRequest (Body r)); [|reflexivity].
  destruct (io "cancelSlotStmt"); reflexivity.
Qed.

Lemma ServeHTTP_catalogue uniq io r d :
  exists rest, events (db (ServeHTTP uniq io r d)) = events d ++ rest.
Proof.
  assert (Same : forall o, events (db o) = events d ->
                 exists rest, events (db o) = events d ++ rest).
  { intros o ->. exists []. rewrite List.app_nil_r. reflexivity. }
  unfold ServeHTTP, isAuthenticatedMiddleware.
  destruct (unclean (urlPath (URL r))); [apply Same; reflexivity|].
  repeat match goal with
  | |- context [if String.eqb (urlPath ?u) ?b then _ else _] =>
      destruct (String.eqb (urlPath u) b)
  | |- context [match strip_prefix ?a ?b with _ => _ end] =>
      destruct (strip_prefix a b)
  | |- context [if ?a || ?b then _ else _] => destruct (a || b)
  end; route;
    first [ apply create_catalogue
          | apply Same;
            first [ reflexivity
                  | rewrite EventsProofs.get_keeps; reflexivity
                  | apply occupy_catalogue
                  | apply cancel_catalogue ] ].
Qed.

(** X10: the pool has no statement that changes or removes an event: an id
    that names an event names the same event, with its price and its
    capacity, after any request. *)
Theorem catalogue_is_append_only :
  forall (uniq : bool) (io : storage) (r : Request) (d : database)
         (id : Z) (e : eventModel),
    getEventTpl d id = Some e ->
    getEventTpl (db (ServeHTTP uniq io r d)) id = Some e /\
    In e (events (db (ServeHTTP uniq io r d))).
Proof.
  intros uniq io r d id e H.
  destruct (ServeHTTP_catalogue uniq io r d) as [rest E].
  assert (G : getEventTpl (db (ServeHTTP uniq io r d)) id = Some e).
  { unfold getEventTpl in *. rewrite E. apply MoreFacts.find_app_l. exact H. }
  split; [exact G|]. apply (EventsProofs.getEventTpl_In _ _ _ G).
Qed.

Lemma catalogue_is_append_only_witness :
  getEventTpl twoEvents 10 = Some (mkEvent 10 "gig" 20 2) /\
  getEventTpl
    (db (ServeHTTP false storageUp
           (poolRequest "/events/create"
              (q "{'id':10,'event_name':'gig','price':1,'total_slots':9}") 1)
           twoEvents)) 10
  = Some (mkEvent 10 "gig" 20 2).
Proof.
  split; [reflexivity|].
  exact (proj1 (catalogue_is_append_only false storageUp
                  (poolRequest "/events/create"
                     (q "{'id':10,'event_name':'gig','price':1,'total_slots':9}") 1)
                  twoEvents 10 (mkEvent 10 "gig" 20 2) eq_refl)).
Defined.

End PoolMore.

(** * Further properties of the booking orchestrator *)

Module BookMore.
Import Go Book.
Local Open Scope list_scope.

(** The fields of a decoded booking are [int]s. *)
Lemma decodeBook_is_int body b :
  decodeBook body = Some b -> is_int (EventID b) = true.
Proof.
  unfold decodeBook.
  destruct (parseObject body) as [ms|]; [|discriminate].
  destruct (intField "id" ms 0); [|discriminate].
  destruct (intField "user_id" ms 0); [|discriminate].
  destruct (intField "event_id" ms 0) as [e|] eqn:E; [|discriminate].
  destruct (intField "price" ms 0); [|discriminate].
  destruct (intField "status" ms 0); [|discriminate].
  intros [= <-]. simpl. apply (MoreFacts.intField_is_int _ _ 0 _ eq_refl E).
Qed.

Section Sent.
Variable Do : Request -> RoundTrip.
Variable io : storage.

Lemma exec_sent stmt f w : sent (fst (exec io stmt f w)) = sent w.
Proof. unfold exec. destruct (io stmt); reflexivity. Qed.

Lemma roundTrip_sent req msg w :
  sent (fst (roundTrip Do req msg w)) = sent w ++ [req].
Proof.
  unfold roundTrip. destruct (Do req) as [|c]; [reflexivity|].
  destruct (c =? StatusOK); reflexivity.
Qed.

Lemma step_sent :
  forall fuel bid w w' e,
    actionBookStatus Do io fuel bid w = Some (w', e) ->
    exists new, sent w' = sent w ++ new /\ requests new.
Proof.
  assert (Nil : forall w, exists new, sent w = sent w ++ new /\ requests new).
  { intros w. exists []. rewrite List.app_nil_r. split; [reflexivity|left; reflexivity]. }
  induction fuel as [|fuel IH]; simpl; intros bid w w' e H; [discriminate|].
  destruct (getBook io bid w) as [b|e0];
    [|injection H as <- _; apply Nil].
  cbv beta iota zeta in H.
  assert (Again : forall next,
            match actionBookStatus Do io fuel bid
                    (fst (modifyBookStatus io bid next w)) with
            | Some (w2, Some _) => Some (cancelBook io (ID b) w2)
            | Some (w2, None) => Some (w2, None)
            | None => None
            end = Some (w', e) ->
            exists new, sent w' = sent w ++ new /\ requests new).
  { intros next A.
    destruct (actionBookStatus Do io fuel bid
                (fst (modifyBookStatus io bid next w)))
      as [[w2 [e2|]]|] eqn:S;
      [| |discriminate A]; apply IH in S; destruct S as (new & Hs & Hr);
      unfold modifyBookStatus in Hs; rewrite exec_sent in Hs.
    - injection A as A. exists new. split; [|exact Hr].
      assert (E : w' = fst (cancelBook io (ID b) w2)) by (rewrite A; reflexivity).
      rewrite E. unfold cancelBook. rewrite exec_sent. exact Hs.
    - injection A as <- _. eauto. }
  destruct (Status b =? statusCreated); [eapply Again; exact H|].
  destruct (Status b =? statusCancelled); [injection H as <- _; apply Nil|].
  destruct (Status b =? statusNeedToOccupy).
  { unfold occupySlot in H.
    match type of H with context [roundTrip Do ?rq ?m w] =>
      pose proof (roundTrip_sent rq m w) as R;
      destruct (roundTrip Do rq m w) as [w1 [e1|]] end; simpl in R.
    - injection H as H.
      assert (E : w' = fst (cancelBook io (ID b) w1)) by (rewrite H; reflexivity).
      eexists. split.
      + rewrite E. unfold cancelBook. rewrite exec_sent. exact R.
      + right. left. eauto.
    - injection H as <- _. eexists. split; [exact R|]. right. left. eauto. }
  destruct (Status b =? statusOccupied); [eapply Again; exact H|].
  destruct (Status b =? statusNeedToPay).
  { unfold payForBook in H.
    match type of H with context [roundTrip Do ?rq ?m w] =>
      pose proof (roundTrip_sent rq m w) as R;
      destruct (roundTrip Do rq m w) as [w1 [e1|]] end; simpl in R.
    - pose proof (exec_sent "updateStatusStmt"
                    (fun d => updateStatusTpl d (ID b) statusCancelled) w1) as C.
      fold (cancelBook io (ID b) w1) in C.
      destruct (cancelBook io (ID b) w1) as [w2 e2]. simpl in C.
      injection H as H. unfold cancelSlot in H.
      match type of H with context [roundTrip Do ?rq ?m w2] =>
        pose proof (roundTrip_sent rq m w2) as R2; rewrite H in R2 end.
      simpl in R2. exists [payRequest b; cancelSlotRequest b]. split.
      + rewrite R2, C, R, <- List.app_assoc. reflexivity.
      + right. right. right. eauto.
    - injection H as <- _. eexists. split; [exact R|]. right. right. left. eauto. }
  destruct (Status b =? StatusPaid); injection H as <- _; apply Nil.
Qed.

Lemma handler_sent fuel bid w0 w :
  sent w0 = sent w ->
  forall o,
    match actionBookStatus Do io fuel bid w0 with
    | Some (w2, _) => Some (mkOutcome StatusOK w2)
    | None => None
    end = Some o ->
    exists new, sent (after o) = sent w ++ new /\ requests new.
Proof.
  intros Hs o H.
  destruct (actionBookStatus Do io fuel bid w0) as [[w2 e]|] eqn:A;
    [|discriminate H].
  injection H as <-. simpl. rewrite <- Hs. eapply step_sent. exact A.
Qed.

Lemma ServeHTTP_sent fuel r w o :
  ServeHTTP Do io fuel r w = Some o ->
  exists new, sent (after o) = sent w ++ new /\ requests new.
Proof.
  assert (Nil : forall c, exists new,
             sent (after (mkOutcome c w)) = sent w ++ new /\ requests new).
  { intros c. exists []. simpl. rewrite List.app_nil_r.
    split; [reflexivity|left; reflexivity]. }
  unfold ServeHTTP, isAuthenticatedMiddleware.
  destruct (unclean (urlPath (URL r)));
    [intros H; injection H as <-; apply Nil|].
  destruct (String.eqb (urlPath (URL r)) "/book/get").
  { route; unfold get; try destruct (io "getBooksStmt");
      intros H; injection H as <-; apply Nil. }
  destruct (String.eqb (urlPath (URL r)) "/book/create").
  { route; try (intros H; injection H as <-; apply Nil).
    unfold create.
    destruct (Atoi _) as [u|]; [|intros H; injection H as <-; apply Nil].
    destruct (decodeBook _) as [b|]; [|intros H; injection H as <-; apply Nil].
    unfold book. destruct (io "createBookStmt");
      [|intros H; injection H as <-; apply Nil].
    cbn [createBookTpl]. apply handler_sent. reflexivity. }
  destruct (String.eqb (urlPath (URL r)) "/book/callback/events").
  { route; try (intros H; injection H as <-; apply Nil).
    unfold callbackEvents.
    destruct (decodeCallbackOccupy _) as [c|];
      [|intros H; injection H as <-; apply Nil].
    destruct (co_Status c).
    - pose proof (exec_sent "updateStatusStmt"
          (fun d => updateStatusTpl d (co_BookID c) statusOccupied) w) as M.
      fold (modifyBookStatus io (co_BookID c) statusOccupied w) in M.
      destruct (modifyBookStatus io (co_BookID c) statusOccupied w) as [w1 e1].
      simpl in M.
      apply handler_sent. rewrite <- M.
      pose proof (exec_sent "setPriceStmt"
          (fun d => setPriceTpl d (co_BookID c) (co_Price c)) w1) as P.
      fold (setBookPrice io (co_BookID c) (co_Price c) w1) in P.
      destruct (setBookPrice io (co_BookID c) (co_Price c) w1) as [w2 [e2|]];
        simpl in P; [|exact P].
      unfold modifyBookStatus. rewrite exec_sent. exact P.
    - pose proof (exec_sent "updateStatusStmt"
          (fun d => updateStatusTpl d (co_BookID c) statusCancelled) w) as M.
      fold (cancelBook io (co_BookID c) w) in M.
      destruct (cancelBook io (co_BookID c) w) as [w1 e1]. simpl in M.
      intros H. injection H as <-. exists []. simpl. rewrite List.app_nil_r.
      split; [exact M|left; reflexivity]. }
  destruct (String.eqb (urlPath (URL r)) "/book/callback/account").
  { route; try (intros H; injection H as <-; apply Nil).
    unfold callbackPayment.
    destruct (decodeCallbackPayment _) as [c|];
      [|intros H; injection H as <-; apply Nil].
    destruct (cp_Status c).
    - pose proof (exec_sent "updateStatusStmt"
          (fun d => updateStatusTpl d (cp_BookID c) StatusPaid) w) as M.
      fold (modifyBookStatus io (cp_BookID c) StatusPaid w) in M.
      destruct (modifyBookStatus io (cp_BookID c) StatusPaid w) as [w1 e1].
      simpl in M. apply handler_sent. exact M.
    - pose proof (exec_sent "updateStatusStmt"
          (fun d => updateStatusTpl d (cp_BookID c) statusCancelled) w) as M.
      fold (cancelBook io (cp_BookID c) w) in M.
      destruct (cancelBook io (cp_BookID c) w) as [w1 e1]. simpl in M.
      intros H. injection H as <-. exists []. simpl. rewrite List.app_nil_r.
      split; [exact M|left; reflexivity]. }
  intros H. injection H as <-. apply Nil.
Qed.

End Sent.

Lemma requests_toPeer new :
  requests new -> (List.length new <= 2)%nat /\ Forall toPeer new.
Proof.
  assert (O : forall a b c, toPeer (occupySlotRequest a b c)).
  { intros a b c. unfold toPeer, peerEndpoint. simpl.
    split; [left; reflexivity|]. split; [discriminate|reflexivity]. }
  assert (P : forall b, toPeer (payRequest b)).
  { intros b. unfold toPeer, peerEndpoint. simpl.
    split; [right; reflexivity|]. split; [discriminate|reflexivity]. }
  assert (C : forall b, toPeer (cancelSlotRequest b)).
  { intros b. unfold toPeer, peerEndpoint. simpl.
    split; [left; reflexivity|]. split; [discriminate|reflexivity]. }
  intros [->|[(a & b & c & ->)|[(b & ->)|(b & ->)]]]; simpl;
    (split; [lia|]); repeat (apply Forall_cons; [solve [auto]|]);
    apply Forall_nil.
Qed.

(** X11: while it serves one request the orchestrator makes at most two
    requests of its own, each with the user header and each to the occupy
    endpoint of the pool or the withdrawal endpoint of the ledger; it never
    makes one to the cancel endpoint of the pool. *)
Theorem orchestrator_calls_two_endpoints :
  forall (Do : Request -> RoundTrip) (io : storage) (fuel : nat)
         (r : Request) (w : world) (o : outcome),
    ServeHTTP Do io fuel r w = Some o ->
    exists new,
      sent (after o) = sent w ++ new /\
      (List.length new <= 2)%nat /\
      Forall (fun q => peerEndpoint (URL q) /\ URL q <> cancelSlotEndpoint /\
                       HeaderHas q "X-User-Id" = true) new.
Proof.
  intros Do io fuel r w o H.
  destruct (ServeHTTP_sent Do io fuel r w o H) as (new & Hs & Hr).
  exists new. split; [exact Hs|]. apply requests_toPeer. exact Hr.
Qed.

Lemma orchestrator_calls_two_endpoints_witness :
  exists o,
    ServeHTTP (fun _ => doError) storageUp 2 (eventsCallback 1 7 20 true)
              awaitingPayment = Some o /\
    exists new,
      sent (after o) = sent awaitingPayment ++ new /\
      (List.length new <= 2)%nat /\
      Forall (fun q => peerEndpoint (URL q) /\ URL q <> cancelSlotEndpoint /\
                       HeaderHas q "X-User-Id" = true) new.
Proof.
  eexists. split; [vm_compute; reflexivity|].
  apply (orchestrator_calls_two_endpoints (fun _ => doError) storageUp 2
           (eventsCallback 1 7 20 true) awaitingPayment).
  vm_compute. reflexivity.
Defined.

(** ** Rows are never removed or renumbered *)

Lemma subject_update d bid st :
  map subject (books (updateStatusTpl d bid st)) = map subject (books d).
Proof.
  unfold updateStatusTpl. cbn [books]. rewrite map_map. apply map_ext.
  intros b. destruct (ID b =? bid); reflexivity.
Qed.

Lemma subject_price d bid p :
  map subject (books (setPriceTpl d bid p)) = map subject (books d).
Proof.
  unfold setPriceTpl. cbn [books]. rewrite map_map. apply map_ext.
  intros b. destruct (ID b =? bid); reflexivity.
Qed.

Lemma same_rows_refl d : same_rows d d.
Proof. split; reflexivity. Qed.

Lemma same_rows_trans d1 d2 d3 :
  same_rows d1 d2 -> same_rows d2 d3 -> same_rows d1 d3.
Proof. intros [A B] [C D]. split; congruence. Qed.

Section Rows.
Variable Do : Request -> RoundTrip.
Variable io : storage.

Lemma modify_rows bid st w :
  same_rows (db w) (db (fst (modifyBookStatus io bid st w))).
Proof.
  rewrite BookProofs.modifyBookStatus_db. destruct (io _);
    [|apply same_rows_refl].
  split; [apply subject_update|reflexivity].
Qed.

Lemma cancel_rows bid w :
  same_rows (db w) (db (fst (cancelBook io bid w))).
Proof. apply (modify_rows bid statusCancelled). Qed.

Lemma price_rows bid p w :
  same_rows (db w) (db (fst (setBookPrice io bid p w))).
Proof.
  unfold setBookPrice. rewrite BookProofs.exec_db. destruct (io _);
    [|apply same_rows_refl].
  split; [apply subject_price|reflexivity].
Qed.

Lemma step_rows fuel bid w w' e :
  actionBookStatus Do io fuel bid w = Some (w', e) -> same_rows (db w) (db w').
Proof.
  intros H. apply BookProofs.step_written in H.
  destruct H as [->|(b & st & _ & _ & ->)]; [apply same_rows_refl|].
  split; [apply subject_update|reflexivity].
Qed.

Lemma handler_rows fuel bid w0 w :
  same_rows (db w) (db w0) ->
  forall o,
    match actionBookStatus Do io fuel bid w0 with
    | Some (w2, _) => Some (mkOutcome StatusOK w2)
    | None => None
    end = Some o ->
    same_rows (db w) (db (after o)).
Proof.
  intros Hs o H.
  destruct (actionBookStatus Do io fuel bid w0) as [[w2 e]|] eqn:A;
    [|discriminate H].
  injection H as <-. simpl. eapply same_rows_trans; [exact Hs|].
  eapply step_rows. exact A.
Qed.

Lemma callbackEvents_rows fuel r w o :
  callbackEvents Do io fuel r w = Some o -> same_rows (db w) (db (after o)).
Proof.
  unfold callbackEvents.
  destruct (decodeCallbackOccupy _) as [c|];
    [|intros H; injection H as <-; apply same_rows_refl].
  destruct (co_Status c).
  - pose proof (modify_rows (co_BookID c) statusOccupied w) as M.
    destruct (modifyBookStatus io (co_BookID c) statusOccupied w) as [w1 e1].
    simpl in M. apply handler_rows.
    eapply same_rows_trans; [exact M|].
    pose proof (price_rows (co_BookID c) (co_Price c) w1) as P.
    destruct (setBookPrice io (co_BookID c) (co_Price c) w1) as [w2 [e2|]];
      simpl in P; [|exact P].
    eapply same_rows_trans; [exact P|]. apply modify_rows.
  - pose proof (cancel_rows (co_BookID c) w) as M.
    destruct (cancelBook io (co_BookID c) w) as [w1 e1]. simpl in M.
    intros H. injection H as <-. exact M.
Qed.

Lemma callbackPayment_rows fuel r w o :
  callbackPayment Do io fuel r w = Some o -> same_rows (db w) (db (after o)).
Proof.
  unfold callbackPayment.
  destruct (decodeCallbackPayment _) as [c|];
    [|intros H; injection H as <-; apply same_rows_refl].
  destruct (cp_Status c).
  - pose proof (modify_rows (cp_BookID c) StatusPaid w) as M.
    destruct (modifyBookStatus io (cp_BookID c) StatusPaid w) as [w1 e1].
    simpl in M. apply handler_rows. exact M.
  - pose proof (cancel_rows (cp_BookID c) w) as M.
    destruct (cancelBook io (cp_BookID c) w) as [w1 e1]. simpl in M.
    intros H. injection H as <-. exact M.
Qed.

(** [create] adds one row, of the user of the header, or none. *)
Lemma create_rows fuel r w o :
  create Do io fuel r w = Some o ->
  same_rows (db w) (db (after o)) \/
  exists uid eid,
    Atoi (HeaderGet r "X-User-Id") = Some uid /\
    map subject (books (db (after o)))
    = map subject (books (db w)) ++ [(book_id_seq (db w), uid, eid)] /\
    book_id_seq (db (after o)) = book_id_seq (db w) + 1.
Proof.
  unfold create.
  destruct (Atoi _) as [u|];
    [|intros H; injection H as <-; left; apply same_rows_refl].
  destruct (decodeBook _) as [b|];
    [|intros H; injection H as <-; left; apply same_rows_refl].
  unfold book. destruct (io "createBookStmt");
    [|intros H; injection H as <-; left; apply same_rows_refl].
  cbn [createBookTpl]. intros H.
  destruct (actionBookStatus Do io fuel (book_id_seq (db w)) _)
    as [[w2 e]|] eqn:A; [|discriminate H].
  injection H as <-. apply step_rows in A. destruct A as [A1 A2].
  cbn [db books book_id_seq after] in *.
  right. exists u, (EventID b). split; [reflexivity|].
  rewrite A1, A2, map_app. split; reflexivity.
Qed.

Lemma ServeHTTP_rows fuel r w o :
  ServeHTTP Do io fuel r w = Some o ->
  same_rows (db w) (db (after o)) \/
  exists uid eid,
    Atoi (HeaderGet r "X-User-Id") = Some uid /\
    map subject (books (db (after o)))
    = map subject (books (db w)) ++ [(book_id_seq (db w), uid, eid)] /\
    book_id_seq (db (after o)) = book_id_seq (db w) + 1.
Proof.
  unfold ServeHTTP, isAuthenticatedMiddleware.
  destruct (unclean (urlPath (URL r)));
    [intros H; injection H as <-; left; apply same_rows_refl|].
  destruct (String.eqb (urlPath (URL r)) "/book/get").
  { route; unfold get; try destruct (io "getBooksStmt");
      intros H; injection H as <-; left; apply same_rows_refl. }
  destruct (String.eqb (urlPath (URL r)) "/book/create").
  { route; try (intros H; injection H as <-; left; apply same_rows_refl).
    apply create_rows. }
  destruct (String.eqb (urlPath (URL r)) "/book/callback/events").
  { route; try (intros H; injection H as <-; left; apply same_rows_refl).
    intros H. left. eapply callbackEvents_rows. exact H. }
  destruct (String.eqb (urlPath (URL r)) "/book/callback/account").
  { route; try (intros H; injection H as <-; left; apply same_rows_refl).
    intros H. left. eapply callbackPayment_rows. exact H. }
  intros H. injection H as <-. left. apply same_rows_refl.
Qed.

End Rows.

Lemma subject_ids l : map ID l = map (fun t => fst (fst t)) (map subject l).
Proof. rewrite map_map. reflexivity. Qed.

Lemma consistent_ids d :
  consistent d <->
  NoDup (map (fun t => fst (fst t)) (map subject (books d))) /\
  Forall (fun t => fst (fst t) < book_id_seq d) (map subject (books d)).
Proof.
  unfold consistent. rewrite <- subject_ids, Forall_forall. split.
  - intros [N L]. split; [exact N|]. intros t Ht.
    apply in_map_iff in Ht. destruct Ht as (b & <- & Hb). apply L. exact Hb.
  - intros [N L]. split; [exact N|]. intros b Hb.
    apply (L (subject b)). apply in_map. exact Hb.
Qed.

(** X12: no request removes a booking or changes the id, the user or the
    event of one: the rows after a request are the rows before it, in their
    order, and behind them at most one new row, which has the next id of the
    sequence and the user of the header.  Unique ids below the sequence stay
    so. *)
Theorem bookings_are_never_removed :
  forall (Do : Request -> RoundTrip) (io : storage) (fuel : nat)
         (r : Request) (w : world) (o : outcome),
    ServeHTTP Do io fuel r w = Some o ->
    (exists rest,
       map subject (books (db (after o)))
       = map subject (books (db w)) ++ rest /\
       (rest = [] \/
        exists uid eid,
          Atoi (HeaderGet r "X-User-Id") = Some uid /\
          rest = [(book_id_seq (db w), uid, eid)])) /\
    (consistent (db w) -> consistent (db (after o))).
Proof.
  intros Do io fuel r w o H.
  destruct (ServeHTTP_rows Do io fuel r w o H)
    as [[A B]|(u & e & Hu & A & B)].
  - split.
    + exists []. rewrite List.app_nil_r. auto.
    + rewrite !consistent_ids, A, B. auto.
  - split.
    + exists [(book_id_seq (db w), u, e)]. split; [exact A|]. right. eauto.
    + rewrite !consistent_ids, A, B. intros [N L]. split.
      * rewrite map_app. cbn [map fst]. apply MoreFacts.NoDup_snoc; [exact N|].
        intros Hin. apply in_map_iff in Hin.
        destruct Hin as (t & Ht & Hin).
        rewrite Forall_forall in L. specialize (L t Hin). lia.
      * apply Forall_app. split.
        -- eapply Forall_impl; [|exact L]. cbv beta. intros t Ht. lia.
        -- constructor; [cbn [fst]; lia|constructor].
Qed.

Lemma bookings_are_never_removed_witness :
  exists o,
    ServeHTTP (fun _ => doError) storageUp 2
              (bookRequest 8 (q "{'event_id':10}")) awaitingPayment = Some o /\
    exists rest,
      map subject (books (db (after o)))
      = map subject (books (db awaitingPayment)) ++ rest /\
      (rest = [] \/
       exists uid eid,
         Atoi (HeaderGet (bookRequest 8 (q "{'event_id':10}")) "X-User-Id")
         = Some uid /\
         rest = [(book_id_seq (db awaitingPayment), uid, eid)]).
Proof.
  eexists. split; [vm_compute; reflexivity|].
  apply (bookings_are_never_removed (fun _ => doError) storageUp 2
           (bookRequest 8 (q "{'event_id':10}")) awaitingPayment).
  vm_compute. reflexivity.
Defined.

(** ** A status update that fails *)

(** X13: the step function writes the next status of a Created or an Occupied
    booking and calls itself without looking at the result of the write: when
    the storage reads the booking and refuses the update, the booking it
    reads is the same again, and no depth of calls is enough for the step to
    return. *)
Theorem failed_status_update_never_returns :
  forall (Do : Request -> RoundTrip) (io : storage) (fuel : nat)
         (bid : Z) (w : world) (b : bookModel),
    io "getBookStmt" = true -> io "updateStatusStmt" = false ->
    getBookTpl (db w) bid = Some b ->
    Status b = statusCreated \/ Status b = statusOccupied ->
    actionBookStatus Do io fuel bid w = None.
Proof.
  intros Do io fuel bid w b G U Hb Hs.
  induction fuel as [|fuel IH]; [reflexivity|].
  cbn [actionBookStatus]. unfold getBook. rewrite G, Hb.
  unfold modifyBookStatus, exec. rewrite U. cbn [fst]. rewrite IH.
  destruct Hs as [-> | ->]; reflexivity.
Qed.

Lemma failed_status_update_never_returns_witness :
  actionBookStatus (fun _ => doResponse 200) statusStmtDown 1000 1 justCreated
  = None.
Proof.
  apply (failed_status_update_never_returns (fun _ => doResponse 200)
           statusStmtDown 1000 1 justCreated (mkBook 1 7 10 0 statusCreated));
    [reflexivity|reflexivity|reflexivity|left; reflexivity].
Defined.

(** ** A booking that is not in the table *)

Lemma update_unknown d bid st :
  getBookTpl d bid = None -> updateStatusTpl d bid st = d.
Proof.
  unfold getBookTpl, updateStatusTpl. intros H.
  rewrite (MoreFacts.map_unchanged (fun b => setStatus b st) (fun b => ID b =? bid))
    by exact H.
  destruct d; reflexivity.
Qed.

Lemma price_unknown d bid p :
  getBookTpl d bid = None -> setPriceTpl d bid p = d.
Proof.
  unfold getBookTpl, setPriceTpl. intros H.
  rewrite (MoreFacts.map_unchanged (fun b => setPrice b p) (fun b => ID b =? bid))
    by exact H.
  destruct d; reflexivity.
Qed.

Lemma exec_unknown io stmt f w :
  f (db w) = db w -> fst (exec io stmt f w) = w.
Proof.
  unfold exec. intros H. destruct (io stmt); [|reflexivity].
  cbn [fst]. rewrite H. destruct w; reflexivity.
Qed.

(** X14: for a booking that is not in the table the step function returns the
    error of the lookup and does nothing, and both callbacks are answered 200
    although nothing is written and no request is made. *)
Theorem unknown_booking_is_left_alone :
  forall (Do : Request -> RoundTrip) (io : storage) (fuel : nat)
         (bid : Z) (w : world),
    getBookTpl (db w) bid = None ->
    actionBookStatus Do io (S fuel) bid w
    = Some (w, Some (if io "getBookStmt" then ErrNoRows else ErrDriver)) /\
    (forall r st,
        decodeCallbackPayment (Body r) = Some (mkCallbackPayment bid st) ->
        callbackPayment Do io (S fuel) r w = Some (mkOutcome StatusOK w)) /\
    (forall r u p st,
        decodeCallbackOccupy (Body r) = Some (mkCallbackOccupy bid u p st) ->
        callbackEvents Do io (S fuel) r w = Some (mkOutcome StatusOK w)).
Proof.
  intros Do io fuel bid w Hb.
  assert (Step : actionBookStatus Do io (S fuel) bid w
                 = Some (w, Some (if io "getBookStmt" then ErrNoRows
                                  else ErrDriver))).
  { cbn [actionBookStatus]. unfold getBook. rewrite Hb.
    destruct (io "getBookStmt"); reflexivity. }
  assert (M : forall st, modifyBookStatus io bid st w
                         = (w, snd (modifyBookStatus io bid st w))).
  { intros st. rewrite (surjective_pairing (modifyBookStatus io bid st w)) at 1.
    unfold modifyBookStatus at 1.
    rewrite exec_unknown by (apply update_unknown; exact Hb). reflexivity. }
  split; [exact Step|]. split.
  - intros r st Hd. unfold callbackPayment. rewrite Hd. cbn [cp_Status cp_BookID].
    destruct st.
    + rewrite M, Step. reflexivity.
    + unfold cancelBook. fold (modifyBookStatus io bid statusCancelled w).
      rewrite M. reflexivity.
  - intros r u p st Hd. unfold callbackEvents. rewrite Hd.
    cbn [co_Status co_BookID co_Price].
    destruct st.
    + rewrite M.
      assert (P : setBookPrice io bid p w = (w, snd (setBookPrice io bid p w))).
      { rewrite (surjective_pairing (setBookPrice io bid p w)) at 1.
        unfold setBookPrice at 1.
        rewrite exec_unknown by (apply price_unknown; exact Hb). reflexivity. }
      rewrite P. destruct (snd (setBookPrice io bid p w)).
      * rewrite M. cbn [fst]. rewrite Step. reflexivity.
      * rewrite Step. reflexivity.
    + unfold cancelBook. fold (modifyBookStatus io bid statusCancelled w).
      rewrite M. reflexivity.
Qed.

Lemma unknown_booking_is_left_alone_witness :
  actionBookStatus (fun _ => doError) storageUp 1 5 awaitingPayment
  = Some (awaitingPayment, Some ErrNoRows) /\
  callbackPayment (fun _ => doError) storageUp 1 (paymentCallback 5 7 20 true)
                  awaitingPayment
  = Some (mkOutcome StatusOK awaitingPayment).
Proof.
  split.
  - exact (proj1 (unknown_booking_is_left_alone (fun _ => doError) storageUp 0
                    5 awaitingPayment eq_refl)).
  - exact (proj1 (proj2 (unknown_booking_is_left_alone (fun _ => doError)
                           storageUp 0 5 awaitingPayment eq_refl))
             (paymentCallback 5 7 20 true) true eq_refl).
Defined.

(** ** Creation *)

Lemma getBookTpl_fresh d :
  consistent d -> getBookTpl d (book_id_seq d) = None.
Proof.
  intros [_ L]. unfold getBookTpl.
  destruct (find _ _) as [b|] eqn:F; [|reflexivity].
  apply find_some in F. destruct F as [Hin He].
  apply Z.eqb_eq in He. specialize (L b Hin). lia.
Qed.

Lemma getBookTpl_with_row d b :
  consistent d -> ID b = book_id_seq d ->
  getBookTpl (with_row d b) (book_id_seq d) = Some b.
Proof.
  intros C E. unfold getBookTpl, with_row. cbn [books].
  rewrite MoreFacts.find_snoc. fold (getBookTpl d (book_id_seq d)).
  rewrite getBookTpl_fresh by exact C. rewrite E, Z.eqb_refl. reflexivity.
Qed.

Lemma update_with_row d b st :
  consistent d -> ID b = book_id_seq d ->
  updateStatusTpl (with_row d b) (book_id_seq d) st
  = with_row d (setStatus b st).
Proof.
  intros C E. unfold updateStatusTpl, with_row. cbn [books book_id_seq].
  rewrite map_app. cbn [map]. rewrite E, Z.eqb_refl.
  rewrite (MoreFacts.map_unchanged (fun b => setStatus b st)
             (fun b => ID b =? book_id_seq d)); [reflexivity|].
  apply getBookTpl_fresh. exact C.
Qed.

(** [create], when the storage works and two levels of calls are allowed. *)
Lemma create_outcome Do io fuel r w uid b :
  io "createBookStmt" = true -> io "getBookStmt" = true ->
  io "updateStatusStmt" = true ->
  consistent (db w) ->
  Atoi (HeaderGet r "X-User-Id") = Some uid ->
  decodeBook (Body r) = Some b ->
  let id := book_id_seq (db w) in
  let req := occupySlotRequest id (EventID b) uid in
  create Do io (S (S fuel)) r w
  = Some (mkOutcome StatusOK
            (mkWorld
               (with_row (db w)
                  (mkBook id uid (EventID b) 0
                     (if succeeded (Do req) then statusNeedToOccupy
                      else statusCancelled)))
               (sent w ++ [req]))).
Proof.
  intros Hc Hg Hu C Hh Hb id req. subst id req.
  unfold create, book. rewrite Hh, Hb, Hc. cbn [createBookTpl].
  change (mkDatabase (books (db w) ++ [mkBook (book_id_seq (db w)) uid (EventID b) 0 0])
                     (book_id_seq (db w) + 1))
    with (with_row (db w) (mkBook (book_id_seq (db w)) uid (EventID b) 0 0)).
  remember (S fuel) as n eqn:Hn.
  cbn [actionBookStatus]. unfold getBook. rewrite Hg. cbn [db].
  rewrite getBookTpl_with_row by (auto; reflexivity).
  cbn [Status ID EventID UserID]. change (0 =? statusCreated) with true.
  cbv iota.
  unfold modifyBookStatus, exec. rewrite Hu. cbn [fst db sent].
  rewrite update_with_row by (auto; reflexivity).
  subst n. cbn [actionBookStatus]. unfold getBook. rewrite Hg. cbn [db].
  rewrite getBookTpl_with_row by (auto; reflexivity).
  cbn [setStatus Status ID EventID UserID].
  change (statusNeedToOccupy =? statusCreated) with false.
  change (statusNeedToOccupy =? statusCancelled) with false.
  change (statusNeedToOccupy =? statusNeedToOccupy) with true.
  cbv iota.
  unfold occupySlot, roundTrip. cbn [db sent].
  unfold succeeded.
  destruct (Do (occupySlotRequest (book_id_seq (db w)) (EventID b) uid)) as [|c].
  - unfold cancelBook, exec. rewrite Hu. cbn [db sent].
    rewrite update_with_row by (auto; reflexivity).
    reflexivity.
  - destruct (c =? StatusOK); [reflexivity|].
    unfold cancelBook, exec. rewrite Hu. cbn [db sent].
    rewrite update_with_row by (auto; reflexivity).
    reflexivity.
Qed.

(** X15: [create] books for the user of the header and the event of the
    payload, under the next id of the sequence, whatever id, user, price and
    status the payload names.  It makes one request, to occupy a slot for the
    new booking, and answers the client 200 whatever the pool answers.  When
    the pool does not answer 200, [create] leaves the booking Cancelled; when
    it does, [create] writes nothing more. *)
Theorem create_books_for_the_header_user :
  forall (Do : Request -> RoundTrip) (io : storage) (fuel : nat)
         (r : Request) (w : world) (uid : Z) (b : bookModel),
    io "createBookStmt" = true -> io "getBookStmt" = true ->
    io "updateStatusStmt" = true ->
    consistent (db w) ->
    Atoi (HeaderGet r "X-User-Id") = Some uid ->
    decodeBook (Body r) = Some b ->
    let id := book_id_seq (db w) in
    let req := occupySlotRequest id (EventID b) uid in
    exists o,
      create Do io (S (S fuel)) r w = Some o /\
      code o = StatusOK /\
      sent (after o) = sent w ++ [req] /\
      map subject (books (db (after o)))
      = map subject (books (db w)) ++ [(id, uid, EventID b)] /\
      (succeeded (Do req) = false ->
       statusOf (after o) id = Some statusCancelled) /\
      (forall r' b',
          Atoi (HeaderGet r' "X-User-Id") = Some uid ->
          decodeBook (Body r') = Some b' -> EventID b' = EventID b ->
          create Do io (S (S fuel)) r' w = Some o).
Proof.
  intros Do io fuel r w uid b Hc Hg Hu C Hh Hb id req.
  eexists. split; [exact (create_outcome Do io fuel r w uid b Hc Hg Hu C Hh Hb)|].
  cbn [code after sent db]. fold id req.
  split; [reflexivity|]. split; [reflexivity|]. split.
  { unfold with_row. cbn [books]. rewrite map_app. reflexivity. }
  split.
  { intros F. rewrite F. unfold statusOf. cbn [db]. unfold id.
    rewrite getBookTpl_with_row by (auto; reflexivity). reflexivity. }
  intros r' b' Hh' Hb' He.
  pose proof (create_outcome Do io fuel r' w uid b' Hc Hg Hu C Hh' Hb') as E.
  cbv zeta in E. rewrite E, He. reflexivity.
Qed.

Lemma consistent_justCreated : consistent (db justCreated).
Proof.
  split.
  - simpl. constructor; [intros []|constructor].
  - simpl. intros b [<-|[]]. reflexivity.
Qed.

Lemma create_books_for_the_header_user_witness :
  exists o,
    create (fun _ => doResponse 500) storageUp 2
           (bookRequest 8 (q "{'id':40,'user_id':9,'event_id':10,'price':5,'status':4}"))
           justCreated = Some o /\
    code o = StatusOK /\
    sent (after o) = sent justCreated ++ [occupySlotRequest 2 10 8] /\
    map subject (books (db (after o)))
    = map subject (books (db justCreated)) ++ [(2, 8, 10)] /\
    statusOf (after o) 2 = Some statusCancelled.
Proof.
  destruct (create_books_for_the_header_user (fun _ => doResponse 500) storageUp 0
              (bookRequest 8 (q "{'id':40,'user_id':9,'event_id':10,'price':5,'status':4}"))
              justCreated 8 (mkBook 40 9 10 5 4)
              eq_refl eq_refl eq_refl consistent_justCreated eq_refl eq_refl)
    as (o & H1 & H2 & H3 & H4 & H5 & _).
  exists o. split; [exact H1|]. split; [exact H2|]. split; [exact H3|].
  split; [exact H4|exact (H5 eq_refl)].
Defined.

(** ** The callback of the pool *)

Lemma getBookTpl_price d bid p :
  getBookTpl (setPriceTpl d bid p) bid
  = option_map (fun b => setPrice b p) (getBookTpl d bid).
Proof.
  unfold getBookTpl, setPriceTpl. simpl.
  induction (books d) as [|x l IH]; simpl; [reflexivity|].
  destruct (ID x =? bid) eqn:E; simpl; rewrite E; [reflexivity|exact IH].
Qed.

(** X16: a callback of the pool that reports success is taken on trust: the
    booking it names gets the price it names and, whatever its status was,
    goes on to payment: the ledger is asked once, for the booking with that
    price.  When the ledger does not answer 200, the request for the slot of
    the booking follows and the booking is Cancelled when the handler
    returns.  The callback is answered 200. *)
Theorem reservation_callback_sets_price_and_pays :
  forall (Do : Request -> RoundTrip) (fuel : nat) (r : Request)
         (c : callbackOccupyModel) (w : world) (b : bookModel),
    decodeCallbackOccupy (Body r) = Some c -> co_Status c = true ->
    getBookTpl (db w) (co_BookID c) = Some b ->
    let b' := mkBook (ID b) (UserID b) (EventID b) (co_Price c) statusNeedToPay in
    exists o,
      callbackEvents Do storageUp (S (S fuel)) r w = Some o /\
      code o = StatusOK /\
      sent (after o)
      = sent w ++ payRequest b' ::
          (if succeeded (Do (payRequest b')) then []
           else [cancelSlotRequest b']) /\
      (succeeded (Do (payRequest b')) = false ->
       statusOf (after o) (co_BookID c) = Some statusCancelled).
Proof.
  intros Do fuel r c w b Hd Hs Hb b'.
  rewrite (BookProofs.callbackEvents_success Do (S (S fuel)) r c w Hd Hs).
  destruct (BookProofs.getBookTpl_In _ _ _ Hb) as [_ Hid].
  set (bid := co_BookID c) in *.
  set (d1 := setPriceTpl (updateStatusTpl (db w) bid statusOccupied) bid
                         (co_Price c)).
  assert (G1 : getBookTpl d1 bid = Some (setStatus b' statusOccupied)).
  { unfold d1. rewrite getBookTpl_price, BookProofs.getBookTpl_update, Hb.
    reflexivity. }
  assert (G2 : getBookTpl (updateStatusTpl d1 bid statusNeedToPay) bid = Some b').
  { rewrite BookProofs.getBookTpl_update, G1. reflexivity. }
  remember (S fuel) as n eqn:Hn.
  cbn [actionBookStatus]. unfold getBook. cbn [storageUp db]. rewrite G1.
  cbn [setStatus Status ID].
  change (statusOccupied =? statusCreated) with false.
  change (statusOccupied =? statusCancelled) with false.
  change (statusOccupied =? statusNeedToOccupy) with false.
  change (statusOccupied =? statusOccupied) with true.
  cbv iota.
  unfold modifyBookStatus, exec. cbn [storageUp fst db sent].
  subst n. cbn [actionBookStatus]. unfold getBook. cbn [storageUp db].
  rewrite G2. change (Status b') with statusNeedToPay.
  change (statusNeedToPay =? statusCreated) with false.
  change (statusNeedToPay =? statusCancelled) with false.
  change (statusNeedToPay =? statusNeedToOccupy) with false.
  change (statusNeedToPay =? statusOccupied) with false.
  change (statusNeedToPay =? statusNeedToPay) with true.
  cbv iota.
  unfold payForBook, roundTrip. cbn [db sent].
  assert (G3 : forall d, getBookTpl d bid = Some b' ->
               getBookTpl (updateStatusTpl d bid statusCancelled) bid
               = Some (setStatus b' statusCancelled)).
  { intros d G. rewrite BookProofs.getBookTpl_update, G. reflexivity. }
  assert (G4 : forall d, getBookTpl d bid = Some (setStatus b' statusCancelled) ->
               getBookTpl (updateStatusTpl d bid statusCancelled) bid
               = Some (setStatus b' statusCancelled)).
  { intros d G. rewrite BookProofs.getBookTpl_update, G. reflexivity. }
  assert (Fail :
    exists o,
      match
        (let (w2, _) :=
           cancelBook storageUp (ID b')
             (mkWorld (updateStatusTpl d1 bid statusNeedToPay)
                      (sent w ++ [payRequest b'])) in
         Some (cancelSlot Do b' w2))
      with
      | Some (w2, Some _) => Some (cancelBook storageUp (ID b') w2)
      | Some (w2, None) => Some (w2, None)
      | None => None
      end = Some o /\
      sent (fst o) = sent w ++ [payRequest b'; cancelSlotRequest b'] /\
      getBookTpl (db (fst o)) bid = Some (setStatus b' statusCancelled)).
  { change (ID b') with (ID b). rewrite Hid.
    unfold cancelBook, exec. cbn [storageUp fst db sent].
    unfold cancelSlot, roundTrip. cbn [db sent].
    rewrite <- List.app_assoc. cbn [app].
    destruct (Do (cancelSlotRequest b')) as [|k].
    - eexists. split; [reflexivity|]. cbn [fst db sent].
      split; [reflexivity|]. apply G4, G3, G2.
    - destruct (k =? StatusOK).
      + eexists. split; [reflexivity|]. cbn [fst db sent].
        split; [reflexivity|]. apply G3, G2.
      + eexists. split; [reflexivity|]. cbn [fst db sent].
        split; [reflexivity|]. apply G4, G3, G2. }
  unfold succeeded, statusOf. destruct (Do (payRequest b')) as [|k].
  - destruct Fail as ([w3 e3] & -> & F1 & F2).
    eexists. split; [reflexivity|]. split; [reflexivity|].
    cbn [after fst] in *. split; [exact F1|]. intros _. rewrite F2. reflexivity.
  - destruct (k =? StatusOK).
    + eexists. split; [reflexivity|]. split; [reflexivity|].
      cbn [after db sent]. split; [reflexivity|discriminate].
    + destruct Fail as ([w3 e3] & -> & F1 & F2).
      eexists. split; [reflexivity|]. split; [reflexivity|].
      cbn [after fst] in *. split; [exact F1|]. intros _. rewrite F2. reflexivity.
Qed.

Lemma reservation_callback_sets_price_and_pays_witness :
  succeeded (Saga.peers true false [] Saga.heldPool
               (payRequest (mkBook 1 7 10 35 statusNeedToPay))) = false /\
  exists o,
    callbackEvents (Saga.peers true false [] Saga.heldPool) storageUp 2
                   (eventsCallback 1 9 35 true) Saga.cancelledWorld = Some o /\
    code o = StatusOK /\
    sent (after o)
    = [payRequest (mkBook 1 7 10 35 statusNeedToPay);
       cancelSlotRequest (mkBook 1 7 10 35 statusNeedToPay)] /\
    statusOf (after o) 1 = Some statusCancelled.
Proof.
  assert (F : succeeded (Saga.peers true false [] Saga.heldPool
                           (payRequest (mkBook 1 7 10 35 statusNeedToPay)))
              = false) by reflexivity.
  split; [exact F|].
  destruct (reservation_callback_sets_price_and_pays
              (Saga.peers true false [] Saga.heldPool) 0
              (eventsCallback 1 9 35 true) (mkCallbackOccupy 1 9 35 true)
              Saga.cancelledWorld (mkBook 1 7 10 20 statusCancelled)
              eq_refl eq_refl eq_refl)
    as (o & H1 & H2 & H3 & H4).
  exists o. split; [exact H1|]. split; [exact H2|].
  split; [|exact (H4 F)].
  rewrite H3. reflexivity.
Defined.

End BookMore.

(** * What one service writes and the other reads *)

Module WireProofs.
Import Go.
Local Open Scope list_scope.

(** The object of a callback, as both peers marshal it, read back. *)
Lemma parse_callback a b c st :
  parseObject (Marshal [("book_id", inl a); ("user_id", inl b);
                        ("price", inl c); ("status", inr st)])
  = Some [("book_id", jnumber (Itoa a)); ("user_id", jnumber (Itoa b));
          ("price", jnumber (Itoa c)); ("status", jbool st)].
Proof.
  unfold parseObject, Marshal.
  cbn [marshalFields marshalValue append].
  repeat (rewrite MoreFacts.append_assoc; cbn [append]).
  rewrite GoFacts.skip_ws_nonspace by reflexivity. cbv iota.
  rewrite GoFacts.skip_ws_nonspace by reflexivity. cbv iota.
  cbn [String.length].
  erewrite GoFacts.members_number; [| reflexivity | reflexivity | reflexivity].
  rewrite GoFacts.skip_ws_nonspace by reflexivity. cbv iota.
  erewrite GoFacts.members_number; [| reflexivity | reflexivity | reflexivity].
  rewrite GoFacts.skip_ws_nonspace by reflexivity. cbv iota.
  erewrite GoFacts.members_number; [| reflexivity | reflexivity | reflexivity].
  rewrite GoFacts.skip_ws_nonspace by reflexivity. cbv iota.
  destruct st; reflexivity.
Qed.

(** X17: the callback of the ledger reaches [callbackPayment] of the
    orchestrator, which reads from it the booking and the outcome the ledger
    wrote. *)
Theorem payment_callback_round_trip :
  forall (r : Account.withDrawalResponseModel),
    is_int (Account.wc_BookID r) = true ->
    Book.decodeCallbackPayment (Body (Account.sendCallback r))
    = Some (Book.mkCallbackPayment (Account.wc_BookID r) (Account.wc_Status r)) /\
    forall Do io fuel w,
      Book.ServeHTTP Do io fuel (Account.sendCallback r) w
      = Book.callbackPayment Do io fuel (Account.sendCallback r) w.
Proof.
  intros r Hi. split; [|reflexivity].
  unfold Book.decodeCallbackPayment.
  change (Body (Account.sendCallback r))
    with (Account.marshalWithDrawalResponse r).
  unfold Account.marshalWithDrawalResponse. rewrite parse_callback.
  cbn [intField boolField]. fold_keys. cbv iota.
  rewrite GoFacts.Atoi_Itoa by exact Hi. reflexivity.
Qed.

Lemma payment_callback_round_trip_witness :
  is_int 3 = true /\
  Book.decodeCallbackPayment
    (Body (Account.sendCallback (Account.mkWithDrawalResponse 3 1 70 false)))
  = Some (Book.mkCallbackPayment 3 false).
Proof.
  split; [reflexivity|].
  exact (proj1 (payment_callback_round_trip
                  (Account.mkWithDrawalResponse 3 1 70 false) eq_refl)).
Defined.

(** X18: the callback of the pool reaches [callbackEvents] of the
    orchestrator, which reads from it the booking, the user, the price and
    the outcome the pool wrote. *)
Theorem reservation_callback_round_trip :
  forall (r : Events.occupiedResponseModel),
    is_int (Events.ro_BookID r) = true ->
    is_int (Events.ro_UserID r) = true ->
    is_int (Events.ro_Price r) = true ->
    Book.decodeCallbackOccupy (Body (Events.sendCallback r))
    = Some (Book.mkCallbackOccupy (Events.ro_BookID r) (Events.ro_UserID r)
                                  (Events.ro_Price r) (Events.ro_Status r)) /\
    forall Do io fuel w,
      Book.ServeHTTP Do io fuel (Events.sendCallback r) w
      = Book.callbackEvents Do io fuel (Events.sendCallback r) w.
Proof.
  intros r Hb Hu Hp. split; [|reflexivity].
  unfold Book.decodeCallbackOccupy.
  change (Body (Events.sendCallback r))
    with (Events.marshalOccupiedResponse r).
  unfold Events.marshalOccupiedResponse. rewrite parse_callback.
  cbn [intField boolField]. fold_keys. cbv iota.
  rewrite !GoFacts.Atoi_Itoa by assumption. reflexivity.
Qed.

Lemma reservation_callback_round_trip_witness :
  is_int 1 = true /\ is_int 7 = true /\ is_int 20 = true /\
  Book.decodeCallbackOccupy
    (Body (Events.sendCallback (Events.mkOccupiedResponse 1 7 20 true)))
  = Some (Book.mkCallbackOccupy 1 7 20 true).
Proof.
  split; [reflexivity|]. split; [reflexivity|]. split; [reflexivity|].
  exact (proj1 (reservation_callback_round_trip
                  (Events.mkOccupiedResponse 1 7 20 true)
                  eq_refl eq_refl eq_refl)).
Defined.

(** X19: the request of [occupySlot] reaches [occupy] of the pool, which reads
    from it the booking, the event and the user the orchestrator wrote. *)
Theorem occupy_request_round_trip :
  forall (bid eid uid : Z),
    is_int bid = true -> is_int eid = true -> is_int uid = true ->
    Events.decodeOccupyRequest (Body (Book.occupySlotRequest bid eid uid))
    = Some (Events.mkOccupyRequest bid eid) /\
    Events.getUserID (Book.occupySlotRequest bid eid uid) = Some uid /\
    forall uniq io d,
      Events.ServeHTTP uniq io (Book.occupySlotRequest bid eid uid) d
      = Events.occupy uniq io (Book.occupySlotRequest bid eid uid) d.
Proof.
  intros bid eid uid Hb He Hu. split; [|split; [|reflexivity]].
  - apply SagaProofs.decode_occupy_body; assumption.
  - apply GoFacts.Atoi_Itoa. exact Hu.
Qed.

Lemma occupy_request_round_trip_witness :
  is_int 1 = true /\ is_int 10 = true /\ is_int 7 = true /\
  Events.decodeOccupyRequest (Body (Book.occupySlotRequest 1 10 7))
  = Some (Events.mkOccupyRequest 1 10).
Proof.
  split; [reflexivity|]. split; [reflexivity|]. split; [reflexivity|].
  exact (proj1 (occupy_request_round_trip 1 10 7 eq_refl eq_refl eq_refl)).
Defined.

End WireProofs.

(** * Further properties of the services together *)

Module SagaMore.
Import Go Saga.
Local Open Scope list_scope.

(** X20: a request without the header [X-User-Id], under any spelling of
    the name, reaches no handler of the ledger, the pool or the orchestrator:
    the answer is not 200, nothing is written and no request is made. *)
Theorem requests_without_user_are_refused :
  forall (r : Request),
    HeaderHas r "X-User-Id" = false ->
    (forall uq io t,
        let o := Account.ServeHTTP uq io r t in
        Account.code o <> StatusOK /\ Account.sent o = [] /\ Account.db o = t) /\
    (forall us io d,
        let o := Events.ServeHTTP us io r d in
        Events.code o <> StatusOK /\ Events.sent o = [] /\ Events.db o = d) /\
    (forall Do io fuel w,
        exists c, Book.ServeHTTP Do io fuel r w = Some (Book.mkOutcome c w) /\
                  c <> StatusOK).
Proof.
  intros r H. split; [|split].
  - intros uq io t. cbv zeta.
    unfold Account.ServeHTTP, Account.isAuthenticatedMiddleware. rewrite H.
    repeat match goal with
    | |- context [if unclean ?a then _ else _] => destruct (unclean a)
    | |- context [if String.eqb ?a ?b then _ else _] =>
        destruct (String.eqb a b)
    end; simpl; (split; [discriminate|auto]).
  - intros us io d. cbv zeta.
    unfold Events.ServeHTTP, Events.isAuthenticatedMiddleware. rewrite H.
    repeat match goal with
    | |- context [if unclean ?a then _ else _] => destruct (unclean a)
    | |- context [if String.eqb ?a ?b then _ else _] =>
        destruct (String.eqb a b)
    | |- context [match strip_prefix ?a ?b with _ => _ end] =>
        destruct (strip_prefix a b)
    | |- context [if ?a || ?b then _ else _] => destruct (a || b)
    end; simpl; (split; [discriminate|auto]).
  - intros Do io fuel w.
    unfold Book.ServeHTTP, Book.isAuthenticatedMiddleware. rewrite H.
    repeat match goal with
    | |- context [if unclean ?a then _ else _] => destruct (unclean a)
    | |- context [if String.eqb ?a ?b then _ else _] =>
        destruct (String.eqb a b)
    end; eexists; (split; [reflexivity|discriminate]).
Qed.

Lemma requests_without_user_are_refused_witness :
  HeaderHas anonymous "X-User-Id" = false /\
  HeaderHas (mkRequest "POST" (URL anonymous) [("x-user-id", "1")] "")
            "X-User-Id" = true /\
  Account.db (Account.ServeHTTP true storageUp anonymous Account.richLedger)
  = Account.richLedger.
Proof.
  split; [reflexivity|]. split; [reflexivity|].
  exact (proj2 (proj2 (proj1 (requests_without_user_are_refused anonymous eq_refl)
                         true storageUp Account.richLedger))).
Defined.

(** ** A payment through the routes of the ledger *)

(** X21: the orchestrator asks for a payment with PUT and the ledger routes
    the withdrawal under POST: whatever the ledger holds, the request is
    refused before it reaches [withdrawal], no balance changes and no callback
    is sent.  So a booking that waits for payment is Cancelled by the step
    that asks for it, and the request for its slot follows. *)
Theorem saga_payment_is_always_refused :
  forall (uq us : bool) (ledger : Account.table) (pool : Events.database)
         (io : storage) (fuel : nat) (w : Book.world) (b : Book.bookModel),
    Book.getBook io (Book.ID b) w = inl b ->
    Book.Status b = Book.statusNeedToPay ->
    (forall lio,
        let o := Account.ServeHTTP uq lio (Book.payRequest b) ledger in
        Account.code o = StatusMethodNotAllowed /\
        Account.sent o = [] /\ Account.db o = ledger) /\
    Book.succeeded (peers uq us ledger pool (Book.payRequest b)) = false /\
    exists w' e,
      Book.actionBookStatus (peers uq us ledger pool) io (S fuel) (Book.ID b) w
      = Some (w', e) /\
      Book.sent w' = Book.sent w ++ [Book.payRequest b; Book.cancelSlotRequest b] /\
      Book.db w' = (if io "updateStatusStmt"
                    then Book.updateStatusTpl (Book.db w) (Book.ID b)
                                              Book.statusCancelled
                    else Book.db w).
Proof.
  intros uq us ledger pool io fuel w b Hg Hs.
  assert (R : forall lio, Account.ServeHTTP uq lio (Book.payRequest b) ledger
                          = Account.mkOutcome StatusMethodNotAllowed [] ledger)
    by (intros lio; apply SagaProofs.ledger_refuses_payment).
  assert (F : peers uq us ledger pool (Book.payRequest b)
              = doResponse StatusMethodNotAllowed).
  { unfold peers.
    change (String.eqb (urlHost (URL (Book.payRequest b))) accountHost) with true.
    cbv iota. rewrite R. reflexivity. }
  split; [intros lio; cbv zeta; rewrite R; auto|].
  split; [rewrite F; reflexivity|].
  cbn [Book.actionBookStatus]. rewrite Hg, Hs.
  change (Book.statusNeedToPay =? Book.statusCreated) with false.
  change (Book.statusNeedToPay =? Book.statusCancelled) with false.
  change (Book.statusNeedToPay =? Book.statusNeedToOccupy) with false.
  change (Book.statusNeedToPay =? Book.statusOccupied) with false.
  change (Book.statusNeedToPay =? Book.statusNeedToPay) with true.
  cbv iota.
  unfold Book.payForBook, Book.roundTrip. rewrite F.
  change (StatusMethodNotAllowed =? StatusOK) with false. cbv iota.
  unfold Book.cancelBook, Book.exec. cbn [Book.db Book.sent].
  destruct (io "updateStatusStmt");
    match goal with
    | |- context [Book.cancelSlot ?D b ?x] =>
        pose proof (BookProofs.roundTrip_db D (Book.cancelSlotRequest b)
                      "failed to cancel slot" x) as Rd;
        pose proof (BookMore.roundTrip_sent D (Book.cancelSlotRequest b)
                      "failed to cancel slot" x) as Rs;
        fold (Book.cancelSlot D b x) in Rd, Rs;
        destruct (Book.cancelSlot D b x) as [w' e]
    end; cbn [fst Book.db Book.sent] in Rd, Rs;
    exists w', e; (split; [reflexivity|]); rewrite Rs, Rd, <- List.app_assoc;
    split; reflexivity.
Qed.

Lemma saga_payment_is_always_refused_witness :
  Book.getBook storageUp 1 heldWorld = inl heldBooking /\
  Account.getBalanceTpl [Account.mkEntry 7 "r1" 500 1] 7 = 500 /\
  Book.succeeded (peers true true [Account.mkEntry 7 "r1" 500 1] heldPool
                        (Book.payRequest heldBooking)) = false.
Proof.
  split; [reflexivity|]. split; [reflexivity|].
  exact (proj1 (proj2
    (saga_payment_is_always_refused true true [Account.mkEntry 7 "r1" 500 1]
       heldPool storageUp 0 heldWorld heldBooking eq_refl eq_refl))).
Defined.

(** ** A booking of an event the pool does not have *)

(** X22: a booking of an event that is not in the catalogue of the pool is
    created and Cancelled in the same request, and the client is answered 200:
    the pool answers the occupy request with 500 and records nothing, and its
    callback reports a failure with price 0 for the booking just made. *)
Theorem booking_of_unknown_event_is_cancelled :
  forall (uq us : bool) (ledger : Account.table) (pool : Events.database)
         (fuel : nat) (r : Request) (w : Book.world) (uid : Z)
         (b : Book.bookModel),
    Book.consistent (Book.db w) ->
    Atoi (HeaderGet r "X-User-Id") = Some uid ->
    Book.decodeBook (Body r) = Some b ->
    is_int (Book.book_id_seq (Book.db w)) = true ->
    Events.getEventTpl pool (Book.EventID b) = None ->
    let id := Book.book_id_seq (Book.db w) in
    let req := Book.occupySlotRequest id (Book.EventID b) uid in
    let answer := Events.ServeHTTP us storageUp req pool in
    Events.code answer = StatusInternalServerError /\
    Events.db answer = pool /\
    Events.sent answer
    = [Events.sendCallback (Events.mkOccupiedResponse id uid 0 false)] /\
    exists o,
      Book.create (peers uq us ledger pool) storageUp (S (S fuel)) r w = Some o /\
      Book.code o = StatusOK /\
      Book.books (Book.db (Book.after o))
      = Book.books (Book.db w) ++
        [Book.mkBook id uid (Book.EventID b) 0 Book.statusCancelled].
Proof.
  intros uq us ledger pool fuel r w uid b C Hh Hb Hi Hno id req answer.
  assert (Hu : is_int uid = true).
  { apply (MoreFacts.Atoi_is_int (HeaderGet r "X-User-Id")). exact Hh. }
  assert (He : is_int (Book.EventID b) = true).
  { apply (BookMore.decodeBook_is_int _ _ Hb). }
  assert (A : answer
              = Events.mkOutcome StatusInternalServerError
                  [Events.sendCallback (Events.mkOccupiedResponse id uid 0 false)]
                  pool).
  { unfold answer.
    change (Events.ServeHTTP us storageUp req pool)
      with (Events.occupy us storageUp req pool).
    unfold Events.occupy, Events.getUserID.
    change (HeaderGet req "X-User-Id") with (Itoa uid).
    rewrite GoFacts.Atoi_Itoa by exact Hu.
    change (Body req) with (Sprintf Book.occupySlotTpl [id; Book.EventID b]).
    rewrite SagaProofs.decode_occupy_body by assumption.
    unfold Events.getEvent. cbn [storageUp Events.EventID Events.BookID].
    rewrite Hno. reflexivity. }
  rewrite A. cbn [Events.code Events.db Events.sent].
  split; [reflexivity|]. split; [reflexivity|]. split; [reflexivity|].
  pose proof (BookMore.create_outcome (peers uq us ledger pool) storageUp fuel
                r w uid b eq_refl eq_refl eq_refl C Hh Hb) as E.
  cbv zeta in E. fold id req in E.
  assert (F : Book.succeeded (peers uq us ledger pool req) = false).
  { unfold peers.
    change (String.eqb (urlHost (URL req)) accountHost) with false.
    change (String.eqb (urlHost (URL req)) eventsHost) with true.
    cbv iota. fold answer. rewrite A. reflexivity. }
  rewrite F in E. eexists. split; [exact E|]. split; reflexivity.
Qed.

Lemma booking_of_unknown_event_is_cancelled_witness :
  Events.getEventTpl Events.emptyDatabase 10 = None /\
  exists o,
    Book.create (peers true true [] Events.emptyDatabase) storageUp 2
                (Book.bookRequest 8 (q "{'event_id':10}")) Book.justCreated
    = Some o /\
    Book.books (Book.db (Book.after o))
    = Book.books (Book.db Book.justCreated) ++
      [Book.mkBook 2 8 10 0 Book.statusCancelled].
Proof.
  split; [reflexivity|].
  destruct (booking_of_unknown_event_is_cancelled true true []
              Events.emptyDatabase 0 (Book.bookRequest 8 (q "{'event_id':10}"))
              Book.justCreated 8 (Book.mkBook 0 0 10 0 0)
              BookMore.consistent_justCreated eq_refl eq_refl eq_refl eq_refl)
    as (_ & _ & _ & o & H1 & _ & H3).
  exists o. split; [exact H1|exact H3].
Defined.

End SagaMore.
